(** * Tuya BLE integration: product catalog, coordinators and sensor entities

    A shallow embedding of [custom_components/tuya_ble/devices.py] and
    [custom_components/tuya_ble/sensor.py].

    - Python values are a small tagged union [pyval]; [float] is the IEEE
      binary64 type of the kernel, which is what a Python float is.
    - Python exceptions are the error side of [result].
    - dictionaries looked up by key are [gmap]s; dictionaries that are
      iterated (the unlock methods) are association lists in insertion order.
    - objects of the host framework (event bus, timers, state machine) are an
      explicit record that the handlers thread through. *)

From Stdlib Require Import ZArith QArith Floats Ascii String.
From stdpp Require Import gmap strings list fin_maps pretty.

Local Open Scope string_scope.
Local Open Scope list_scope.
Local Open Scope Z_scope.

(* ===================================================================== *)
(** ** Python values, exceptions and the builtins the handlers call       *)
(* ===================================================================== *)

Inductive pyval : Type :=
  | VNone
  | VBool (b : bool)
  | VInt (n : Z)
  | VFloat (x : float)
  | VStr (s : string)
  | VBytes (b : string).

Inductive pyexc : Set :=
  | ValueError
  | TypeError
  | OverflowError
  | ZeroDivisionError
  | IndexError
  | KeyError.

Inductive result (A : Type) : Type :=
  | Ok (a : A)
  | Raise (e : pyexc).
Arguments Ok {A} a.
Arguments Raise {A} e.

Definition bind {A B} (r : result A) (k : A -> result B) : result B :=
  match r with
  | Ok a => k a
  | Raise e => Raise e
  end.

Notation "x <- r ;; k" := (bind r (fun x => k))
  (at level 100, r at next level, right associativity).

(** [try: r except (e1, e2): h] *)
Definition try_except {A} (r : result A) (caught : pyexc -> bool) (h : result A)
  : result A :=
  match r with
  | Ok a => Ok a
  | Raise e => if caught e then h else Raise e
  end.

(** The text parsers behind [int(str)] and [int(bytes)], and the two [repr]
    algorithms behind [str(float)] and [str(bytes)], belong to the Python
    runtime; the handlers only depend on whether a parse succeeds. *)
Class PyBuiltins := {
  int_of_str : string -> option Z;
  int_of_bytes : string -> option Z;
  float_repr : float -> string;
  bytes_repr : string -> string
}.

Definition Z_of_bool (b : bool) : Z := if b then 1 else 0.

(** [int(x)] for a float: truncation toward zero; NaN is a [ValueError] and an
    infinity an [OverflowError]. *)
Definition int_of_float (x : float) : result Z :=
  match Prim2SF x with
  | S754_nan => Raise ValueError
  | S754_infinity _ => Raise OverflowError
  | S754_zero _ => Ok 0
  | S754_finite s m e =>
      let a := if 0 <=? e then Z.shiftl (Z.pos m) e else Z.shiftr (Z.pos m) (- e) in
      Ok (if s then - a else a)
  end.

(** [float(n)] for an int: round to nearest even, [OverflowError] beyond the
    binary64 range. *)
Definition float_of_int (n : Z) : result float :=
  match binary_normalize 53 1024 n 0 false with
  | S754_infinity _ => Raise OverflowError
  | sf => Ok (SF2Prim sf)
  end.

(** Exact comparison of a float with an int, as Python's mixed comparison
    does it; [None] for a NaN, which compares false with everything. *)
Definition float_cmp_int (x : float) (n : Z) : option comparison :=
  match Prim2SF x with
  | S754_nan => None
  | S754_infinity s => Some (if s then Lt else Gt)
  | S754_zero _ => Some (0 ?= n)
  | S754_finite s m e =>
      let v := if s then Z.neg m else Z.pos m in
      Some (if 0 <=? e then Z.shiftl v e ?= n else v ?= Z.shiftl n (- e))
  end.

Section Builtins.
Context `{PyBuiltins}.

(** [int(v)] *)
Definition py_int (v : pyval) : result Z :=
  match v with
  | VNone => Raise TypeError
  | VBool b => Ok (Z_of_bool b)
  | VInt n => Ok n
  | VFloat x => int_of_float x
  | VStr s => match int_of_str s with Some n => Ok n | None => Raise ValueError end
  | VBytes b => match int_of_bytes b with Some n => Ok n | None => Raise ValueError end
  end.

(** [str(v)] *)
Definition py_str (v : pyval) : string :=
  match v with
  | VNone => "None"
  | VBool b => if b then "True" else "False"
  | VInt n => pretty n
  | VFloat x => float_repr x
  | VStr s => s
  | VBytes b => bytes_repr b
  end.

End Builtins.

(** [isinstance(v, (int, float))]; [bool] is a subclass of [int]. *)
Definition is_int_or_float (v : pyval) : bool :=
  match v with
  | VBool _ | VInt _ | VFloat _ => true
  | _ => false
  end.

(** [isinstance(v, bool)] *)
Definition is_bool (v : pyval) : bool :=
  match v with
  | VBool _ => true
  | _ => false
  end.

(** [v is None] *)
Definition is_none (v : pyval) : bool :=
  match v with
  | VNone => true
  | _ => false
  end.

(** [a == b] on the values above: numbers compare by value across [bool],
    [int] and [float]; text and bytes compare with their own kind only. *)
Definition py_eq (a b : pyval) : bool :=
  match a, b with
  | VNone, VNone => true
  | VBool x, VBool y => Z_of_bool x =? Z_of_bool y
  | VBool x, VInt y => Z_of_bool x =? y
  | VInt x, VBool y => x =? Z_of_bool y
  | VInt x, VInt y => x =? y
  | VFloat x, VFloat y => PrimFloat.eqb x y
  | VFloat x, VInt y | VInt y, VFloat x =>
      match float_cmp_int x y with Some Eq => true | _ => false end
  | VFloat x, VBool y | VBool y, VFloat x =>
      match float_cmp_int x (Z_of_bool y) with Some Eq => true | _ => false end
  | VStr x, VStr y => String.eqb x y
  | VBytes x, VBytes y => String.eqb x y
  | _, _ => false
  end.

(** [a != b] *)
Definition py_ne (a b : pyval) : bool := negb (py_eq a b).

(** [lo <= v < hi] for a number [v] and ints [lo], [hi]. *)
Definition py_in_range (lo : Z) (v : pyval) (hi : Z) : bool :=
  match v with
  | VBool b => (lo <=? Z_of_bool b) && (Z_of_bool b <? hi)
  | VInt n => (lo <=? n) && (n <? hi)
  | VFloat x =>
      match float_cmp_int x lo, float_cmp_int x hi with
      | Some (Eq | Gt), Some Lt => true
      | _, _ => false
      end
  | _ => false
  end.

(** [l[v]] once [0 <= v < len(l)] is known: a float is no list index. *)
Definition py_index {A} (l : list A) (v : pyval) : result A :=
  match v with
  | VBool b => match l !! Z.to_nat (Z_of_bool b) with Some a => Ok a | None => Raise IndexError end
  | VInt n => match l !! Z.to_nat n with Some a => Ok a | None => Raise IndexError end
  | _ => Raise TypeError
  end.

(** [v / c] for a float [c]: both operands are converted to float first, then
    a zero divisor is refused. *)
Definition py_truediv (v : pyval) (c : float) : result float :=
  a <- match v with
       | VBool b => float_of_int (Z_of_bool b)
       | VInt n => float_of_int n
       | VFloat x => Ok x
       | _ => Raise TypeError
       end ;;
  if PrimFloat.eqb c 0%float then Raise ZeroDivisionError
  else Ok (PrimFloat.div a c).

(** A dict display [{k1: v1, k2: v2, ...}]: later keys replace earlier ones. *)
Definition dict_literal {K} `{Countable K} {V} (items : list (K * V)) : gmap K V :=
  fold_left (fun m kv => <[kv.1 := kv.2]> m) items ∅.

(** [dict.fromkeys(keys, v)], as the items a [**] unpacking contributes. *)
Definition fromkeys {K V} (keys : list K) (v : V) : list (K * V) :=
  map (fun k => (k, v)) keys.

(* ===================================================================== *)
(** ** const.py                                                            *)
(* ===================================================================== *)

(** The integration's own constants. [const.py] is not part of the sources
    at hand, so every definition below is parametric in them. *)
Class Consts := {
  DOMAIN : string;
  FINGERBOT_BUTTON_EVENT : string;
  DEVICE_DEF_MANUFACTURER : string;
  SET_DISCONNECTED_DELAY : float
}.

(** [homeassistant.const] *)
Definition CONF_ADDRESS : string := "address".
Definition CONF_DEVICE_ID : string := "device_id".

(* ===================================================================== *)
(** ** tuya_ble.py: the device library's objects                           *)
(* ===================================================================== *)

(** Modelled from the spec: [tuya_ble.TuyaBLEDataPointType] is declared in
    the device library, outside the sources at hand; these are the kinds of
    datapoint of the vendor protocol, of which the handlers name [DT_VALUE]
    and [DT_ENUM]. *)
Inductive TuyaBLEDataPointType : Set :=
  | DT_RAW
  | DT_BOOL
  | DT_VALUE
  | DT_STRING
  | DT_ENUM
  | DT_BITMAP.

#[global] Instance TuyaBLEDataPointType_eq_dec : EqDecision TuyaBLEDataPointType.
Proof. solve_decision. Defined.

(** Modelled from the spec: [tuya_ble.TuyaBLEDataPoint], "a vendor-protocol
    key/value telemetry or control point reported by a device". The handlers
    read [id], [value] and [changed_by_device] directly, [type] behind
    [hasattr] and [timestamp] behind [getattr(dp, 'timestamp', None)], so the
    last two are optional here. A timestamp is a finite float that is only
    ever compared, which the rational it denotes does exactly. *)
Module DP.
Record t := {
  id : Z;
  timestamp : option Q;
  type : option TuyaBLEDataPointType;
  value : pyval;
  changed_by_device : bool
}.
End DP.
Abbreviation TuyaBLEDataPoint := DP.t.

(** Modelled from the spec: [tuya_ble.TuyaBLEDevice], "a device object
    exposing address/category/product_id/version fields and a keyed datapoint
    table". [datapoints[k]] is the optional lookup [datapoints d !! k] and
    [datapoints.has_id(k)] is [has_id d k]. *)
Record TuyaBLEDevice := {
  address : string;
  device_id : string;
  category : string;
  product_id : string;
  datapoints : gmap Z TuyaBLEDataPoint;
  rssi : pyval
}.

Definition has_id (d : TuyaBLEDevice) (k : Z) : bool :=
  bool_decide (is_Some (datapoints d !! k)).

(* ===================================================================== *)
(** ** devices.py: the product catalog                                     *)
(* ===================================================================== *)

Record TuyaBLEFingerbotInfo := {
  switch : Z;
  mode : Z;
  up_position : Z;
  down_position : Z;
  hold_time : Z;
  reverse_positions : Z;
  manual_control : Z;   (* = 0 *)
  program : Z           (* = 0 *)
}.

Record TuyaBLELockInfo := {
  alarm_lock : Z;
  unlock_ble : Z;
  unlock_fingerprint : Z;
  unlock_password : Z
}.

Record TuyaBLEProductInfo := {
  name : string;
  manufacturer : string;                    (* = DEVICE_DEF_MANUFACTURER *)
  fingerbot : option TuyaBLEFingerbotInfo;  (* = None *)
  lock : option TuyaBLELockInfo             (* = None *)
}.

Record TuyaBLECategoryInfo := {
  products : gmap string TuyaBLEProductInfo;
  info : option TuyaBLEProductInfo          (* = None *)
}.

Section Catalog.
Context `{Consts}.

(** [TuyaBLEProductInfo(name=n)], the other fields at their defaults. *)
Definition product (n : string) : TuyaBLEProductInfo :=
  {| name := n; manufacturer := DEVICE_DEF_MANUFACTURER;
     fingerbot := None; lock := None |}.

Definition product_with_fingerbot (n : string) (f : TuyaBLEFingerbotInfo)
  : TuyaBLEProductInfo :=
  {| name := n; manufacturer := DEVICE_DEF_MANUFACTURER;
     fingerbot := Some f; lock := None |}.

Definition product_with_lock (n : string) (l : TuyaBLELockInfo)
  : TuyaBLEProductInfo :=
  {| name := n; manufacturer := DEVICE_DEF_MANUFACTURER;
     fingerbot := None; lock := Some l |}.

(** [TuyaBLECategoryInfo(products={...})], [info] at its default. *)
Definition category_of (items : list (string * TuyaBLEProductInfo))
  : TuyaBLECategoryInfo :=
  {| products := dict_literal items; info := None |}.

Definition cubetouch : TuyaBLEFingerbotInfo :=
  {| switch := 1; mode := 2; up_position := 5; down_position := 6;
     hold_time := 3; reverse_positions := 4; manual_control := 0; program := 0 |}.

Definition fingerbot_plus : TuyaBLEFingerbotInfo :=
  {| switch := 2; mode := 8; up_position := 15; down_position := 9;
     hold_time := 10; reverse_positions := 11; manual_control := 17;
     program := 121 |}.

Definition fingerbot_plain : TuyaBLEFingerbotInfo :=
  {| switch := 2; mode := 8; up_position := 15; down_position := 9;
     hold_time := 10; reverse_positions := 11; manual_control := 0;
     program := 121 |}.

Definition devices_database_items : list (string * TuyaBLECategoryInfo) :=
  [ ("co2bj", category_of [ ("59s19z5m", product "CO2 Detector") ]);
    ("ms", category_of
       (fromkeys ["ludzroix"; "isk2p555"; "yy2bmcoh"] (product "Smart Lock")
        ++ [ ("mqc2hevy",
              product_with_lock "Smart Lock"
                {| alarm_lock := 21; unlock_ble := 19;
                   unlock_fingerprint := 12; unlock_password := 13 |}) ]));
    ("szjqr", category_of
       ([ ("3yqdo5yt", product_with_fingerbot "CUBETOUCH 1s" cubetouch);
          ("xhf790if", product_with_fingerbot "CubeTouch II" cubetouch) ]
        ++ fromkeys ["blliqpsj"; "ndvkgsrm"; "yiihr7zh"; "neq16kgd"]
             (product_with_fingerbot "Fingerbot Plus" fingerbot_plus)
        ++ fromkeys ["ltak7e1p"; "y6kttvd6"; "yrnk7mnn"; "nvr2rocq";
                     "bnt7wajf"; "rvdceqjh"; "5xhbk964"]
             (product_with_fingerbot "Fingerbot" fingerbot_plain)));
    ("wk", category_of
       (fromkeys ["drlajpqc"; "nhj2j7su"] (product "Thermostatic Radiator Valve")));
    ("wsdcg", category_of [ ("ojzlzzsw", product "Soil moisture sensor") ]);
    ("znhsb", category_of [ ("cdlandip", product "Smart water bottle") ]);
    ("ggq", category_of
       (fromkeys ["6pahkcau"; "hfgdqhho"] (product "Irrigation computer")));
    ("jtmspro", category_of [ ("hc7n0urm", product "A1 Ultra-JM") ]) ].

Definition devices_database : gmap string TuyaBLECategoryInfo :=
  dict_literal devices_database_items.

Definition get_product_info_by_ids (category product_id : string)
  : option TuyaBLEProductInfo :=
  match devices_database !! category with
  | Some category_info =>
      match products category_info !! product_id with
      | Some product_info => Some product_info
      | None => info category_info
      end
  | None => None
  end.

Definition get_device_product_info (device : TuyaBLEDevice)
  : option TuyaBLEProductInfo :=
  get_product_info_by_ids (category device) (product_id device).

End Catalog.

(* ===================================================================== *)
(** ** The host framework as the coordinators see it                       *)
(* ===================================================================== *)

(** An event on the host's bus: its type and its data dict. *)
Record Event := {
  event_type : string;
  event_data : gmap string pyval
}.

(** The part of [HomeAssistant] a coordinator acts on: the events fired on
    [hass.bus], oldest first, and the delayed calls armed with
    [async_call_later] that have neither run nor been cancelled, each under
    the handle its cancel function closes over, with its delay. *)
Record HomeAssistant := {
  bus : list Event;
  timers : list (nat * float);
  next_handle : nat
}.

(** [hass.bus.fire(event_type, event_data)] *)
Definition bus_fire (hass : HomeAssistant) (e : Event) : HomeAssistant :=
  {| bus := bus hass ++ [e]; timers := timers hass; next_handle := next_handle hass |}.

(** [async_call_later(hass, delay, action)]: arms the call and returns the
    handle that cancels it. *)
Definition async_call_later (hass : HomeAssistant) (delay : float)
  : HomeAssistant * nat :=
  ({| bus := bus hass;
      timers := timers hass ++ [(next_handle hass, delay)];
      next_handle := S (next_handle hass) |},
   next_handle hass).

(** Calling the cancel function of handle [h]; cancelling a call that has
    run or was cancelled before does nothing. *)
Definition cancel (hass : HomeAssistant) (h : nat) : HomeAssistant :=
  {| bus := bus hass;
     timers := filter (fun t => t.1 ≠ h) (timers hass);
     next_handle := next_handle hass |}.

Definition armed (hass : HomeAssistant) (h : nat) : bool :=
  bool_decide (h ∈ (timers hass).*1).

(** The attributes [TuyaBLECoordinator.__init__] and
    [TuyaBLEPassiveCoordinator.__init__] set, the same in both classes;
    [listener_updates] counts the calls of the inherited
    [async_update_listeners]. *)
Record Coordinator := {
  hass : HomeAssistant;
  _device : TuyaBLEDevice;
  _disconnected : bool;
  _unsub_disconnect : option nat;
  listener_updates : nat
}.

Definition set_hass (self : Coordinator) (h : HomeAssistant) : Coordinator :=
  {| hass := h; _device := _device self; _disconnected := _disconnected self;
     _unsub_disconnect := _unsub_disconnect self;
     listener_updates := listener_updates self |}.

Definition set_disconnected (self : Coordinator) (b : bool) : Coordinator :=
  {| hass := hass self; _device := _device self; _disconnected := b;
     _unsub_disconnect := _unsub_disconnect self;
     listener_updates := listener_updates self |}.

Definition set_unsub_disconnect (self : Coordinator) (u : option nat) : Coordinator :=
  {| hass := hass self; _device := _device self; _disconnected := _disconnected self;
     _unsub_disconnect := u; listener_updates := listener_updates self |}.

Definition async_update_listeners (self : Coordinator) : Coordinator :=
  {| hass := hass self; _device := _device self; _disconnected := _disconnected self;
     _unsub_disconnect := _unsub_disconnect self;
     listener_updates := S (listener_updates self) |}.

Definition fire (self : Coordinator) (e : Event) : Coordinator :=
  set_hass self (bus_fire (hass self) e).

(** The callbacks a coordinator registers with its device, and the host
    running the delayed call of handle [h]. *)
Inductive callback :=
  | Connected
  | Updated (updates : list TuyaBLEDataPoint)
  | Disconnected
  | TimerFired (h : nat).

Section Coordinators.
Context `{Consts}.

Definition fingerbot_button_event (device : TuyaBLEDevice) : Event :=
  {| event_type := FINGERBOT_BUTTON_EVENT;
     event_data := dict_literal
       [ (CONF_ADDRESS, VStr (address device));
         (CONF_DEVICE_ID, VStr (device_id device)) ] |}.

(** The event [f"{DOMAIN}_lock_{kind}_event"] with its four-entry data. *)
Definition lock_event (device : TuyaBLEDevice) (kind label : string) (v : pyval)
  : Event :=
  {| event_type := (DOMAIN ++ "_lock_" ++ kind ++ "_event")%string;
     event_data := dict_literal
       [ (CONF_ADDRESS, VStr (address device));
         (CONF_DEVICE_ID, VStr (device_id device));
         ("event", VStr label);
         ("value", v) ] |}.

(** [connected] *)
Definition connected (self : Coordinator) : bool := negb (_disconnected self).

(** [__init__], for both classes. *)
Definition new_coordinator (h : HomeAssistant) (device : TuyaBLEDevice) : Coordinator :=
  {| hass := h; _device := device; _disconnected := true;
     _unsub_disconnect := None; listener_updates := 0 |}.

End Coordinators.

(* ===================================================================== *)
(** ** devices.py: class TuyaBLECoordinator                                *)
(* ===================================================================== *)

Module TuyaBLECoordinator.
Section Methods.
Context `{Consts}.

Definition _async_handle_connect (self : Coordinator) : Coordinator :=
  let self :=
    match _unsub_disconnect self with
    | Some unsub => set_hass self (cancel (hass self) unsub)
    | None => self
    end in
  if _disconnected self
  then async_update_listeners (set_disconnected self false)
  else self.

(** The body of the loop under [# Fingerbot events]. *)
Definition fingerbot_step (fb : TuyaBLEFingerbotInfo) (self : Coordinator)
  (update : TuyaBLEDataPoint) : Coordinator :=
  if (DP.id update =? switch fb) && DP.changed_by_device update
  then fire self (fingerbot_button_event (_device self))
  else self.

(** The body of the loop under [# Lock events]. *)
Definition lock_step (lk : TuyaBLELockInfo) (self : Coordinator)
  (update : TuyaBLEDataPoint) : Coordinator :=
  if negb (DP.changed_by_device update) then self   (* continue *)
  else if DP.id update =? alarm_lock lk
  then fire self (lock_event (_device self) "alarm" "alarm_lock" (DP.value update))
  else if DP.id update =? unlock_ble lk
  then fire self (lock_event (_device self) "unlock_ble" "unlock_ble" (DP.value update))
  else if DP.id update =? unlock_fingerprint lk
  then fire self (lock_event (_device self) "unlock_fingerprint"
                    "unlock_fingerprint" (DP.value update))
  else if DP.id update =? unlock_password lk
  then fire self (lock_event (_device self) "unlock_password" "unlock_password" (DP.value update))
  else self.

Definition _async_handle_update (self : Coordinator)
  (updates : list TuyaBLEDataPoint) : Coordinator :=
  let self := _async_handle_connect self in
  let self := async_update_listeners self in
  match get_device_product_info (_device self) with
  | None => self   (* if not info: return *)
  | Some info =>
      let self :=
        match fingerbot info with
        | Some fb =>
            if negb (manual_control fb =? 0)
            then fold_left (fingerbot_step fb) updates self
            else self
        | None => self
        end in
      match lock info with
      | Some lk => fold_left (lock_step lk) updates self
      | None => self
      end
  end.

Definition _set_disconnected (self : Coordinator) : Coordinator :=
  async_update_listeners (set_unsub_disconnect (set_disconnected self true) None).

Definition _async_handle_disconnect (self : Coordinator) : Coordinator :=
  match _unsub_disconnect self with
  | None =>
      let delay := SET_DISCONNECTED_DELAY in
      let '(h, unsub) := async_call_later (hass self) delay in
      set_unsub_disconnect (set_hass self h) (Some unsub)
  | Some _ => self
  end.

(** One callback from the device, or one delayed call run by the host; the
    host runs a delayed call only while it is armed, and disarms it first. *)
Definition handle (self : Coordinator) (c : callback) : Coordinator :=
  match c with
  | Connected => _async_handle_connect self
  | Updated updates => _async_handle_update self updates
  | Disconnected => _async_handle_disconnect self
  | TimerFired h =>
      if armed (hass self) h
      then _set_disconnected (set_hass self (cancel (hass self) h))
      else self
  end.

End Methods.
End TuyaBLECoordinator.

(* ===================================================================== *)
(** ** devices.py: class TuyaBLEPassiveCoordinator                         *)
(* ===================================================================== *)

Module TuyaBLEPassiveCoordinator.
Section Methods.
Context `{Consts}.

Definition _async_handle_connect (self : Coordinator) : Coordinator :=
  let self :=
    match _unsub_disconnect self with
    | Some unsub => set_hass self (cancel (hass self) unsub)
    | None => self
    end in
  if _disconnected self
  then async_update_listeners (set_disconnected self false)
  else self.

Definition fingerbot_step (fb : TuyaBLEFingerbotInfo) (self : Coordinator)
  (update : TuyaBLEDataPoint) : Coordinator :=
  if (DP.id update =? switch fb) && DP.changed_by_device update
  then fire self (fingerbot_button_event (_device self))
  else self.

Definition lock_step (lk : TuyaBLELockInfo) (self : Coordinator)
  (update : TuyaBLEDataPoint) : Coordinator :=
  if DP.changed_by_device update then
    if DP.id update =? alarm_lock lk
    then fire self (lock_event (_device self) "alarm" "alarm_lock" (DP.value update))
    else if DP.id update =? unlock_ble lk
    then fire self (lock_event (_device self) "unlock_ble" "unlock_ble" (DP.value update))
    else if DP.id update =? unlock_fingerprint lk
    then fire self (lock_event (_device self) "unlock_fingerprint"
                    "unlock_fingerprint" (DP.value update))
    else if DP.id update =? unlock_password lk
    then fire self (lock_event (_device self) "unlock_password" "unlock_password" (DP.value update))
    else self
  else self.

Definition _async_handle_update (self : Coordinator)
  (updates : list TuyaBLEDataPoint) : Coordinator :=
  let self := _async_handle_connect self in
  let self := async_update_listeners self in
  let info := get_device_product_info (_device self) in
  let self :=
    match info with
    | Some i =>
        match fingerbot i with
        | Some fb =>
            if negb (manual_control fb =? 0)
            then fold_left (fingerbot_step fb) updates self
            else self
        | None => self
        end
    | None => self
    end in
  match info with
  | Some i =>
      match lock i with
      | Some lk => fold_left (lock_step lk) updates self
      | None => self
      end
  | None => self
  end.

Definition _set_disconnected (self : Coordinator) : Coordinator :=
  async_update_listeners (set_unsub_disconnect (set_disconnected self true) None).

Definition _async_handle_disconnect (self : Coordinator) : Coordinator :=
  match _unsub_disconnect self with
  | None =>
      let delay := SET_DISCONNECTED_DELAY in
      let '(h, unsub) := async_call_later (hass self) delay in
      set_unsub_disconnect (set_hass self h) (Some unsub)
  | Some _ => self
  end.

Definition handle (self : Coordinator) (c : callback) : Coordinator :=
  match c with
  | Connected => _async_handle_connect self
  | Updated updates => _async_handle_update self updates
  | Disconnected => _async_handle_disconnect self
  | TimerFired h =>
      if armed (hass self) h
      then _set_disconnected (set_hass self (cancel (hass self) h))
      else self
  end.

End Methods.
End TuyaBLEPassiveCoordinator.

(* ===================================================================== *)
(** ** sensor.py                                                           *)
(* ===================================================================== *)

(** [homeassistant.components.sensor.SensorDeviceClass], the members the
    mappings of this file use. *)
Inductive SensorDeviceClass : Set :=
  | BATTERY
  | CO2
  | DURATION
  | ENUM
  | HUMIDITY
  | MOISTURE
  | SIGNAL_STRENGTH
  | TEMPERATURE
  | WATER.

#[global] Instance SensorDeviceClass_eq_dec : EqDecision SensorDeviceClass.
Proof. solve_decision. Defined.

(** [SensorEntityDescription], the fields the handlers read. *)
Record SensorEntityDescription := {
  key : string;
  device_class : option SensorDeviceClass;
  options : option (list string);
  icon : option string
}.

Module TuyaBLESensor.

(** What a sensor object holds besides its mapping; a getter of a mapping
    reads and writes these. [state_writes] counts [async_write_ha_state]. *)
Record entity := {
  _device : TuyaBLEDevice;
  entity_description : SensorEntityDescription;
  _attr_native_value : pyval;
  _attr_icon : option string;
  state_writes : nat
}.

(** [TuyaBLESensorMapping], the fields the handlers read. *)
Record TuyaBLESensorMapping := {
  dp_id : Z;
  description : SensorEntityDescription;
  getter : option (entity -> result entity);
  coefficient : float;          (* = 1.0 *)
  icons : option (list string)  (* = None *)
}.

Record t := {
  self : entity;
  _mapping : TuyaBLESensorMapping
}.

Definition set_native_value (e : entity) (v : pyval) : entity :=
  {| _device := _device e; entity_description := entity_description e;
     _attr_native_value := v; _attr_icon := _attr_icon e;
     state_writes := state_writes e |}.

Definition set_icon (e : entity) (i : option string) : entity :=
  {| _device := _device e; entity_description := entity_description e;
     _attr_native_value := _attr_native_value e; _attr_icon := i;
     state_writes := state_writes e |}.

Definition async_write_ha_state (e : entity) : entity :=
  {| _device := _device e; entity_description := entity_description e;
     _attr_native_value := _attr_native_value e; _attr_icon := _attr_icon e;
     state_writes := S (state_writes e) |}.

Definition with_entity (s : t) (e : entity) : t :=
  {| self := e; _mapping := _mapping s |}.

Definition __init__ (device : TuyaBLEDevice) (mapping : TuyaBLESensorMapping) : t :=
  {| self := {| _device := device; entity_description := description mapping;
                _attr_native_value := VNone; _attr_icon := None;
                state_writes := 0 |};
     _mapping := mapping |}.

Section Methods.
Context `{PyBuiltins}.

Definition battery_enum_getter (e : entity) : result entity :=
  match datapoints (_device e) !! 104 with
  | Some datapoint =>
      try_except
        (value <- py_int (DP.value datapoint) ;;
         Ok (set_native_value e (VInt (value * 20))))
        (fun exc => match exc with ValueError | TypeError => true | _ => false end)
        (Ok (set_native_value e VNone))
  | None => Ok e
  end.

Definition rssi_getter (e : entity) : result entity :=
  Ok (set_native_value e (rssi (_device e))).

Definition _handle_enum_value (s : t) (value : pyval) : result entity :=
  let e := self s in
  e <- match options (entity_description e) with
       | Some opts =>
           if py_in_range 0 value (Z.of_nat (length opts))
           then o <- py_index opts value ;; Ok (set_native_value e (VStr o))
           else Ok (set_native_value e value)
       | None => Ok (set_native_value e value)
       end ;;
  match icons (_mapping s) with
  | Some ics =>
      if py_in_range 0 value (Z.of_nat (length ics))
      then i <- py_index ics value ;; Ok (set_icon e (Some i))
      else Ok e
  | None => Ok e
  end.

Definition _handle_coordinator_update (s : t) : result t :=
  match getter (_mapping s) with
  | Some g =>
      e <- g (self s) ;;
      Ok (with_entity s (async_write_ha_state e))
  | None =>
      match datapoints (_device (self s)) !! dp_id (_mapping s) with
      | None => Ok s
      | Some datapoint =>
          if is_none (DP.value datapoint) then Ok s
          else
            let value := DP.value datapoint in
            e <- (if is_int_or_float value && bool_decide (is_Some (DP.type datapoint))
                  then
                    if bool_decide (DP.type datapoint = Some DT_ENUM)
                    then _handle_enum_value s value
                    else if bool_decide (DP.type datapoint = Some DT_VALUE)
                    then
                      result <- py_truediv value (coefficient (_mapping s)) ;;
                      if bool_decide (device_class (entity_description (self s))
                                      = Some BATTERY)
                      then n <- int_of_float result ;;
                           Ok (set_native_value (self s) (VInt n))
                      else Ok (set_native_value (self s) (VFloat result))
                    else Ok (set_native_value (self s) value)
                  else if is_bool value
                  then n <- py_int value ;; Ok (set_native_value (self s) (VInt n))
                  else Ok (set_native_value (self s) (VStr (py_str value)))) ;;
            Ok (with_entity s (async_write_ha_state e))
      end
  end.

End Methods.
End TuyaBLESensor.

(** [a > b] on timestamps. *)
Definition Qgtb (a b : Q) : bool := negb (Qle_bool a b).

(** [d.get(k, default)] on a dict kept as its items in insertion order. *)
Fixpoint dict_get {V} (d : list (Z * V)) (k : Z) (default : V) : V :=
  match d with
  | [] => default
  | (k', v) :: d' => if k' =? k then v else dict_get d' k default
  end.

(** A [for] loop whose body may raise. *)
Fixpoint for_each {A S} (xs : list A) (body : S -> A -> result S) (s : S)
  : result S :=
  match xs with
  | [] => Ok s
  | x :: xs' => s' <- body s x ;; for_each xs' body s'
  end.

Module TuyaBLELastUnlockSensor.

Record t := {
  _device : TuyaBLEDevice;
  _unlock_methods : list (Z * string);
  _attr_native_value : pyval;
  _attr_extra_state_attributes : gmap string pyval;
  _last_values : gmap Z pyval;
  state_writes : nat
}.

(** [__init__], given the [unlock_methods] of the mapping. *)
Definition __init__ (device : TuyaBLEDevice) (unlock_methods : list (Z * string)) : t :=
  {| _device := device;
     _unlock_methods := unlock_methods;
     _attr_native_value := VNone;
     _attr_extra_state_attributes := ∅;
     _last_values := dict_literal (map (fun dp_id => (dp_id, VNone)) unlock_methods.*1);
     state_writes := 0 |}.

(** The local variables of [_handle_coordinator_update], with the one
    attribute its loop assigns. *)
Record locals := {
  last_method : option string;
  last_value : pyval;
  last_time : option Q;
  last_values : gmap Z pyval
}.

(** The body of [for dp_id in self._unlock_methods.keys()]. *)
Definition loop_body (device : TuyaBLEDevice) (unlock_methods : list (Z * string))
  (l : locals) (dp_id : Z) : result locals :=
  if has_id device dp_id then
    match datapoints device !! dp_id with
    | Some dp =>
        let dp_value := DP.value dp in
        match DP.timestamp dp with
        | Some dp_time =>
            if match last_time l with
               | None => true
               | Some t => Qgtb dp_time t
               end
            then Ok {| last_time := Some dp_time;
                       last_method := Some (dict_get unlock_methods dp_id (pretty dp_id));
                       last_value := dp_value;
                       last_values := last_values l |}
            else Ok l
        | None =>
            if negb (is_none dp_value) then
              match last_values l !! dp_id with
              | None => Raise KeyError
              | Some old =>
                  if py_ne old dp_value
                  then Ok {| last_time := last_time l;
                             last_method := Some (dict_get unlock_methods dp_id (pretty dp_id));
                             last_value := dp_value;
                             last_values := <[dp_id := dp_value]> (last_values l) |}
                  else Ok l
              end
            else Ok l
        end
    | None => Ok l
    end
  else Ok l.

Definition _handle_coordinator_update (self : t) : result t :=
  l <- for_each (_unlock_methods self).*1
         (loop_body (_device self) (_unlock_methods self))
         {| last_method := None; last_value := VNone; last_time := None;
            last_values := _last_values self |} ;;
  Ok {| _device := _device self;
        _unlock_methods := _unlock_methods self;
        _attr_native_value :=
          match last_method l with
          | Some m => VStr m
          | None => _attr_native_value self
          end;
        _attr_extra_state_attributes :=
          match last_method l with
          | Some m => dict_literal [("method", VStr m); ("value", last_value l)]
          | None => _attr_extra_state_attributes self
          end;
        _last_values := last_values l;
        state_writes := S (state_writes self) |}.

End TuyaBLELastUnlockSensor.

(* ===================================================================== *)
(** ** devices.py: addresses, names and the device registry entry          *)
(* ===================================================================== *)

Fixpoint string_map (f : ascii -> ascii) (s : string) : string :=
  match s with
  | EmptyString => EmptyString
  | String c s' => String (f c) (string_map f s')
  end.

(** [s.replace(a, b)] for one-character [a] and [b]. *)
Definition replace_char (a b : ascii) (s : string) : string :=
  string_map (fun c => if Ascii.eqb c a then b else c) s.

(** [s.upper()] on ASCII text, which is what a Bluetooth address is: the
    letters a to z go to A to Z and every other character stays. *)
Definition upper_char (c : ascii) : ascii :=
  let n := nat_of_ascii c in
  if (97 <=? n)%nat && (n <=? 122)%nat then ascii_of_nat (n - 32) else c.

Definition py_upper (s : string) : string := string_map upper_char s.

(** [s.split(sep)] for a one-character [sep]: one more part than there are
    separators, empty parts included. *)
Fixpoint split_on (sep : ascii) (s : string) : list string :=
  match s with
  | EmptyString => [EmptyString]
  | String c s' =>
      if Ascii.eqb c sep then EmptyString :: split_on sep s'
      else match split_on sep s' with
           | [] => [String c EmptyString]
           | part :: parts => String c part :: parts
           end
  end.

(** [l[-k]] for [k >= 1]. *)
Definition from_end {A} (l : list A) (k : nat) : result A :=
  if (k <=? length l)%nat
  then match l !! (length l - k)%nat with
       | Some a => Ok a
       | None => Raise IndexError
       end
  else Raise IndexError.

(** [s[-n:]] for [n >= 1]. *)
Definition last_chars (n : nat) (s : string) : string :=
  String.substring (String.length s - n) n s.

Definition get_short_address (address : string) : result string :=
  let results := split_on ":" (py_upper (replace_char "-" ":" address)) in
  r3 <- from_end results 3 ;;
  r2 <- from_end results 2 ;;
  r1 <- from_end results 1 ;;
  Ok (last_chars 6 (r3 ++ r2 ++ r1)%string).

(** Modelled from the spec: [tuya_ble.TuyaBLEDeviceCredentials], what "a
    credentials-retrieval call against a cloud/device-manager collaborator"
    returns; [get_device_readable_name] reads these three fields. *)
Module Credentials.
Record t := {
  category : string;
  product_id : string;
  device_name : string
}.
End Credentials.

(** [BluetoothServiceInfoBleak], the two attributes read here; [name] is
    [discovery_info.device.name], which a BLE device may lack. *)
Module ServiceInfo.
Record t := {
  address : string;
  name : option string
}.
End ServiceInfo.

(** ["%s" % x] for a string or [None]. *)
Definition percent_s (x : option string) : string :=
  match x with
  | Some s => s
  | None => "None"
  end.

(** [homeassistant.helpers.device_registry.CONNECTION_BLUETOOTH] *)
Definition CONNECTION_BLUETOOTH : string := "bluetooth".

(** [DeviceInfo], the keys [get_device_info] sets. *)
Module DeviceInfo.
Record t := {
  connections : gset (string * string);
  hw_version : string;
  identifiers : gset (string * string);
  manufacturer : string;
  model : string;
  name : string;
  sw_version : string
}.
End DeviceInfo.

(** Modelled from the spec: the further attributes of [tuya_ble.TuyaBLEDevice]
    that [get_device_info] reads, "device identity fields (address, category,
    product_id, hardware/protocol versions)", all of them text. *)
Module Identity.
Record t := {
  name : string;
  hardware_version : string;
  product_model : string;
  device_version : string;
  protocol_version : string
}.
End Identity.

(** Truth value of a string: non-empty. *)
Definition nonempty (s : string) : bool :=
  match s with
  | EmptyString => false
  | String _ _ => true
  end.

Section Names.
Context `{Consts}.

(** [manager] is the device manager, if any, as its
    [get_device_credentials]. *)
Definition get_device_readable_name (discovery_info : ServiceInfo.t)
  (manager : option (string -> option Credentials.t)) : result string :=
  let credentials :=
    match manager with
    | Some get_device_credentials =>
        get_device_credentials (ServiceInfo.address discovery_info)
    | None => None
    end in
  let product_info :=
    match credentials with
    | Some c =>
        get_product_info_by_ids (Credentials.category c) (Credentials.product_id c)
    | None => None
    end in
  short_address <- get_short_address (ServiceInfo.address discovery_info) ;;
  match product_info, credentials with
  | Some p, _ => Ok (name p ++ " " ++ short_address)%string
  | None, Some c => Ok (Credentials.device_name c ++ " " ++ short_address)%string
  | None, None =>
      Ok (percent_s (ServiceInfo.name discovery_info) ++ " " ++ short_address)%string
  end.

Definition get_device_info (device : TuyaBLEDevice) (identity : Identity.t)
  : result DeviceInfo.t :=
  let product_info :=
    if nonempty (category device) && nonempty (product_id device)
    then get_product_info_by_ids (category device) (product_id device)
    else None in
  let product_name :=
    match product_info with
    | Some p => name p
    | None => Identity.name identity
    end in
  short_address <- get_short_address (address device) ;;
  Ok {| DeviceInfo.connections := {[ (CONNECTION_BLUETOOTH, address device) ]};
        DeviceInfo.hw_version := Identity.hardware_version identity;
        DeviceInfo.identifiers := {[ (DOMAIN, address device) ]};
        DeviceInfo.manufacturer :=
          match product_info with
          | Some p => manufacturer p
          | None => DEVICE_DEF_MANUFACTURER
          end;
        DeviceInfo.model :=
          ((if nonempty (Identity.product_model identity)
            then Identity.product_model identity
            else product_name)
           ++ " (" ++ product_id device ++ ")")%string;
        DeviceInfo.name := (product_name ++ " " ++ short_address)%string;
        DeviceInfo.sw_version :=
          (Identity.device_version identity ++ " (protocol "
           ++ Identity.protocol_version identity ++ ")")%string |}.

End Names.

(* ===================================================================== *)
(** ** sensor.py: the sensor mappings and the platform setup               *)
(* ===================================================================== *)

(** The constants of [const.py] that name enum options. *)
Class SensorConsts := {
  BATTERY_STATE_HIGH : string;
  BATTERY_STATE_LOW : string;
  BATTERY_STATE_NORMAL : string;
  BATTERY_CHARGED : string;
  BATTERY_CHARGING : string;
  BATTERY_NOT_CHARGING : string;
  CO2_LEVEL_ALARM : string;
  CO2_LEVEL_NORMAL : string
}.

(** The units of [homeassistant.const] the mappings use. *)
Inductive UnitOfMeasurement : Set :=
  | CONCENTRATION_PARTS_PER_MILLION
  | PERCENTAGE
  | SIGNAL_STRENGTH_DECIBELS_MILLIWATT
  | UnitOfTime_MINUTES
  | UnitOfTime_SECONDS
  | UnitOfTemperature_CELSIUS
  | UnitOfVolume_MILLILITERS.

Inductive SensorStateClass : Set := MEASUREMENT.

Inductive EntityCategory : Set := DIAGNOSTIC.

(** [SensorEntityDescription] with every field a mapping of this file sets. *)
Module Description.
Record t := {
  key : string;
  name : option string;
  icon : option string;
  device_class : option SensorDeviceClass;
  native_unit_of_measurement : option UnitOfMeasurement;
  entity_category : option EntityCategory;
  state_class : option SensorStateClass;
  options : option (list string);
  entity_registry_enabled_default : bool   (* = True *)
}.

(** The description as the handlers read it. *)
Definition read (d : t) : SensorEntityDescription :=
  Build_SensorEntityDescription (key d) (device_class d) (options d) (icon d).
End Description.

(** [bool(v)] *)
Definition py_bool (v : pyval) : bool :=
  match v with
  | VNone => false
  | VBool b => b
  | VInt n => negb (n =? 0)
  | VFloat x => negb (PrimFloat.eqb x 0)
  | VStr s => nonempty s
  | VBytes b => nonempty b
  end.

Definition SIGNAL_STRENGTH_DP_ID : Z := -1.

(** [TuyaBLESensorMapping] with all its fields. *)
Module Mapping.
Record t := {
  dp_id : Z;
  description : Description.t;
  force_add : bool;                               (* = True *)
  dp_type : option TuyaBLEDataPointType;          (* = None *)
  getter : option (TuyaBLESensor.entity -> result TuyaBLESensor.entity);
  coefficient : float;                            (* = 1.0 *)
  icons : option (list string);                   (* = None *)
  is_available : option (TuyaBLESensor.t -> TuyaBLEProductInfo -> bool)
}.

(** The mapping as the handlers read it. *)
Definition read (m : t) : TuyaBLESensor.TuyaBLESensorMapping :=
  {| TuyaBLESensor.dp_id := dp_id m;
     TuyaBLESensor.description := Description.read (description m);
     TuyaBLESensor.getter := getter m;
     TuyaBLESensor.coefficient := coefficient m;
     TuyaBLESensor.icons := icons m |}.
End Mapping.

(** An element of a mapping list: [TuyaBLESensorMapping] or
    [TuyaBLELastUnlockSensorMapping]. *)
Inductive mapping_entry :=
  | SensorMapping (m : Mapping.t)
  | LastUnlockSensorMapping (unlock_methods : list (Z * string))
      (description : Description.t).

Record TuyaBLECategorySensorMapping := {
  sensor_products : option (gmap string (list mapping_entry));   (* products *)
  sensor_mapping : option (list mapping_entry)                   (* mapping *)
}.

(** [SensorEntityDescription(key=k, ...)], the other fields at their
    defaults. *)
Definition description_of (k : string) : Description.t :=
  {| Description.key := k; Description.name := None; Description.icon := None;
     Description.device_class := None;
     Description.native_unit_of_measurement := None;
     Description.entity_category := None; Description.state_class := None;
     Description.options := None;
     Description.entity_registry_enabled_default := true |}.

Definition measurement (k : string) (c : SensorDeviceClass) (u : UnitOfMeasurement)
  (cat : option EntityCategory) : Description.t :=
  {| Description.key := k; Description.name := None; Description.icon := None;
     Description.device_class := Some c;
     Description.native_unit_of_measurement := Some u;
     Description.entity_category := cat;
     Description.state_class := Some MEASUREMENT;
     Description.options := None;
     Description.entity_registry_enabled_default := true |}.

Definition enum_description (k : string) (i : option string)
  (cat : option EntityCategory) (opts : list string) : Description.t :=
  {| Description.key := k; Description.name := None; Description.icon := i;
     Description.device_class := Some ENUM;
     Description.native_unit_of_measurement := None;
     Description.entity_category := cat; Description.state_class := None;
     Description.options := Some opts;
     Description.entity_registry_enabled_default := true |}.

(** The default description of [TuyaBLEBatteryMapping]. *)
Definition battery_default : Description.t :=
  measurement "battery" BATTERY PERCENTAGE (Some DIAGNOSTIC).

(** The default description of [TuyaBLETemperatureMapping]. *)
Definition temperature_default : Description.t :=
  measurement "temperature" TEMPERATURE UnitOfTemperature_CELSIUS None.

(** The default description of [TuyaBLELastUnlockSensorMapping]. *)
Definition last_unlock_default : Description.t :=
  {| Description.key := "last_unlock_method";
     Description.name := Some "Last Unlock Method";
     Description.icon := Some "mdi:account-lock-open";
     Description.device_class := None;
     Description.native_unit_of_measurement := None;
     Description.entity_category := None; Description.state_class := None;
     Description.options := None;
     Description.entity_registry_enabled_default := true |}.

(** [TuyaBLESensorMapping(dp_id=k, description=d)], the other fields at
    their defaults. *)
Definition sensor_mapping_of (k : Z) (d : Description.t) : Mapping.t :=
  {| Mapping.dp_id := k; Mapping.description := d; Mapping.force_add := true;
     Mapping.dp_type := None; Mapping.getter := None;
     Mapping.coefficient := 1%float; Mapping.icons := None;
     Mapping.is_available := None |}.

Definition with_coefficient (m : Mapping.t) (c : float) : Mapping.t :=
  {| Mapping.dp_id := Mapping.dp_id m; Mapping.description := Mapping.description m;
     Mapping.force_add := Mapping.force_add m; Mapping.dp_type := Mapping.dp_type m;
     Mapping.getter := Mapping.getter m; Mapping.coefficient := c;
     Mapping.icons := Mapping.icons m; Mapping.is_available := Mapping.is_available m |}.

Definition with_icons (m : Mapping.t) (i : list string) : Mapping.t :=
  {| Mapping.dp_id := Mapping.dp_id m; Mapping.description := Mapping.description m;
     Mapping.force_add := Mapping.force_add m; Mapping.dp_type := Mapping.dp_type m;
     Mapping.getter := Mapping.getter m; Mapping.coefficient := Mapping.coefficient m;
     Mapping.icons := Some i; Mapping.is_available := Mapping.is_available m |}.

Definition with_getter (m : Mapping.t)
  (g : TuyaBLESensor.entity -> result TuyaBLESensor.entity) : Mapping.t :=
  {| Mapping.dp_id := Mapping.dp_id m; Mapping.description := Mapping.description m;
     Mapping.force_add := Mapping.force_add m; Mapping.dp_type := Mapping.dp_type m;
     Mapping.getter := Some g; Mapping.coefficient := Mapping.coefficient m;
     Mapping.icons := Mapping.icons m; Mapping.is_available := Mapping.is_available m |}.

Definition with_is_available (m : Mapping.t)
  (a : TuyaBLESensor.t -> TuyaBLEProductInfo -> bool) : Mapping.t :=
  {| Mapping.dp_id := Mapping.dp_id m; Mapping.description := Mapping.description m;
     Mapping.force_add := Mapping.force_add m; Mapping.dp_type := Mapping.dp_type m;
     Mapping.getter := Mapping.getter m; Mapping.coefficient := Mapping.coefficient m;
     Mapping.icons := Mapping.icons m; Mapping.is_available := Some a |}.

Definition is_co2_alarm_enabled (self : TuyaBLESensor.t) (product : TuyaBLEProductInfo)
  : bool :=
  match datapoints (TuyaBLESensor._device (TuyaBLESensor.self self)) !! 13 with
  | Some datapoint => py_bool (DP.value datapoint)
  | None => true
  end.

(** [TuyaBLECategorySensorMapping(products={...})], [mapping] at its
    default. *)
Definition sensors_of (items : list (string * list mapping_entry))
  : TuyaBLECategorySensorMapping :=
  {| sensor_products := Some (dict_literal items); sensor_mapping := None |}.

(** An entity of the sensor platform. *)
Inductive sensor_entity :=
  | Sensor (s : TuyaBLESensor.t)
  | LastUnlockSensor (s : TuyaBLELastUnlockSensor.t).

(** [_attr_unique_id], as [TuyaBLEEntity.__init__] sets it from the device
    and the description. *)
Definition unique_id (device : TuyaBLEDevice) (key : string) : string :=
  (device_id device ++ "-" ++ key)%string.

(** [TuyaBLEEntity.__init__], which the [__init__] of every entity class
    runs first: it builds the registry entry of the device, and so raises when
    [get_device_info] does; what it stores besides, the handlers do not read.
    [identity] holds the attributes of the device that go into the entry. *)
Definition entity_init `{Consts} {A} (device : TuyaBLEDevice) (identity : Identity.t)
  (entity : A) : result A :=
  device_info <- get_device_info device identity ;;
  Ok entity.

Section SensorPlatform.
Context `{PyBuiltins} `{SensorConsts} `{Consts}.

Definition alarm_lock_options : list string :=
  ["wrong_finger"; "wrong_password"; "low_battery"].

(** The [battery_state] mapping, which two products spell out alike but for
    the datapoint id. *)
Definition battery_state (k : Z) : Mapping.t :=
  with_icons
    (sensor_mapping_of k
       (enum_description "battery_state" (Some "mdi:battery") (Some DIAGNOSTIC)
          [BATTERY_STATE_LOW; BATTERY_STATE_NORMAL; BATTERY_STATE_HIGH]))
    ["mdi:battery-alert"; "mdi:battery-50"; "mdi:battery-check"].

Definition mapping_items : list (string * TuyaBLECategorySensorMapping) :=
  [ ("co2bj", sensors_of
       [ ("59s19z5m",
          [ SensorMapping
              (with_is_available
                 (sensor_mapping_of 1
                    (enum_description "carbon_dioxide_alarm"
                       (Some "mdi:molecule-co2") None
                       [CO2_LEVEL_ALARM; CO2_LEVEL_NORMAL]))
                 is_co2_alarm_enabled);
            SensorMapping
              (sensor_mapping_of 2
                 (measurement "carbon_dioxide" CO2
                    CONCENTRATION_PARTS_PER_MILLION None));
            SensorMapping (sensor_mapping_of 15 battery_default);
            SensorMapping (sensor_mapping_of 18 temperature_default);
            SensorMapping
              (sensor_mapping_of 19
                 (measurement "humidity" HUMIDITY PERCENTAGE None)) ]) ]);
    ("ms", sensors_of
       (fromkeys ["ludzroix"; "isk2p555"; "yy2bmcoh"]
          [ SensorMapping
              (sensor_mapping_of 21
                 (enum_description "alarm_lock" None None alarm_lock_options));
            SensorMapping (sensor_mapping_of 8 battery_default) ]
        ++ [ ("mqc2hevy",
              [ SensorMapping
                  (sensor_mapping_of 21
                     (enum_description "alarm_lock" (Some "mdi:alert") None
                        alarm_lock_options));
                SensorMapping (sensor_mapping_of 8 battery_default);
                LastUnlockSensorMapping
                  [ (19, "ble"); (12, "fingerprint"); (62, "phone_remote");
                    (13, "password"); (14, "dynamic"); (55, "temporary");
                    (63, "voice_remote") ]
                  last_unlock_default ]) ]));
    ("jtmspro", sensors_of
       [ ("hc7n0urm",
          [ SensorMapping
              (sensor_mapping_of 21
                 (enum_description "alarm_lock" (Some "mdi:alarm-light-outline")
                    None ["low_battery"; "power_off"])) ]) ]);
    ("szjqr", sensors_of
       (fromkeys ["3yqdo5yt"; "xhf790if"]
          [ SensorMapping
              (with_icons
                 (sensor_mapping_of 7
                    (enum_description "battery_charging" None (Some DIAGNOSTIC)
                       [BATTERY_NOT_CHARGING; BATTERY_CHARGING; BATTERY_CHARGED]))
                 ["mdi:battery"; "mdi:power-plug-battery"; "mdi:battery-check"]);
            SensorMapping (sensor_mapping_of 8 battery_default) ]
        ++ fromkeys ["blliqpsj"; "ndvkgsrm"; "yiihr7zh"; "neq16kgd"]
             [ SensorMapping (sensor_mapping_of 12 battery_default) ]
        ++ fromkeys ["ltak7e1p"; "y6kttvd6"; "yrnk7mnn"; "nvr2rocq";
                     "bnt7wajf"; "rvdceqjh"; "5xhbk964"]
             [ SensorMapping (sensor_mapping_of 12 battery_default) ]));
    ("wsdcg", sensors_of
       [ ("ojzlzzsw",
          [ SensorMapping
              (with_coefficient (sensor_mapping_of 1 temperature_default) 10);
            SensorMapping
              (sensor_mapping_of 2
                 (measurement "moisture" MOISTURE PERCENTAGE None));
            SensorMapping (battery_state 3);
            SensorMapping (sensor_mapping_of 4 battery_default) ]) ]);
    ("zwjcy", sensors_of
       [ ("gvygg3m8",
          [ SensorMapping
              (with_coefficient
                 (sensor_mapping_of 5
                    (measurement "temp_current" TEMPERATURE
                       UnitOfTemperature_CELSIUS None))
                 10);
            SensorMapping
              (sensor_mapping_of 3
                 (measurement "moisture" MOISTURE PERCENTAGE None));
            SensorMapping (battery_state 14);
            SensorMapping
              (sensor_mapping_of 15
                 (measurement "battery_percentage" BATTERY PERCENTAGE
                    (Some DIAGNOSTIC))) ]) ]);
    ("znhsb", sensors_of
       [ ("cdlandip",
          [ SensorMapping (sensor_mapping_of 101 temperature_default);
            SensorMapping
              (sensor_mapping_of 102
                 (measurement "water_intake" WATER UnitOfVolume_MILLILITERS None));
            SensorMapping
              (with_getter
                 (sensor_mapping_of 104
                    (measurement "battery" BATTERY PERCENTAGE (Some DIAGNOSTIC)))
                 TuyaBLESensor.battery_enum_getter) ]) ]);
    ("ggq", sensors_of
       [ ("6pahkcau",
          [ SensorMapping (sensor_mapping_of 11 battery_default);
            SensorMapping
              (sensor_mapping_of 6
                 (measurement "time_left" DURATION UnitOfTime_MINUTES None)) ]);
         ("hfgdqhho",
          [ SensorMapping (sensor_mapping_of 11 battery_default);
            SensorMapping
              (sensor_mapping_of 111
                 (measurement "use_time_z1" DURATION UnitOfTime_SECONDS None));
            SensorMapping
              (sensor_mapping_of 110
                 (measurement "use_time_z2" DURATION UnitOfTime_SECONDS None)) ]) ]) ].

Definition mapping : gmap string TuyaBLECategorySensorMapping :=
  dict_literal mapping_items.

Definition rssi_mapping : Mapping.t :=
  with_getter
    (sensor_mapping_of SIGNAL_STRENGTH_DP_ID
       {| Description.key := "signal_strength"; Description.name := None;
          Description.icon := None;
          Description.device_class := Some SIGNAL_STRENGTH;
          Description.native_unit_of_measurement :=
            Some SIGNAL_STRENGTH_DECIBELS_MILLIWATT;
          Description.entity_category := Some DIAGNOSTIC;
          Description.state_class := Some MEASUREMENT;
          Description.options := None;
          Description.entity_registry_enabled_default := false |})
    TuyaBLESensor.rssi_getter.

Definition get_mapping_by_device (device : TuyaBLEDevice) : list mapping_entry :=
  match mapping !! category device with
  | Some category_mapping =>
      match sensor_products category_mapping with
      | Some products =>
          match products !! product_id device with
          | Some product_mapping => product_mapping
          | None =>
              match sensor_mapping category_mapping with
              | Some m => m
              | None => []
              end
          end
      | None => []
      end
  | None => []
  end.

(** [datapoints.has_id(id, type)] of the device library, whose answer for
    a given type the sources at hand do not fix. *)
Variable has_id_of_type : TuyaBLEDevice -> Z -> option TuyaBLEDataPointType -> bool.

(** The body of the loop of [async_setup_entry]: the entity a mapping
    contributes, if any, appended to [entities]. *)
Definition setup_entity (device : TuyaBLEDevice) (identity : Identity.t)
  (entities : list sensor_entity) (m : mapping_entry)
  : result (list sensor_entity) :=
  match m with
  | LastUnlockSensorMapping unlock_methods _ =>
      entity <- entity_init device identity
                  (LastUnlockSensor
                     (TuyaBLELastUnlockSensor.__init__ device unlock_methods)) ;;
      Ok (entities ++ [entity])
  | SensorMapping m =>
      if Mapping.force_add m
         || has_id_of_type device (Mapping.dp_id m) (Mapping.dp_type m)
      then
        entity <- entity_init device identity
                    (Sensor (TuyaBLESensor.__init__ device (Mapping.read m))) ;;
        Ok (entities ++ [entity])
      else Ok entities
  end.

(** The entities [async_setup_entry] hands to [async_add_entities], for
    the device of the config entry. *)
Definition async_setup_entry (device : TuyaBLEDevice) (identity : Identity.t)
  : result (list sensor_entity) :=
  let mappings := get_mapping_by_device device in
  signal_strength <- entity_init device identity
                       (Sensor (TuyaBLESensor.__init__ device
                                  (Mapping.read rssi_mapping))) ;;
  for_each mappings (setup_entity device identity) [signal_strength].

End SensorPlatform.

(* ===================================================================== *)
(** ** The vocabulary of the properties                                    *)
(* ===================================================================== *)

(** Two coordinator states that differ in the bus and in the listener count
    at most. *)
Definition same_connection (c c' : Coordinator) : Prop :=
  timers (hass c') = timers (hass c)
  /\ next_handle (hass c') = next_handle (hass c)
  /\ _device c' = _device c
  /\ _disconnected c' = _disconnected c
  /\ _unsub_disconnect c' = _unsub_disconnect c.

(** An update that reports a press of the fingerbot's button: it is about
    the switch datapoint and the change came from the device. *)
Definition pressed (fb : TuyaBLEFingerbotInfo) (u : TuyaBLEDataPoint) : bool :=
  (DP.id u =? switch fb) && DP.changed_by_device u.

Section Fired.
Context `{Consts}.

(** The events the two loops fire for one update. *)
Definition fingerbot_events (dev : TuyaBLEDevice) (fb : TuyaBLEFingerbotInfo)
  (u : TuyaBLEDataPoint) : list Event :=
  if pressed fb u then [fingerbot_button_event dev] else [].

Definition lock_events (dev : TuyaBLEDevice) (lk : TuyaBLELockInfo)
  (u : TuyaBLEDataPoint) : list Event :=
  if negb (DP.changed_by_device u) then []
  else if DP.id u =? alarm_lock lk
  then [lock_event dev "alarm" "alarm_lock" (DP.value u)]
  else if DP.id u =? unlock_ble lk
  then [lock_event dev "unlock_ble" "unlock_ble" (DP.value u)]
  else if DP.id u =? unlock_fingerprint lk
  then [lock_event dev "unlock_fingerprint" "unlock_fingerprint" (DP.value u)]
  else if DP.id u =? unlock_password lk
  then [lock_event dev "unlock_password" "unlock_password" (DP.value u)]
  else [].

End Fired.

(** The invariant of a coordinator: the only delayed call that can be armed
    is the one [_unsub_disconnect] cancels. *)
Definition timer_inv (c : Coordinator) : Prop :=
  timers (hass c) = []
  \/ exists h d, timers (hass c) = [(h, d)] /\ _unsub_disconnect c = Some h.

(** The discipline of the disconnect timer, at one state [c] of a
    coordinator whose methods are [connect], [disconnect] and [handle]: at
    most one delayed call is armed, and it is the one [_unsub_disconnect]
    cancels; a connect leaves none armed; a disconnect arms one only when none
    is armed; the delayed call, when it runs, clears [_unsub_disconnect]. *)
Definition timer_discipline
    (connect disconnect : Coordinator -> Coordinator)
    (handle : Coordinator -> callback -> Coordinator) (c : Coordinator) : Prop :=
  (length (timers (hass c)) <= 1)%nat
  /\ (forall h, armed (hass c) h = true -> _unsub_disconnect c = Some h)
  /\ timers (hass (connect c)) = []
  /\ (timers (hass (disconnect c)) <> timers (hass c) ->
      timers (hass c) = [] /\ length (timers (hass (disconnect c))) = 1%nat)
  /\ (forall h, armed (hass c) h = true ->
      _unsub_disconnect (handle c (TimerFired h)) = None
      /\ timers (hass (handle c (TimerFired h))) = []).

(** An infinity of either sign. *)
Definition is_infinite (x : float) : bool :=
  match Prim2SF x with
  | S754_infinity _ => true
  | _ => false
  end.

(** [k] is present in the datapoint table with timestamp [t]. *)
Definition present (device : TuyaBLEDevice) (k : Z) (dp : TuyaBLEDataPoint) (t : Q)
  : Prop :=
  datapoints device !! k = Some dp /\ DP.timestamp dp = Some t.

(** Every datapoint present under one of [keys] carries a timestamp. *)
Definition timestamped (device : TuyaBLEDevice) (keys : list Z) : Prop :=
  forall k dp, k ∈ keys -> datapoints device !! k = Some dp ->
    is_Some (DP.timestamp dp).

(** [k] is present and carries a timestamp. *)
Definition has_timestamp (device : TuyaBLEDevice) (k : Z) : bool :=
  match datapoints device !! k with
  | Some dp => match DP.timestamp dp with Some _ => true | None => false end
  | None => false
  end.

(** [timestamped], as a test. *)
Definition all_timestamped (device : TuyaBLEDevice) (keys : list Z) : bool :=
  forallb (fun k => negb (has_id device k) || has_timestamp device k) keys.

(** [k] is the most recently updated of [keys]: it is present, no present key
    has a later timestamp, and no key before it in [keys] has the same one. *)
Definition latest (device : TuyaBLEDevice) (keys : list Z) (k : Z)
  (dp : TuyaBLEDataPoint) (t : Q) : Prop :=
  exists before after,
    keys = before ++ k :: after
    /\ present device k dp t
    /\ (forall k' dp' t', k' ∈ before -> present device k' dp' t' -> Qlt t' t)
    /\ (forall k' dp' t', k' ∈ after -> present device k' dp' t' -> Qle t' t).

(** What [f] sees of a result. *)
Definition on_ok {A B} (f : A -> B) (r : result A) : result B :=
  a <- r ;; Ok (f a).

(** The state of the loop after the keys [keys], when every datapoint met
    carried a timestamp. *)
Definition loop_inv (device : TuyaBLEDevice) (methods : list (Z * string))
    (values : gmap Z pyval) (keys : list Z)
    (l : TuyaBLELastUnlockSensor.locals) : Prop :=
  TuyaBLELastUnlockSensor.last_values l = values
  /\ ((TuyaBLELastUnlockSensor.last_method l = None
       /\ TuyaBLELastUnlockSensor.last_time l = None
       /\ forall k, k ∈ keys -> datapoints device !! k = None)
      \/ exists k dp t,
           latest device keys k dp t
           /\ TuyaBLELastUnlockSensor.last_time l = Some t
           /\ TuyaBLELastUnlockSensor.last_method l
              = Some (dict_get methods k (pretty k))
           /\ TuyaBLELastUnlockSensor.last_value l = DP.value dp).

(** The lock datapoint an update is about, as the [if]/[elif] chain of the
    lock loop decides it: the kind in the event type and the label in the
    event data. *)
Definition lock_kind (lk : TuyaBLELockInfo) (id : Z) : option (string * string) :=
  if id =? alarm_lock lk then Some ("alarm", "alarm_lock")
  else if id =? unlock_ble lk then Some ("unlock_ble", "unlock_ble")
  else if id =? unlock_fingerprint lk
  then Some ("unlock_fingerprint", "unlock_fingerprint")
  else if id =? unlock_password lk then Some ("unlock_password", "unlock_password")
  else None.

Section UpdateEvents.
Context `{Consts}.

(** The lock event an update gives rise to, if any. *)
Definition lock_report (dev : TuyaBLEDevice) (lk : TuyaBLELockInfo)
  (u : TuyaBLEDataPoint) : option Event :=
  if DP.changed_by_device u
  then (fun kl => lock_event dev kl.1 kl.2 (DP.value u)) <$> lock_kind lk (DP.id u)
  else None.

(** Everything an update handler fires for [updates] on behalf of [dev]. *)
Definition update_events (dev : TuyaBLEDevice) (updates : list TuyaBLEDataPoint)
  : list Event :=
  match get_device_product_info dev with
  | None => []
  | Some i =>
      match fingerbot i with
      | Some fb =>
          if manual_control fb =? 0 then []
          else map (fun _ => fingerbot_button_event dev)
                 (List.filter (pressed fb) updates)
      | None => []
      end
      ++ match lock i with
         | Some lk => omap (lock_report dev lk) updates
         | None => []
         end
  end.

End UpdateEvents.

(** A coordinator whose delayed disconnect was cancelled: it is connected,
    nothing is armed, and [_unsub_disconnect] still holds the spent handle. *)
Definition spent_handle (c : Coordinator) : Prop :=
  timers (hass c) = []
  /\ is_Some (_unsub_disconnect c)
  /\ _disconnected c = false.

(** The device object of a last-unlock sensor after the device library has
    changed it in place: the sensor holds a reference to it. *)
Definition with_device (s : TuyaBLELastUnlockSensor.t) (d : TuyaBLEDevice)
  : TuyaBLELastUnlockSensor.t :=
  {| TuyaBLELastUnlockSensor._device := d;
     TuyaBLELastUnlockSensor._unlock_methods :=
       TuyaBLELastUnlockSensor._unlock_methods s;
     TuyaBLELastUnlockSensor._attr_native_value :=
       TuyaBLELastUnlockSensor._attr_native_value s;
     TuyaBLELastUnlockSensor._attr_extra_state_attributes :=
       TuyaBLELastUnlockSensor._attr_extra_state_attributes s;
     TuyaBLELastUnlockSensor._last_values := TuyaBLELastUnlockSensor._last_values s;
     TuyaBLELastUnlockSensor.state_writes := TuyaBLELastUnlockSensor.state_writes s |}.

(** One coordinator update after another, the device being in the states
    [devices] in turn. *)
Fixpoint coordinator_updates (s : TuyaBLELastUnlockSensor.t)
  (devices : list TuyaBLEDevice) : result TuyaBLELastUnlockSensor.t :=
  match devices with
  | [] => Ok s
  | d :: devices' =>
      s' <- TuyaBLELastUnlockSensor._handle_coordinator_update (with_device s d) ;;
      coordinator_updates s' devices'
  end.

(** The sensor remembers a value, possibly [None], for every unlock id. *)
Definition remembers (s : TuyaBLELastUnlockSensor.t) : Prop :=
  forall k, k ∈ (TuyaBLELastUnlockSensor._unlock_methods s).*1 ->
    is_Some (TuyaBLELastUnlockSensor._last_values s !! k).

(** The datapoint under [k] has a value, and not the one remembered in
    [values]. *)
Definition value_changed (values : gmap Z pyval) (device : TuyaBLEDevice) (k : Z)
  : bool :=
  match datapoints device !! k, values !! k with
  | Some dp, Some old => negb (is_none (DP.value dp)) && py_ne old (DP.value dp)
  | _, _ => false
  end.

(** The value the datapoint under [k] holds, [None] when it is absent. *)
Definition value_of (device : TuyaBLEDevice) (k : Z) : pyval :=
  match datapoints device !! k with
  | Some dp => DP.value dp
  | None => VNone
  end.

(** The state of the loop of a last-unlock sensor after the keys [pre],
    when no datapoint met carried a timestamp: [values] is what the sensor
    remembered before the loop. *)
Definition fallback_inv (device : TuyaBLEDevice) (methods : list (Z * string))
    (values : gmap Z pyval) (pre : list Z)
    (l : TuyaBLELastUnlockSensor.locals) : Prop :=
  TuyaBLELastUnlockSensor.last_time l = None
  /\ (forall k,
        TuyaBLELastUnlockSensor.last_values l !! k
        = if bool_decide (k ∈ pre) && value_changed values device k
          then Some (value_of device k)
          else values !! k)
  /\ match last (List.filter (value_changed values device) pre) with
     | None =>
         TuyaBLELastUnlockSensor.last_method l = None
         /\ TuyaBLELastUnlockSensor.last_value l = VNone
     | Some k =>
         TuyaBLELastUnlockSensor.last_method l
         = Some (dict_get methods k (pretty k))
         /\ TuyaBLELastUnlockSensor.last_value l = value_of device k
     end.

(** The entry of an optional list under an int, when there is one. *)
Definition entry {A} (l : option (list A)) (n : Z) : option A :=
  if 0 <=? n then l ≫= (fun l => l !! Z.to_nat n) else None.

(** [int(n / 1.0) == n] *)
Definition survives_division (n : Z) : bool :=
  match q <- py_truediv (VInt n) 1 ;; int_of_float q with
  | Ok m => m =? n
  | Raise _ => false
  end.

(** How often [c] occurs in [s]. *)
Fixpoint count_char (c : ascii) (s : string) : nat :=
  match s with
  | EmptyString => 0
  | String c' s' => (if Ascii.eqb c' c then 1 else 0) + count_char c s'
  end.

(** Every character of [s] passes the test [p]. *)
Fixpoint string_forall (p : ascii -> bool) (s : string) : bool :=
  match s with
  | EmptyString => true
  | String c s' => p c && string_forall p s'
  end.

(** A colon or a dash. *)
Definition is_separator (c : ascii) : bool :=
  Ascii.eqb c ":" || Ascii.eqb c "-".

(** One of the letters a to z. *)
Definition is_lower (c : ascii) : bool :=
  (97 <=? nat_of_ascii c)%nat && (nat_of_ascii c <=? 122)%nat.

(** What [get_short_address] does to one character before it splits. *)
Definition normal_char (c : ascii) : ascii :=
  upper_char (if Ascii.eqb c "-" then ":" else c).

(** A character of the ASCII range, and a text made of such: the texts on
    which [py_upper] and [last_chars] are Python's [upper] and slice. *)
Definition is_ascii (c : ascii) : bool := (nat_of_ascii c <? 128)%nat.

Definition ascii_text (s : string) : bool := string_forall is_ascii s.

(** The key of the description of a mapping, which the unique id of its
    entity ends in. *)
Definition entry_key (m : mapping_entry) : string :=
  match m with
  | SensorMapping m => Description.key (Mapping.description m)
  | LastUnlockSensorMapping _ d => Description.key d
  end.

(** The entity a mapping stands for. *)
Definition entity_of (device : TuyaBLEDevice) (m : mapping_entry) : sensor_entity :=
  match m with
  | SensorMapping m => Sensor (TuyaBLESensor.__init__ device (Mapping.read m))
  | LastUnlockSensorMapping unlock_methods _ =>
      LastUnlockSensor (TuyaBLELastUnlockSensor.__init__ device unlock_methods)
  end.

(** An exception that comes from converting a number, not from dividing by
    zero. *)
Definition conversion_error (e : pyexc) : bool :=
  match e with
  | OverflowError | ValueError | TypeError => true
  | _ => false
  end.

Section Shipped.
Context `{PyBuiltins} `{SensorConsts}.

(** The list the table holds under the category and the product id of a
    device. *)
Definition listed (device : TuyaBLEDevice) : option (list mapping_entry) :=
  match mapping !! category device with
  | Some category_mapping =>
      match sensor_products category_mapping with
      | Some products => products !! product_id device
      | None => None
      end
  | None => None
  end.

(** What holds of every datapoint mapping of the table: it is added whatever
    the device has reported, its coefficient is not zero, its getter, if any,
    is [battery_enum_getter], and a battery percentage read without a getter is
    not scaled. *)
Definition sound_mapping (m : Mapping.t) : Prop :=
  Mapping.force_add m = true
  /\ PrimFloat.eqb (Mapping.coefficient m) 0 = false
  /\ (Mapping.getter m = None
      \/ Mapping.getter m = Some TuyaBLESensor.battery_enum_getter)
  /\ (Description.device_class (Mapping.description m) = Some BATTERY ->
      Mapping.getter m = None ->
      Mapping.coefficient m = 1%float).

Definition sound_entry (m : mapping_entry) : Prop :=
  match m with
  | SensorMapping m => sound_mapping m
  | LastUnlockSensorMapping _ _ => True
  end.

(** What holds of every list of the table: it is not empty, the keys of its
    descriptions are distinct and none is the key of the signal strength
    sensor, and its mappings are sound. *)
Definition shipped (l : list mapping_entry) : Prop :=
  l <> []
  /\ NoDup (Description.key (Mapping.description rssi_mapping) :: map entry_key l)
  /\ Forall sound_entry l.

(** What holds of every category of the table: it has no list for the
    products it does not name, and the lists of those it names are as above. *)
Definition sound_category (c : TuyaBLECategorySensorMapping) : Prop :=
  sensor_mapping c = None
  /\ forall products, sensor_products c = Some products ->
       map_Forall (fun _ l => shipped l) products.

End Shipped.

(* ===================================================================== *)
(** ** Sample environment, to run the definitions on concrete inputs       *)
(* ===================================================================== *)

Definition sample_consts : Consts :=
  {| DOMAIN := "tuya_ble";
     FINGERBOT_BUTTON_EVENT := "tuya_ble_fingerbot_button_pressed";
     DEVICE_DEF_MANUFACTURER := "Tuya";
     SET_DISCONNECTED_DELAY := 600%float |}.

(** Builtins that parse nothing: enough wherever no text is parsed. *)
Definition sample_builtins : PyBuiltins :=
  {| int_of_str := fun _ => None;
     int_of_bytes := fun _ => None;
     float_repr := fun _ => "";
     bytes_repr := fun _ => "" |}.

Definition datapoint (id : Z) (t : option Q) (type : TuyaBLEDataPointType)
  (v : pyval) (by_device : bool) : TuyaBLEDataPoint :=
  {| DP.id := id; DP.timestamp := t; DP.type := Some type; DP.value := v;
     DP.changed_by_device := by_device |}.

Definition sample_device (category product_id : string)
  (dps : list TuyaBLEDataPoint) : TuyaBLEDevice :=
  {| address := "DC:23:4D:00:00:01"; device_id := "bf0123456789";
     category := category; product_id := product_id;
     datapoints := dict_literal (map (fun dp => (DP.id dp, dp)) dps);
     rssi := VInt (-70) |}.

Definition idle_hass : HomeAssistant :=
  {| bus := []; timers := []; next_handle := 0 |}.

(** A Fingerbot Plus: switch 2, manual control 17. *)
Definition fingerbot_plus_device : TuyaBLEDevice :=
  sample_device "szjqr" "blliqpsj" [].

Definition fingerbot_plus_updates : list TuyaBLEDataPoint :=
  [ datapoint 2 (Some 1%Q) DT_BOOL (VBool true) true;
    datapoint 2 (Some 2%Q) DT_BOOL (VBool false) false;
    datapoint 8 (Some 3%Q) DT_ENUM (VInt 1) true;
    datapoint 2 (Some 4%Q) DT_BOOL (VBool true) true ].

(** The [TuyaBLELastUnlockSensorMapping] of the "mqc2hevy" lock. *)
Definition mqc2hevy_unlock_methods : list (Z * string) :=
  [ (19, "ble"); (12, "fingerprint"); (62, "phone_remote"); (13, "password");
    (14, "dynamic"); (55, "temporary"); (63, "voice_remote") ].

(** A lock whose unlock datapoints all carry a timestamp; 12 and 13 share
    the latest one. *)
Definition lock_device : TuyaBLEDevice :=
  sample_device "ms" "mqc2hevy"
    [ datapoint 19 (Some 100%Q) DT_VALUE (VInt 1) true;
      datapoint 12 (Some 250%Q) DT_VALUE (VInt 7) true;
      datapoint 13 (Some 250%Q) DT_VALUE (VInt 9) true ].

(** A lock that reports datapoint 19 with a timestamp and datapoint 12
    without one. *)
Definition lock_device_mixed : TuyaBLEDevice :=
  sample_device "ms" "mqc2hevy"
    [ datapoint 19 (Some 100%Q) DT_VALUE (VInt 1) true;
      datapoint 12 None DT_VALUE (VInt 5) true ].

Definition battery_description : SensorEntityDescription :=
  {| key := "battery"; device_class := Some BATTERY; options := None; icon := None |}.

Definition temperature_description : SensorEntityDescription :=
  {| key := "temperature"; device_class := Some TEMPERATURE; options := None;
     icon := None |}.

Definition alarm_lock_description : SensorEntityDescription :=
  {| key := "alarm_lock"; device_class := Some ENUM;
     options := Some ["wrong_finger"; "wrong_password"; "low_battery"];
     icon := Some "mdi:alert" |}.

(** The water bottle's battery sensor, reading level [v] from datapoint 104. *)
Definition water_bottle_battery (v : pyval) : TuyaBLESensor.t :=
  TuyaBLESensor.__init__
    (sample_device "znhsb" "cdlandip" [datapoint 104 (Some 1%Q) DT_ENUM v true])
    {| TuyaBLESensor.dp_id := 104;
       TuyaBLESensor.description := battery_description;
       TuyaBLESensor.getter :=
         Some (TuyaBLESensor.battery_enum_getter (H := sample_builtins));
       TuyaBLESensor.coefficient := 1%float;
       TuyaBLESensor.icons := None |}.

(** A sensor without a getter, on a device that has reported [dps]. *)
Definition plain_sensor (dp_id : Z) (d : SensorEntityDescription) (c : float)
  (dps : list TuyaBLEDataPoint) : TuyaBLESensor.t :=
  TuyaBLESensor.__init__ (sample_device "wsdcg" "ojzlzzsw" dps)
    {| TuyaBLESensor.dp_id := dp_id;
       TuyaBLESensor.description := d;
       TuyaBLESensor.getter := None;
       TuyaBLESensor.coefficient := c;
       TuyaBLESensor.icons := None |}.

Definition sample_readings : list TuyaBLEDataPoint :=
  [ datapoint 1 (Some 1%Q) DT_VALUE (VInt 255) true;
    datapoint 4 (Some 1%Q) DT_VALUE (VInt 87) true;
    datapoint 21 (Some 1%Q) DT_ENUM (VInt 1) true;
    datapoint 9 (Some 1%Q) DT_VALUE VNone true ].

Definition sample_callbacks : list callback :=
  [ Disconnected; Disconnected; TimerFired 0; Updated fingerbot_plus_updates;
    Disconnected; Connected; TimerFired 1; Disconnected ].

(** Updates none of which came from the device. *)
Definition quiet_updates : list TuyaBLEDataPoint :=
  [ datapoint 2 (Some 1%Q) DT_BOOL (VBool true) false;
    datapoint 21 (Some 2%Q) DT_ENUM (VInt 1) false ].

(** What the "mqc2hevy" lock reports: an alarm, an unlock by fingerprint
    that did not come from the device, a battery level, an unlock by
    Bluetooth. *)
Definition lock_updates : list TuyaBLEDataPoint :=
  [ datapoint 21 (Some 1%Q) DT_ENUM (VInt 2) true;
    datapoint 12 (Some 2%Q) DT_VALUE (VInt 7) false;
    datapoint 8 (Some 3%Q) DT_VALUE (VInt 90) true;
    datapoint 19 (Some 4%Q) DT_VALUE (VInt 1) true ].

(** The descriptor of the "mqc2hevy" lock in the catalog. *)
Definition mqc2hevy_lock : TuyaBLELockInfo :=
  {| alarm_lock := 21; unlock_ble := 19; unlock_fingerprint := 12;
     unlock_password := 13 |}.

(** A lock that has reported none of its unlock datapoints. *)
Definition silent_lock : TuyaBLEDevice :=
  sample_device "ms" "mqc2hevy" [datapoint 8 (Some 1%Q) DT_VALUE (VInt 90) true].

(** A lock whose unlock datapoints carry no timestamp. *)
Definition lock_device_untimed : TuyaBLEDevice :=
  sample_device "ms" "mqc2hevy"
    [ datapoint 19 None DT_VALUE (VInt 1) true;
      datapoint 12 None DT_VALUE (VInt 5) true;
      datapoint 13 None DT_VALUE VNone true ].

(** A sensor of three options and three icons, without a getter. *)
Definition battery_state_sensor (dps : list TuyaBLEDataPoint) : TuyaBLESensor.t :=
  TuyaBLESensor.__init__ (sample_device "wsdcg" "ojzlzzsw" dps)
    {| TuyaBLESensor.dp_id := 3;
       TuyaBLESensor.description :=
         {| key := "battery_state"; device_class := Some ENUM;
            options := Some ["low"; "normal"; "high"];
            icon := Some "mdi:battery" |};
       TuyaBLESensor.getter := None;
       TuyaBLESensor.coefficient := 1%float;
       TuyaBLESensor.icons :=
         Some ["mdi:battery-alert"; "mdi:battery-50"; "mdi:battery-check"] |}.

Definition sample_identity : Identity.t :=
  {| Identity.name := "TY"; Identity.hardware_version := "1.0";
     Identity.product_model := ""; Identity.device_version := "2.1";
     Identity.protocol_version := "3.3" |}.

Definition sample_discovery : ServiceInfo.t :=
  {| ServiceInfo.address := "DC:23:4D:00:00:01"; ServiceInfo.name := Some "TY" |}.

Definition sample_credentials : Credentials.t :=
  {| Credentials.category := "szjqr"; Credentials.product_id := "blliqpsj";
     Credentials.device_name := "Desk button" |}.

(** A manager that knows the one device. *)
Definition sample_manager (address : string) : option Credentials.t :=
  if String.eqb address "DC:23:4D:00:00:01" then Some sample_credentials else None.

Definition sample_sensor_consts : SensorConsts :=
  {| BATTERY_STATE_HIGH := "high"; BATTERY_STATE_LOW := "low";
     BATTERY_STATE_NORMAL := "normal"; BATTERY_CHARGED := "charged";
     BATTERY_CHARGING := "charging"; BATTERY_NOT_CHARGING := "not_charging";
     CO2_LEVEL_ALARM := "alarm"; CO2_LEVEL_NORMAL := "normal" |}.

(** A device library whose typed [has_id] finds nothing. *)
Definition nothing_reported (device : TuyaBLEDevice) (id : Z)
  (type : option TuyaBLEDataPointType) : bool := false.

(** The water bottle, reading level [v] from datapoint 104. *)
Definition water_bottle (v : pyval) : TuyaBLEDevice :=
  sample_device "znhsb" "cdlandip" [datapoint 104 (Some 1%Q) DT_ENUM v true].

(** A Fingerbot Plus that has reported its battery level. *)
Definition fingerbot_plus_charged : TuyaBLEDevice :=
  sample_device "szjqr" "blliqpsj" [datapoint 12 (Some 1%Q) DT_VALUE (VInt 87) true].

(* ===================================================================== *)
(** * Properties                                                           *)
(* ===================================================================== *)

(** ** The builtins on concrete values *)

Example int_of_float_truncates :
  int_of_float 25.5 = Ok 25
  /\ int_of_float (-0.75) = Ok 0
  /\ int_of_float (-2.5) = Ok (-2)
  /\ int_of_float 1e22 = Ok 10000000000000000000000
  /\ int_of_float nan = Raise ValueError
  /\ int_of_float neg_infinity = Raise OverflowError.
Proof. vm_compute. repeat split. Qed.

Example float_of_int_rounds :
  float_of_int 255 = Ok 255%float
  /\ float_of_int (2 ^ 53 + 1) = Ok 9007199254740992%float
  /\ float_of_int (2 ^ 1024) = Raise OverflowError.
Proof. vm_compute. repeat split. Qed.

Example py_truediv_examples :
  py_truediv (VInt 255) 10 = Ok 25.5%float
  /\ py_truediv (VBool true) 8 = Ok 0.125%float
  /\ py_truediv (VFloat 1) 4 = Ok 0.25%float
  /\ py_truediv (VInt 1) 0 = Raise ZeroDivisionError
  /\ py_truediv (VInt 1) (-0) = Raise ZeroDivisionError
  /\ py_truediv (VInt (2 ^ 1024)) 0 = Raise OverflowError.
Proof. vm_compute. repeat split. Qed.

Example py_eq_examples :
  py_eq (VInt 1) (VFloat 1) = true
  /\ py_eq (VBool true) (VInt 1) = true
  /\ py_eq (VFloat 0.5) (VInt 0) = false
  /\ py_eq (VFloat nan) (VFloat nan) = false
  /\ py_eq VNone (VInt 0) = false
  /\ py_eq (VStr "1") (VInt 1) = false
  /\ py_in_range 0 (VFloat 1.5) 3 = true
  /\ py_in_range 0 (VFloat 3) 3 = false
  /\ py_in_range 0 (VInt (-1)) 3 = false.
Proof. vm_compute. repeat split. Qed.

(** ** Dict displays *)
Lemma fold_insert_values {K} `{Countable K} {V} (P : V -> Prop)
    (items : list (K * V)) (m : gmap K V) :
  Forall (fun kv => P kv.2) items ->
  map_Forall (fun _ v => P v) m ->
  map_Forall (fun _ v => P v)
    (fold_left (fun m kv => <[kv.1 := kv.2]> m) items m).
Proof.
  intros Hitems. revert m.
  induction Hitems as [|[k v] items Hkv _ IH]; intros m Hm; simpl.
  - exact Hm.
  - apply IH. by apply map_Forall_insert_2.
Qed.

Lemma dict_literal_values {K} `{Countable K} {V} (P : V -> Prop)
    (items : list (K * V)) k v :
  Forall (fun kv => P kv.2) items ->
  dict_literal items !! k = Some v -> P v.
Proof.
  intros Hitems Hk.
  apply (fold_insert_values P items ∅ Hitems (map_Forall_empty _) k v Hk).
Qed.

(** ** The product catalog *)

Section CatalogFacts.
Context `{Consts}.

Lemma category_of_info items : info (category_of items) = None.
Proof. reflexivity. Qed.

Lemma devices_database_info category category_info :
  devices_database !! category = Some category_info ->
  info category_info = None.
Proof.
  apply (dict_literal_values (fun ci => info ci = None)).
  unfold devices_database_items.
  repeat (constructor; [apply category_of_info|]).
  constructor.
Qed.

(** C1. For every category of [devices_database] and every product id of that
    category's [products], [get_product_info_by_ids] returns exactly the
    product info stored there. *)
Theorem get_product_info_by_ids_catalogued category product_id category_info product_info :
  devices_database !! category = Some category_info ->
  products category_info !! product_id = Some product_info ->
  get_product_info_by_ids category product_id = Some product_info.
Proof.
  intros Hcat Hprod. unfold get_product_info_by_ids.
  rewrite Hcat, Hprod. reflexivity.
Qed.

(** C10. A product id unknown to a catalogued category yields that
    category's fallback [info], which is [None] throughout the shipped
    catalog; an unknown category yields [None]; so every lookup of a pair
    the catalog does not hold yields [None]. *)
Theorem get_product_info_by_ids_unknown category product_id :
  (forall category_info,
      devices_database !! category = Some category_info ->
      products category_info !! product_id = None ->
      get_product_info_by_ids category product_id = info category_info
      /\ info category_info = None)
  /\ (devices_database !! category = None ->
      get_product_info_by_ids category product_id = None)
  /\ ((forall category_info,
         devices_database !! category = Some category_info ->
         products category_info !! product_id = None) ->
      get_product_info_by_ids category product_id = None).
Proof.
  unfold get_product_info_by_ids. split; [|split].
  - intros ci Hcat Hprod. rewrite Hcat, Hprod.
    split; [reflexivity | exact (devices_database_info _ _ Hcat)].
  - intros Hcat. rewrite Hcat. reflexivity.
  - intros Hnone.
    destruct (devices_database !! category) as [ci|] eqn:Hcat; [|reflexivity].
    rewrite (Hnone ci eq_refl). exact (devices_database_info _ _ Hcat).
Qed.

End CatalogFacts.

(** Every pair of the shipped catalog, looked up. *)
Example catalogue_names :
  map (fun cp => name <$> get_product_info_by_ids (H := sample_consts) cp.1 cp.2)
    [ ("co2bj", "59s19z5m"); ("ms", "ludzroix"); ("ms", "isk2p555");
      ("ms", "yy2bmcoh"); ("ms", "mqc2hevy"); ("szjqr", "3yqdo5yt");
      ("szjqr", "xhf790if"); ("szjqr", "blliqpsj"); ("szjqr", "ndvkgsrm");
      ("szjqr", "yiihr7zh"); ("szjqr", "neq16kgd"); ("szjqr", "ltak7e1p");
      ("szjqr", "y6kttvd6"); ("szjqr", "yrnk7mnn"); ("szjqr", "nvr2rocq");
      ("szjqr", "bnt7wajf"); ("szjqr", "rvdceqjh"); ("szjqr", "5xhbk964");
      ("wk", "drlajpqc"); ("wk", "nhj2j7su"); ("wsdcg", "ojzlzzsw");
      ("znhsb", "cdlandip"); ("ggq", "6pahkcau"); ("ggq", "hfgdqhho");
      ("jtmspro", "hc7n0urm"); ("ms", "hc7n0urm"); ("zwjcy", "gvygg3m8") ]
  = [ Some "CO2 Detector"; Some "Smart Lock"; Some "Smart Lock";
      Some "Smart Lock"; Some "Smart Lock"; Some "CUBETOUCH 1s";
      Some "CubeTouch II"; Some "Fingerbot Plus"; Some "Fingerbot Plus";
      Some "Fingerbot Plus"; Some "Fingerbot Plus"; Some "Fingerbot";
      Some "Fingerbot"; Some "Fingerbot"; Some "Fingerbot";
      Some "Fingerbot"; Some "Fingerbot"; Some "Fingerbot";
      Some "Thermostatic Radiator Valve"; Some "Thermostatic Radiator Valve";
      Some "Soil moisture sensor"; Some "Smart water bottle";
      Some "Irrigation computer"; Some "Irrigation computer";
      Some "A1 Ultra-JM"; None; None ].
Proof. vm_compute. reflexivity. Qed.

Lemma get_product_info_by_ids_catalogued_witness :
  get_product_info_by_ids (H := sample_consts) "ms" "mqc2hevy"
  = Some (product_with_lock (H := sample_consts) "Smart Lock"
            {| alarm_lock := 21; unlock_ble := 19;
               unlock_fingerprint := 12; unlock_password := 13 |}).
Proof.
  eapply (get_product_info_by_ids_catalogued (H := sample_consts) "ms" "mqc2hevy");
    vm_compute; reflexivity.
Defined.

Lemma get_product_info_by_ids_unknown_witness :
  get_product_info_by_ids (H := sample_consts) "ms" "hc7n0urm" = None
  /\ get_product_info_by_ids (H := sample_consts) "zwjcy" "gvygg3m8" = None.
Proof.
  split.
  - apply (proj2 (proj2
      (get_product_info_by_ids_unknown (H := sample_consts) "ms" "hc7n0urm"))).
    intros ci Hci. vm_compute in Hci. injection Hci as <-. vm_compute. reflexivity.
  - apply (proj1 (proj2
      (get_product_info_by_ids_unknown (H := sample_consts) "zwjcy" "gvygg3m8"))).
    vm_compute. reflexivity.
Defined.

(** ** The coordinators: what the handlers leave alone *)

Lemma same_connection_refl c : same_connection c c.
Proof. repeat split. Qed.

Lemma same_connection_trans c1 c2 c3 :
  same_connection c1 c2 -> same_connection c2 c3 -> same_connection c1 c3.
Proof.
  intros (?&?&?&?&?) (?&?&?&?&?). repeat split; congruence.
Qed.

Lemma fire_same_connection c e : same_connection c (fire c e).
Proof. repeat split. Qed.

Lemma async_update_listeners_same_connection c :
  same_connection c (async_update_listeners c).
Proof. repeat split. Qed.

Lemma fold_left_same_connection {A} (step : Coordinator -> A -> Coordinator) xs :
  (forall c x, same_connection c (step c x)) ->
  forall c, same_connection c (fold_left step xs c).
Proof.
  intros Hstep. induction xs as [|x xs IH]; intros c; simpl.
  - apply same_connection_refl.
  - eapply same_connection_trans; [apply Hstep | apply IH].
Qed.

(** A loop that fires [events_of x] for each [x], in order, on behalf of
    the device [dev]. *)
Lemma fold_left_bus {A} (step : Coordinator -> A -> Coordinator)
    (events_of : A -> list Event) (dev : TuyaBLEDevice) xs :
  (forall c x, _device c = dev ->
     bus (hass (step c x)) = bus (hass c) ++ events_of x
     /\ _device (step c x) = dev) ->
  forall c, _device c = dev ->
    bus (hass (fold_left step xs c)) = bus (hass c) ++ concat (map events_of xs)
    /\ _device (fold_left step xs c) = dev.
Proof.
  intros Hstep. induction xs as [|x xs IH]; intros c Hc; simpl.
  - by rewrite app_nil_r.
  - destruct (Hstep c x Hc) as [Hb Hd].
    destruct (IH _ Hd) as [IHb IHd].
    by rewrite IHb, Hb, <- app_assoc.
Qed.

Lemma concat_map_if {A B} (p : A -> bool) (b : B) xs :
  concat (map (fun x => if p x then [b] else []) xs)
  = map (fun _ => b) (List.filter p xs).
Proof.
  induction xs as [|x xs IH]; simpl; [done|].
  destruct (p x); simpl; by rewrite IH.
Qed.

Lemma fold_left_ext_step {A S} (f g : S -> A -> S) xs :
  (forall s x, f s x = g s x) ->
  forall s, fold_left f xs s = fold_left g xs s.
Proof.
  intros Hfg. induction xs as [|x xs IH]; intros s; simpl; [done|].
  by rewrite Hfg, IH.
Qed.

Section CoordinatorFacts.
Context `{Consts}.

(** *** The two classes run the same code *)

Lemma lock_step_agree lk c u :
  TuyaBLEPassiveCoordinator.lock_step lk c u = TuyaBLECoordinator.lock_step lk c u.
Proof.
  unfold TuyaBLEPassiveCoordinator.lock_step, TuyaBLECoordinator.lock_step.
  by destruct (DP.changed_by_device u).
Qed.

Lemma handle_update_agree c updates :
  TuyaBLEPassiveCoordinator._async_handle_update c updates
  = TuyaBLECoordinator._async_handle_update c updates.
Proof.
  unfold TuyaBLEPassiveCoordinator._async_handle_update,
    TuyaBLECoordinator._async_handle_update.
  change TuyaBLEPassiveCoordinator._async_handle_connect
    with TuyaBLECoordinator._async_handle_connect.
  change TuyaBLEPassiveCoordinator.fingerbot_step
    with TuyaBLECoordinator.fingerbot_step.
  cbv zeta.
  destruct (get_device_product_info _) as [i|]; [|done].
  destruct (lock i) as [lk|]; [|done].
  apply fold_left_ext_step, lock_step_agree.
Qed.

Lemma handle_agree c cb :
  TuyaBLEPassiveCoordinator.handle c cb = TuyaBLECoordinator.handle c cb.
Proof.
  destruct cb; simpl; [done | apply handle_update_agree | done | done].
Qed.

Lemma run_agree cbs c :
  fold_left TuyaBLEPassiveCoordinator.handle cbs c
  = fold_left TuyaBLECoordinator.handle cbs c.
Proof. apply fold_left_ext_step, handle_agree. Qed.

(** *** What an update fires *)

Lemma connect_bus c :
  bus (hass (TuyaBLECoordinator._async_handle_connect c)) = bus (hass c)
  /\ _device (TuyaBLECoordinator._async_handle_connect c) = _device c.
Proof.
  unfold TuyaBLECoordinator._async_handle_connect.
  destruct (_unsub_disconnect c), (_disconnected c) eqn:Hd; simpl;
    rewrite ?Hd; done.
Qed.

Lemma fingerbot_step_same_connection fb c u :
  same_connection c (TuyaBLECoordinator.fingerbot_step fb c u).
Proof.
  unfold TuyaBLECoordinator.fingerbot_step.
  destruct (_ && _); [apply fire_same_connection | apply same_connection_refl].
Qed.

Lemma lock_step_same_connection lk c u :
  same_connection c (TuyaBLECoordinator.lock_step lk c u).
Proof.
  unfold TuyaBLECoordinator.lock_step.
  repeat case_match;
    first [apply fire_same_connection | apply same_connection_refl].
Qed.

Lemma fingerbot_step_bus dev fb c u :
  _device c = dev ->
  bus (hass (TuyaBLECoordinator.fingerbot_step fb c u))
  = bus (hass c) ++ fingerbot_events dev fb u
  /\ _device (TuyaBLECoordinator.fingerbot_step fb c u) = dev.
Proof.
  intros <-. unfold TuyaBLECoordinator.fingerbot_step, fingerbot_events, pressed.
  destruct (_ && _); simpl; by rewrite ?app_nil_r.
Qed.

Lemma lock_step_bus dev lk c u :
  _device c = dev ->
  bus (hass (TuyaBLECoordinator.lock_step lk c u))
  = bus (hass c) ++ lock_events dev lk u
  /\ _device (TuyaBLECoordinator.lock_step lk c u) = dev.
Proof.
  intros <-. unfold TuyaBLECoordinator.lock_step, lock_events.
  repeat case_match; simpl; by rewrite ?app_nil_r.
Qed.

Lemma lock_event_not_button dev dev' kind label v :
  lock_event dev kind label v <> fingerbot_button_event dev'.
Proof.
  intros Heq. apply (f_equal (fun e => event_data e !! "event")) in Heq.
  vm_compute in Heq. discriminate Heq.
Qed.

Lemma lock_events_not_button dev dev' lk updates :
  Forall (fun e => e <> fingerbot_button_event dev')
    (concat (map (lock_events dev lk) updates)).
Proof.
  induction updates as [|u updates IH]; simpl; [constructor|].
  apply Forall_app; split; [|exact IH].
  unfold lock_events.
  repeat case_match; repeat constructor; apply lock_event_not_button.
Qed.

(** The bus after an update, for a product with a manually controlled
    fingerbot. *)
Lemma handle_update_bus c updates i fb :
  get_device_product_info (_device c) = Some i ->
  fingerbot i = Some fb ->
  manual_control fb <> 0 ->
  exists others,
    bus (hass (TuyaBLECoordinator._async_handle_update c updates))
    = bus (hass c)
      ++ map (fun _ => fingerbot_button_event (_device c))
           (List.filter (pressed fb) updates)
      ++ others
    /\ Forall (fun e => e <> fingerbot_button_event (_device c)) others.
Proof.
  intros Hinfo Hfb Hmanual.
  unfold TuyaBLECoordinator._async_handle_update. cbv zeta.
  destruct (connect_bus c) as [Hbus Hdev].
  set (c0 := async_update_listeners (TuyaBLECoordinator._async_handle_connect c)).
  assert (Hdev0 : _device c0 = _device c) by exact Hdev.
  assert (Hbus0 : bus (hass c0) = bus (hass c)) by exact Hbus.
  rewrite Hdev0, Hinfo, Hfb.
  apply Z.eqb_neq in Hmanual. rewrite Hmanual. simpl negb. cbv iota.
  destruct (fold_left_bus (TuyaBLECoordinator.fingerbot_step fb)
              (fingerbot_events (_device c) fb) (_device c) updates
              (fun c' u => fingerbot_step_bus _ fb c' u) c0 Hdev0) as [Hb1 Hd1].
  unfold fingerbot_events in Hb1. rewrite concat_map_if, Hbus0 in Hb1.
  destruct (lock i) as [lk|].
  - destruct (fold_left_bus (TuyaBLECoordinator.lock_step lk)
                (lock_events (_device c) lk) (_device c) updates
                (fun c' u => lock_step_bus _ lk c' u) _ Hd1) as [Hb2 _].
    exists (concat (map (lock_events (_device c) lk) updates)).
    split; [|apply lock_events_not_button].
    by rewrite Hb2, Hb1, <- app_assoc.
  - exists []. split; [|constructor]. by rewrite app_nil_r.
Qed.

End CoordinatorFacts.

(** ** The disconnect timer *)

Lemma cancel_only_timer hass0 h d :
  timers hass0 = [(h, d)] -> timers (cancel hass0 h) = [].
Proof.
  intros Ht. unfold cancel; simpl. rewrite Ht.
  rewrite filter_cons_False; [apply filter_nil | simpl; tauto].
Qed.

Lemma cancel_no_timer hass0 h :
  timers hass0 = [] -> timers (cancel hass0 h) = [].
Proof. intros Ht. unfold cancel; simpl. by rewrite Ht. Qed.

Lemma armed_only_timer hass0 h h' d :
  timers hass0 = [(h', d)] -> armed hass0 h = true -> h = h'.
Proof.
  intros Ht Ha. unfold armed in Ha. rewrite Ht in Ha.
  apply bool_decide_eq_true in Ha. simpl in Ha.
  by apply list_elem_of_singleton in Ha.
Qed.

Lemma armed_no_timer hass0 h :
  timers hass0 = [] -> armed hass0 h = true -> False.
Proof.
  intros Ht Ha. unfold armed in Ha. rewrite Ht in Ha.
  apply bool_decide_eq_true in Ha. simpl in Ha. by apply elem_of_nil in Ha.
Qed.

Section TimerFacts.
Context `{Consts}.

(** Chains of the two loops of an update handler. *)
Ltac same_connection_loops :=
  repeat first
    [ apply same_connection_refl
    | apply fold_left_same_connection;
      first [apply lock_step_same_connection | apply fingerbot_step_same_connection]
    | eapply same_connection_trans;
      [| apply fold_left_same_connection;
         first [apply lock_step_same_connection | apply fingerbot_step_same_connection]] ].

Lemma new_coordinator_inv hass0 device :
  timers hass0 = [] -> timer_inv (new_coordinator hass0 device).
Proof. intros Ht. by left. Qed.

Lemma connect_disarms c :
  timer_inv c -> timers (hass (TuyaBLECoordinator._async_handle_connect c)) = [].
Proof.
  intros Hinv. unfold TuyaBLECoordinator._async_handle_connect.
  assert (Hcancelled :
    timers (hass (match _unsub_disconnect c with
                  | Some unsub => set_hass c (cancel (hass c) unsub)
                  | None => c
                  end)) = []).
  { destruct Hinv as [Ht | (h & d & Ht & Hu)].
    - destruct (_unsub_disconnect c); [by apply cancel_no_timer | done].
    - rewrite Hu. by apply (cancel_only_timer _ h d). }
  by destruct (_disconnected _).
Qed.

Lemma connect_inv c :
  timer_inv c -> timer_inv (TuyaBLECoordinator._async_handle_connect c).
Proof. intros Hinv. left. by apply connect_disarms. Qed.

Lemma update_same_connection c updates :
  same_connection (TuyaBLECoordinator._async_handle_connect c)
    (TuyaBLECoordinator._async_handle_update c updates).
Proof.
  unfold TuyaBLECoordinator._async_handle_update. cbv zeta.
  eapply same_connection_trans; [apply async_update_listeners_same_connection|].
  destruct (get_device_product_info _) as [i|]; [|apply same_connection_refl].
  destruct (fingerbot i) as [fb|]; [destruct (negb _)|];
    destruct (lock i) as [lk|]; same_connection_loops.
Qed.

Lemma update_inv c updates :
  timer_inv c -> timer_inv (TuyaBLECoordinator._async_handle_update c updates).
Proof.
  intros Hinv. left.
  destruct (update_same_connection c updates) as (Ht & _).
  rewrite Ht. by apply connect_disarms.
Qed.

Lemma disconnect_arms c :
  timers (hass (TuyaBLECoordinator._async_handle_disconnect c)) <> timers (hass c) ->
  _unsub_disconnect c = None
  /\ timers (hass (TuyaBLECoordinator._async_handle_disconnect c))
     = timers (hass c) ++ [(next_handle (hass c), SET_DISCONNECTED_DELAY)]
  /\ _unsub_disconnect (TuyaBLECoordinator._async_handle_disconnect c)
     = Some (next_handle (hass c)).
Proof.
  unfold TuyaBLECoordinator._async_handle_disconnect.
  destruct (_unsub_disconnect c); simpl; [done | by intros _].
Qed.

Lemma disconnect_inv c :
  timer_inv c -> timer_inv (TuyaBLECoordinator._async_handle_disconnect c).
Proof.
  intros Hinv.
  destruct (_unsub_disconnect c) as [u|] eqn:Hu.
  - unfold TuyaBLECoordinator._async_handle_disconnect. by rewrite Hu.
  - destruct Hinv as [Ht | (h & d & _ & Hu')]; [|congruence].
    right. exists (next_handle (hass c)), SET_DISCONNECTED_DELAY.
    unfold TuyaBLECoordinator._async_handle_disconnect. rewrite Hu. simpl.
    by rewrite Ht.
Qed.

Lemma timer_fired_clears c h :
  timer_inv c -> armed (hass c) h = true ->
  _unsub_disconnect (TuyaBLECoordinator.handle c (TimerFired h)) = None
  /\ timers (hass (TuyaBLECoordinator.handle c (TimerFired h))) = [].
Proof.
  intros Hinv Ha. simpl. rewrite Ha. split; [done|]. simpl.
  destruct Hinv as [Ht | (h' & d & Ht & _)].
  - by destruct (armed_no_timer _ _ Ht Ha).
  - rewrite (armed_only_timer _ _ _ _ Ht Ha). rewrite Ht.
    rewrite filter_cons_False; [apply filter_nil | simpl; tauto].
Qed.

Lemma handle_inv c cb :
  timer_inv c -> timer_inv (TuyaBLECoordinator.handle c cb).
Proof.
  intros Hinv. destruct cb as [|updates| |h].
  - by apply connect_inv.
  - by apply update_inv.
  - by apply disconnect_inv.
  - destruct (armed (hass c) h) eqn:Ha.
    + left. by apply timer_fired_clears.
    + simpl. by rewrite Ha.
Qed.

Lemma run_inv cbs c :
  timer_inv c -> timer_inv (fold_left TuyaBLECoordinator.handle cbs c).
Proof.
  revert c. induction cbs as [|cb cbs IH]; intros c Hinv; simpl; [done|].
  by apply IH, handle_inv.
Qed.

Lemma timer_inv_discipline c :
  timer_inv c ->
  timer_discipline TuyaBLECoordinator._async_handle_connect
    TuyaBLECoordinator._async_handle_disconnect TuyaBLECoordinator.handle c.
Proof.
  intros Hinv. repeat apply conj.
  - destruct Hinv as [-> | (h & d & -> & _)]; simpl; lia.
  - intros h Ha. destruct Hinv as [Ht | (h' & d & Ht & Hu)].
    + by destruct (armed_no_timer _ _ Ht Ha).
    + by rewrite (armed_only_timer _ _ _ _ Ht Ha).
  - by apply connect_disarms.
  - intros Hchanged. destruct (disconnect_arms c Hchanged) as (Hu & Ht & _).
    destruct Hinv as [Ht0 | (h & d & _ & Hu')]; [|congruence].
    split; [done|]. by rewrite Ht, Ht0.
  - intros h Ha. by apply timer_fired_clears.
Qed.

End TimerFacts.

(** ** The coordinators: events and timer *)

Section CoordinatorClaims.
Context `{Consts}.

(** C6. For a device whose product info carries a fingerbot descriptor with
    [manual_control] other than 0, the update handler of either coordinator
    class fires [FINGERBOT_BUTTON_EVENT], with the device's address and device
    id as data, once for each update of the list whose id is the fingerbot's
    switch id and whose [changed_by_device] flag is set, in the order of the
    list, and whatever else it fires is another event. *)
Theorem fingerbot_button_event_per_press self updates info fb :
  get_device_product_info (_device self) = Some info ->
  fingerbot info = Some fb ->
  manual_control fb <> 0 ->
  let button := fingerbot_button_event (_device self) in
  event_type button = FINGERBOT_BUTTON_EVENT
  /\ event_data button !! CONF_ADDRESS = Some (VStr (address (_device self)))
  /\ event_data button !! CONF_DEVICE_ID = Some (VStr (device_id (_device self)))
  /\ (exists others,
        bus (hass (TuyaBLECoordinator._async_handle_update self updates))
        = bus (hass self)
          ++ map (fun _ => button) (List.filter (pressed fb) updates) ++ others
        /\ Forall (fun e => e <> button) others)
  /\ (exists others,
        bus (hass (TuyaBLEPassiveCoordinator._async_handle_update self updates))
        = bus (hass self)
          ++ map (fun _ => button) (List.filter (pressed fb) updates) ++ others
        /\ Forall (fun e => e <> button) others).
Proof.
  intros Hinfo Hfb Hmanual button.
  split; [reflexivity|]. split; [by vm_compute|]. split; [by vm_compute|].
  rewrite handle_update_agree.
  split; by apply (handle_update_bus self updates info fb).
Qed.

(** C9. The update handlers of the two coordinator classes are
    interchangeable: from the same coordinator state and the same list of
    updates they fire the same events in the same order, make the same
    connected-state transition, and in fact leave the same state. *)
Theorem update_handlers_equivalent (self : Coordinator) (updates : list TuyaBLEDataPoint) :
  let a := TuyaBLECoordinator._async_handle_update self updates in
  let b := TuyaBLEPassiveCoordinator._async_handle_update self updates in
  bus (hass a) = bus (hass b)
  /\ connected a = connected b
  /\ a = b.
Proof.
  cbv zeta. by rewrite handle_update_agree.
Qed.

(** C7. Over every sequence of connect, update, disconnect and timer
    callbacks a coordinator of either class handles, starting with no delayed
    call armed, at most one delayed disconnect call is armed at any time, and
    it is the one [_unsub_disconnect] cancels; handling a connect leaves none
    armed; handling a disconnect arms one only when none is armed; and the
    delayed call, when it runs, clears [_unsub_disconnect]. *)
Theorem single_disconnect_timer hass0 device (callbacks : list callback) :
  timers hass0 = [] ->
  timer_discipline TuyaBLECoordinator._async_handle_connect
    TuyaBLECoordinator._async_handle_disconnect TuyaBLECoordinator.handle
    (fold_left TuyaBLECoordinator.handle callbacks (new_coordinator hass0 device))
  /\ timer_discipline TuyaBLEPassiveCoordinator._async_handle_connect
       TuyaBLEPassiveCoordinator._async_handle_disconnect
       TuyaBLEPassiveCoordinator.handle
       (fold_left TuyaBLEPassiveCoordinator.handle callbacks
          (new_coordinator hass0 device)).
Proof.
  intros Hidle.
  assert (Hinv : timer_inv
    (fold_left TuyaBLECoordinator.handle callbacks (new_coordinator hass0 device)))
    by (by apply run_inv, new_coordinator_inv).
  split; [by apply timer_inv_discipline|].
  rewrite run_agree.
  destruct (timer_inv_discipline _ Hinv) as (H1 & H2 & H3 & H4 & H5).
  repeat apply conj; assumption.
Qed.

End CoordinatorClaims.

(** ** Sensors: the battery getter and the datapoint handler *)

Lemma int_of_float_raises x exc :
  int_of_float x = Raise exc ->
  (exc = ValueError /\ Prim2SF x = S754_nan)
  \/ (exc = OverflowError /\ is_infinite x = true).
Proof.
  unfold int_of_float, is_infinite.
  destruct (Prim2SF x); intros [= <-]; auto.
Qed.

Lemma float_of_int_raises n e : float_of_int n = Raise e -> e = OverflowError.
Proof.
  unfold float_of_int. destruct (binary_normalize 53 1024 n 0 false);
    by intros [= <-].
Qed.

Lemma py_truediv_raises v c e :
  is_int_or_float v = true ->
  py_truediv v c = Raise e ->
  (e = ZeroDivisionError /\ PrimFloat.eqb c 0 = true)
  \/ (e = OverflowError
      /\ exists n, v = VInt n /\ float_of_int n = Raise OverflowError).
Proof.
  intros Hnum. unfold py_truediv.
  destruct v as [|b|n|x|t|t]; try discriminate; simpl.
  - destruct b; vm_compute float_of_int; simpl;
      destruct (PrimFloat.eqb c 0); intros [= <-]; auto.
  - destruct (float_of_int n) as [a|e'] eqn:Hn; simpl.
    + destruct (PrimFloat.eqb c 0); intros [= <-]; auto.
    + intros [= <-]. pose proof (float_of_int_raises _ _ Hn) as ->. eauto.
  - destruct (PrimFloat.eqb c 0); intros [= <-]; auto.
Qed.

Section SensorClaims.
Context `{PyBuiltins}.
Import TuyaBLESensor.

Lemma py_int_raises v exc :
  py_int v = Raise exc ->
  exc = ValueError \/ exc = TypeError
  \/ (exc = OverflowError /\ exists x, v = VFloat x /\ is_infinite x = true).
Proof.
  destruct v as [|b|n|x|s|b]; simpl; try discriminate.
  - intros [= <-]. auto.
  - intros Hx. destruct (int_of_float_raises _ _ Hx) as [[-> _]|[-> Hinf]]; eauto 6.
  - destruct (int_of_str s); [discriminate|]. intros [= <-]. auto.
  - destruct (int_of_bytes b); [discriminate|]. intros [= <-]. auto.
Qed.

Lemma battery_enum_getter_scales e datapoint n :
  datapoints (_device e) !! 104 = Some datapoint ->
  py_int (DP.value datapoint) = Ok n ->
  battery_enum_getter e = Ok (set_native_value e (VInt (n * 20))).
Proof.
  intros Hdp Hint. unfold battery_enum_getter. by rewrite Hdp, Hint.
Qed.

(** C3. When [battery_enum_getter] runs on a sensor whose device reports
    datapoint 104 with a value that [int] coerces to 3, the native value it
    writes is 60. *)
Theorem battery_enum_getter_raw_3 e datapoint :
  datapoints (_device e) !! 104 = Some datapoint ->
  py_int (DP.value datapoint) = Ok 3 ->
  battery_enum_getter e = Ok (set_native_value e (VInt 60))
  /\ forall s, self s = e -> getter (_mapping s) = Some battery_enum_getter ->
       exists s', _handle_coordinator_update s = Ok s'
                  /\ _attr_native_value (self s') = VInt 60
                  /\ state_writes (self s') = S (state_writes e).
Proof.
  intros Hdp Hint.
  pose proof (battery_enum_getter_scales e datapoint 3 Hdp Hint) as Hget.
  split; [exact Hget|].
  intros s <- Hgetter. unfold _handle_coordinator_update.
  rewrite Hgetter, Hget. simpl. eauto.
Qed.

(** C5, as the code has it. [battery_enum_getter] catches the [ValueError]
    or [TypeError] of a failed coercion of datapoint 104's value and sets the
    native value to [None]; it does nothing when the datapoint is absent; and
    the one exception it lets through is the [OverflowError] of coercing an
    infinite float. *)
Theorem battery_enum_getter_raises_only_overflow e :
  (forall datapoint,
      datapoints (_device e) !! 104 = Some datapoint ->
      py_int (DP.value datapoint) = Raise ValueError
      \/ py_int (DP.value datapoint) = Raise TypeError ->
      battery_enum_getter e = Ok (set_native_value e VNone))
  /\ (datapoints (_device e) !! 104 = None -> battery_enum_getter e = Ok e)
  /\ (forall exc,
        battery_enum_getter e = Raise exc ->
        exc = OverflowError
        /\ exists datapoint x,
             datapoints (_device e) !! 104 = Some datapoint
             /\ DP.value datapoint = VFloat x /\ is_infinite x = true).
Proof.
  unfold battery_enum_getter. split; [|split].
  - intros datapoint -> [-> | ->]; reflexivity.
  - by intros ->.
  - intros exc. destruct (datapoints (_device e) !! 104) as [datapoint|]; [|done].
    destruct (py_int (DP.value datapoint)) as [n|exc'] eqn:Hint; [done|].
    simpl. destruct (py_int_raises _ _ Hint) as [->|[->|[-> (x & Hx & Hinf)]]];
      try discriminate.
    intros [= <-]. eauto 6.
Qed.

(** C8. A sensor without a custom getter whose mapped datapoint is absent,
    or present with the value [None], is left exactly as it was by
    [_handle_coordinator_update]: native value, icon, every other attribute,
    and the count of states written to the host. *)
Theorem handle_coordinator_update_absent s :
  getter (_mapping s) = None ->
  datapoints (_device (self s)) !! dp_id (_mapping s) = None
  \/ (exists datapoint,
        datapoints (_device (self s)) !! dp_id (_mapping s) = Some datapoint
        /\ DP.value datapoint = VNone) ->
  _handle_coordinator_update s = Ok s.
Proof.
  intros Hgetter Habsent. unfold _handle_coordinator_update. rewrite Hgetter.
  destruct Habsent as [-> | (datapoint & -> & ->)]; reflexivity.
Qed.

(** C4, amended. For a sensor without a custom getter whose mapped
    datapoint holds a number. With type [DT_VALUE]: when the division of the
    value by the mapping's coefficient returns, the handler sets the native
    value to the quotient and writes the state, on a [BATTERY] sensor to the
    quotient truncated to an int when that truncation returns; and the handler
    raises only when the division or that truncation does: [ZeroDivisionError]
    for a zero coefficient, [OverflowError] for an int beyond the range of a
    float, and on a [BATTERY] sensor [ValueError] for a NaN quotient and
    [OverflowError] for an infinite one. With type [DT_ENUM] and an int that
    is a valid index into the description's options, it sets the native value
    to the option at that index and writes the state. *)
Theorem handle_coordinator_update_number s datapoint :
  getter (_mapping s) = None ->
  datapoints (_device (self s)) !! dp_id (_mapping s) = Some datapoint ->
  is_int_or_float (DP.value datapoint) = true ->
  (DP.type datapoint = Some DT_VALUE ->
   forall quotient,
     py_truediv (DP.value datapoint) (coefficient (_mapping s)) = Ok quotient ->
     (device_class (entity_description (self s)) = Some BATTERY ->
      forall n, int_of_float quotient = Ok n ->
        _handle_coordinator_update s
        = Ok (with_entity s
                (async_write_ha_state (set_native_value (self s) (VInt n)))))
     /\ (device_class (entity_description (self s)) <> Some BATTERY ->
         _handle_coordinator_update s
         = Ok (with_entity s
                 (async_write_ha_state
                    (set_native_value (self s) (VFloat quotient))))))
  /\ (DP.type datapoint = Some DT_ENUM ->
      forall opts n label,
        options (entity_description (self s)) = Some opts ->
        DP.value datapoint = VInt n ->
        0 <= n ->
        opts !! Z.to_nat n = Some label ->
        exists s',
          _handle_coordinator_update s = Ok s'
          /\ _attr_native_value (self s') = VStr label
          /\ state_writes (self s') = S (state_writes (self s)))
  /\ (DP.type datapoint = Some DT_VALUE ->
      forall e,
        _handle_coordinator_update s = Raise e ->
        (e = ZeroDivisionError
         /\ PrimFloat.eqb (coefficient (_mapping s)) 0 = true)
        \/ (e = OverflowError
            /\ exists n, DP.value datapoint = VInt n
                         /\ float_of_int n = Raise OverflowError)
        \/ (device_class (entity_description (self s)) = Some BATTERY
            /\ exists quotient,
                 py_truediv (DP.value datapoint) (coefficient (_mapping s))
                 = Ok quotient
                 /\ ((e = ValueError /\ Prim2SF quotient = S754_nan)
                     \/ (e = OverflowError /\ is_infinite quotient = true)))).
Proof.
  intros Hgetter Hdp Hnum. unfold _handle_coordinator_update.
  rewrite Hgetter, Hdp.
  assert (Hnone : is_none (DP.value datapoint) = false)
    by (by destruct (DP.value datapoint)).
  rewrite Hnone, Hnum. split; [|split].
  3: { intros Htype e. rewrite Htype. simpl.
       destruct (py_truediv _ _) as [q|e'] eqn:Hdiv; simpl.
       - destruct (bool_decide _) eqn:Hclass; [|discriminate].
         apply bool_decide_eq_true in Hclass.
         destruct (int_of_float q) as [m|e'] eqn:Hint; [discriminate|].
         simpl. intros [= <-]. right. right. split; [done|]. exists q.
         split; [done|]. exact (int_of_float_raises _ _ Hint).
       - intros [= <-].
         destruct (py_truediv_raises _ _ _ Hnum Hdiv) as [?|?]; auto. }
  - intros Htype quotient Hdiv. rewrite Htype. simpl. rewrite Hdiv. simpl.
    split.
    + intros Hclass n Hn. rewrite Hclass. simpl. by rewrite Hn.
    + intros Hclass. by rewrite bool_decide_eq_false_2.
  - intros Htype opts n o Hopts Hvalue Hpos Hlookup. rewrite Htype. simpl.
    unfold _handle_enum_value. rewrite Hopts, Hvalue. simpl.
    assert (Hn : (Z.to_nat n < length opts)%nat) by (by eapply lookup_lt_Some).
    assert (Hrange : (0 <=? n) && (n <? Z.of_nat (length opts)) = true).
    { apply andb_true_intro. split; [by apply Z.leb_le | apply Z.ltb_lt; lia]. }
    rewrite Hrange, Hlookup. simpl.
    destruct (icons (_mapping s)) as [ics|]; [|simpl; eauto].
    destruct ((0 <=? n) && (n <? Z.of_nat (length ics))) eqn:Hics;
      [|simpl; eauto].
    destruct (ics !! Z.to_nat n) as [i|] eqn:Hi; [simpl; eauto|].
    apply andb_true_iff in Hics as [_ Hlt%Z.ltb_lt].
    apply lookup_ge_None in Hi. lia.
Qed.

End SensorClaims.

(** ** The last-unlock sensor *)

Lemma Qgtb_true a b : Qgtb a b = true <-> Qlt b a.
Proof.
  unfold Qgtb. rewrite negb_true_iff, <- not_true_iff_false, Qle_bool_iff.
  split; [apply Qnot_le_lt | apply Qlt_not_le].
Qed.

Lemma Qgtb_false a b : Qgtb a b = false <-> Qle a b.
Proof.
  unfold Qgtb. by rewrite negb_false_iff, Qle_bool_iff.
Qed.

Lemma all_timestamped_spec device keys :
  all_timestamped device keys = true -> timestamped device keys.
Proof.
  unfold all_timestamped, timestamped. rewrite forallb_forall.
  intros Hall k dp Hk%list_elem_of_In Hdp.
  specialize (Hall k Hk). unfold has_id, has_timestamp in Hall.
  rewrite Hdp in Hall. rewrite bool_decide_eq_true_2 in Hall by eauto.
  simpl in Hall. by destruct (DP.timestamp dp).
Qed.

Lemma for_each_snoc {A S} (xs : list A) (x : A) (body : S -> A -> result S) s :
  for_each (xs ++ [x]) body s = (s' <- for_each xs body s ;; body s' x).
Proof.
  revert s. induction xs as [|y xs IH]; intros s; simpl.
  - by destruct (body s x).
  - destruct (body s y) as [s'|e]; simpl; [apply IH | done].
Qed.

Lemma dict_get_elem {V} (d : list (Z * V)) k default :
  k ∈ d.*1 -> (k, dict_get d k default) ∈ d.
Proof.
  induction d as [|[k' v] d IH]; simpl; intros Hk.
  - by apply elem_of_nil in Hk.
  - destruct (Z.eqb_spec k' k) as [->|Hne]; [left|].
    apply elem_of_cons in Hk as [->|Hk]; [done|]. right. by apply IH.
Qed.

Section LastUnlockFacts.
Import TuyaBLELastUnlockSensor.

Lemma latest_first device keys k dp t :
  datapoints device !! k = Some dp -> DP.timestamp dp = Some t ->
  (forall k', k' ∈ keys -> datapoints device !! k' = None) ->
  latest device (keys ++ [k]) k dp t.
Proof.
  intros Hdp Ht Hnone. exists keys, []. repeat split; try done.
  - intros k' dp' t' Hk' [Hdp' _]. rewrite (Hnone k' Hk') in Hdp'. done.
  - intros k' dp' t' Hk'. by apply elem_of_nil in Hk'.
Qed.

Lemma latest_later device keys k0 dp0 t0 k dp t :
  latest device keys k0 dp0 t0 ->
  datapoints device !! k = Some dp -> DP.timestamp dp = Some t ->
  Qlt t0 t ->
  latest device (keys ++ [k]) k dp t.
Proof.
  intros (before & after & -> & [Hdp0 Ht0] & Hbefore & Hafter) Hdp Ht Hlt.
  exists (before ++ k0 :: after), []. repeat split; try done.
  - intros k' dp' t' Hk' Hp'.
    apply elem_of_app in Hk' as [Hk'|Hk'].
    + eapply Qlt_trans; [by eapply Hbefore | done].
    + apply elem_of_cons in Hk' as [->|Hk'].
      * destruct Hp' as [Hdp' Ht']. rewrite Hdp0 in Hdp'.
        injection Hdp' as <-. rewrite Ht0 in Ht'. by injection Ht' as <-.
      * eapply Qle_lt_trans; [by eapply Hafter | done].
  - intros k' dp' t' Hk'. by apply elem_of_nil in Hk'.
Qed.

Lemma latest_kept device keys k0 dp0 t0 k :
  latest device keys k0 dp0 t0 ->
  (forall dp t, present device k dp t -> Qle t t0) ->
  latest device (keys ++ [k]) k0 dp0 t0.
Proof.
  intros (before & after & -> & Hp0 & Hbefore & Hafter) Hle.
  exists before, (after ++ [k]). repeat split; try done.
  - by rewrite <- app_assoc.
  - apply Hp0.
  - apply Hp0.
  - intros k' dp' t' Hk' Hp'.
    apply elem_of_app in Hk' as [Hk'|Hk'].
    + by eapply Hafter.
    + apply list_elem_of_singleton in Hk' as ->. by eapply Hle.
Qed.

Lemma loop_body_inv device methods values keys k l :
  timestamped device (keys ++ [k]) ->
  loop_inv device methods values keys l ->
  exists l', loop_body device methods l k = Ok l'
             /\ loop_inv device methods values (keys ++ [k]) l'.
Proof.
  intros Hts [Hvalues Hinv]. unfold loop_body, has_id.
  destruct (datapoints device !! k) as [dp|] eqn:Hdp.
  - rewrite bool_decide_eq_true_2 by eauto.
    destruct (Hts k dp) as [t Ht];
      [apply elem_of_app; right; by apply list_elem_of_singleton | done |].
    rewrite Ht.
    destruct Hinv as [(Hm & Hlt & Hnone) | (k0 & dp0 & t0 & Hlatest & Hlt & Hm & Hv)].
    + rewrite Hlt. eexists; split; [done|]. split; [done|]. right.
      exists k, dp, t. repeat split; try done. by apply latest_first.
    + rewrite Hlt. destruct (Qgtb t t0) eqn:Hgt.
      * eexists; split; [done|]. split; [done|]. right.
        exists k, dp, t. repeat split; try done.
        eapply latest_later; eauto. by apply Qgtb_true.
      * eexists; split; [done|]. split; [done|]. right.
        exists k0, dp0, t0. repeat split; try done.
        apply latest_kept; [done|]. intros dp' t' [Hdp' Ht'].
        rewrite Hdp in Hdp'. injection Hdp' as <-. rewrite Ht in Ht'.
        injection Ht' as <-. by apply Qgtb_false.
  - rewrite bool_decide_eq_false_2 by (intros [? ?]; done).
    eexists; split; [done|]. split; [done|].
    destruct Hinv as [(Hm & Hlt & Hnone) | (k0 & dp0 & t0 & Hlatest & Hlt & Hm & Hv)].
    + left. repeat split; try done. intros k' Hk'.
      apply elem_of_app in Hk' as [Hk'|Hk']; [by apply Hnone|].
      by apply list_elem_of_singleton in Hk' as ->.
    + right. exists k0, dp0, t0. repeat split; try done.
      apply latest_kept; [done|]. intros dp' t' [Hdp' _]. by rewrite Hdp in Hdp'.
Qed.

Lemma loop_inv_run device methods values keys :
  timestamped device keys ->
  exists l,
    for_each keys (loop_body device methods)
      {| last_method := None; last_value := VNone; last_time := None;
         last_values := values |} = Ok l
    /\ loop_inv device methods values keys l.
Proof.
  induction keys as [|k keys IH] using rev_ind; intros Hts.
  - eexists; split; [done|]. split; [done|]. left. repeat split.
    intros k Hk. by apply elem_of_nil in Hk.
  - destruct IH as (l & Hrun & Hinv).
    { intros k' dp Hk'. apply Hts, elem_of_app. by left. }
    destruct (loop_body_inv device methods values keys k l Hts Hinv)
      as (l' & Hbody & Hinv').
    exists l'. split; [|done]. by rewrite for_each_snoc, Hrun.
Qed.

End LastUnlockFacts.

Section LastUnlockClaims.
Import TuyaBLELastUnlockSensor.

(** The handler on a sensor whose present unlock datapoints all carry a
    timestamp: it returns, writes the state once, and either no unlock
    datapoint is present and the reported value stays, or the reported value
    is the label of the most recently updated one. *)
Lemma handle_coordinator_update_timestamped self :
  timestamped (_device self) (_unlock_methods self).*1 ->
  exists self',
    _handle_coordinator_update self = Ok self'
    /\ state_writes self' = S (state_writes self)
    /\ _last_values self' = _last_values self
    /\ (((forall k, k ∈ (_unlock_methods self).*1 ->
            datapoints (_device self) !! k = None)
         /\ _attr_native_value self' = _attr_native_value self
         /\ _attr_extra_state_attributes self' = _attr_extra_state_attributes self)
        \/ exists k dp t label,
             latest (_device self) (_unlock_methods self).*1 k dp t
             /\ (k, label) ∈ _unlock_methods self
             /\ _attr_native_value self' = VStr label
             /\ _attr_extra_state_attributes self'
                = dict_literal [("method", VStr label); ("value", DP.value dp)]).
Proof.
  intros Hts. unfold _handle_coordinator_update.
  destruct (loop_inv_run (_device self) (_unlock_methods self)
              (_last_values self) _ Hts) as (l & -> & Hvalues & Hinv).
  eexists; split; [reflexivity|]. simpl. split; [done|]. split; [done|].
  destruct Hinv as [(-> & _ & Hnone) | (k & dp & t & Hlatest & _ & -> & ->)].
  - by left.
  - right. exists k, dp, t, (dict_get (_unlock_methods self) k (pretty k)).
    repeat split; try done.
    apply dict_get_elem.
    destruct Hlatest as (before & after & -> & _). set_solver.
Qed.

(** C2, as the code has it. For a last-unlock sensor whose present
    unlock-method datapoints all carry a timestamp, and with at least one of
    them present, after [_handle_coordinator_update] the native value is the
    label mapped to the most recently updated datapoint id among those
    present (the first, in the mapping's order, of those with the greatest
    timestamp), and the extra state attributes record that label as the
    method and that datapoint's value. *)
Theorem last_unlock_reports_latest self :
  all_timestamped (_device self) (_unlock_methods self).*1 = true ->
  existsb (has_id (_device self)) (_unlock_methods self).*1 = true ->
  exists self' k dp t label,
    _handle_coordinator_update self = Ok self'
    /\ latest (_device self) (_unlock_methods self).*1 k dp t
    /\ (k, label) ∈ _unlock_methods self
    /\ _attr_native_value self' = VStr label
    /\ _attr_extra_state_attributes self'
       = dict_literal [("method", VStr label); ("value", DP.value dp)]
    /\ state_writes self' = S (state_writes self).
Proof.
  intros Hts%all_timestamped_spec Hsome.
  apply existsb_exists in Hsome as (k0 & Hk0%list_elem_of_In & Hid).
  apply bool_decide_eq_true in Hid as [dp0 Hdp0].
  destruct (handle_coordinator_update_timestamped self Hts)
    as (self' & Hrun & Hw & _ & [(Hnone & _) | (k & dp & t & label & H1 & H2 & H3 & H4)]).
  - rewrite (Hnone k0 Hk0) in Hdp0. done.
  - exists self', k, dp, t, label. done.
Qed.

End LastUnlockClaims.

(* ===================================================================== *)
(** * The handlers on concrete devices                                     *)
(* ===================================================================== *)

Lemma battery_enum_getter_raw_3_witness :
  TuyaBLESensor.battery_enum_getter (H := sample_builtins)
    (TuyaBLESensor.self (water_bottle_battery (VInt 3)))
  = Ok (TuyaBLESensor.set_native_value
          (TuyaBLESensor.self (water_bottle_battery (VInt 3))) (VInt 60)).
Proof.
  eapply (battery_enum_getter_raw_3 (H := sample_builtins)); reflexivity.
Defined.

(** C5 fails as stated: with an infinite float under datapoint 104 the
    coercion raises [OverflowError], which the getter does not catch. *)
Lemma battery_enum_getter_overflow :
  TuyaBLESensor.battery_enum_getter (H := sample_builtins)
    (TuyaBLESensor.self (water_bottle_battery (VFloat infinity)))
  = Raise OverflowError.
Proof. vm_compute. reflexivity. Qed.

Lemma battery_enum_getter_raises_only_overflow_witness :
  TuyaBLESensor.battery_enum_getter (H := sample_builtins)
    (TuyaBLESensor.self (water_bottle_battery (VStr "high")))
  = Ok (TuyaBLESensor.set_native_value
          (TuyaBLESensor.self (water_bottle_battery (VStr "high"))) VNone)
  /\ TuyaBLESensor.battery_enum_getter (H := sample_builtins)
       (TuyaBLESensor.self (water_bottle_battery VNone))
     = Ok (TuyaBLESensor.set_native_value
             (TuyaBLESensor.self (water_bottle_battery VNone)) VNone).
Proof.
  split.
  - eapply (proj1 (battery_enum_getter_raises_only_overflow
                     (H := sample_builtins) _)); [reflexivity | by left].
  - eapply (proj1 (battery_enum_getter_raises_only_overflow
                     (H := sample_builtins) _)); [reflexivity | by right].
Defined.

Lemma handle_coordinator_update_absent_witness :
  TuyaBLESensor._handle_coordinator_update (H := sample_builtins)
    (plain_sensor 2 battery_description 1 sample_readings)
  = Ok (plain_sensor 2 battery_description 1 sample_readings)
  /\ TuyaBLESensor._handle_coordinator_update (H := sample_builtins)
       (plain_sensor 9 battery_description 1 sample_readings)
     = Ok (plain_sensor 9 battery_description 1 sample_readings).
Proof.
  split.
  - apply (handle_coordinator_update_absent (H := sample_builtins));
      [reflexivity | left; reflexivity].
  - apply (handle_coordinator_update_absent (H := sample_builtins));
      [reflexivity | right; eexists; split; reflexivity].
Defined.

(** C4 fails as stated: a sensor without a getter whose datapoint holds a
    number of type [DT_VALUE] sets no native value but raises, on a [BATTERY]
    sensor for an infinite and for a NaN value, and on any sensor for the
    coefficient zero. *)
Lemma handle_coordinator_update_number_raises :
  TuyaBLESensor._handle_coordinator_update (H := sample_builtins)
    (plain_sensor 4 battery_description 1
       [datapoint 4 (Some 1%Q) DT_VALUE (VFloat infinity) true])
  = Raise OverflowError
  /\ TuyaBLESensor._handle_coordinator_update (H := sample_builtins)
       (plain_sensor 4 battery_description 1
          [datapoint 4 (Some 1%Q) DT_VALUE (VFloat nan) true])
     = Raise ValueError
  /\ TuyaBLESensor._handle_coordinator_update (H := sample_builtins)
       (plain_sensor 1 temperature_description 0 sample_readings)
     = Raise ZeroDivisionError.
Proof. vm_compute. repeat split. Qed.

(** 255 over the coefficient 10.0 is 25.5; a battery level of 87 over 1.0
    is the int 87; alarm 1 is "wrong_password". *)
Lemma handle_coordinator_update_number_witness :
  TuyaBLESensor._handle_coordinator_update (H := sample_builtins)
    (plain_sensor 1 temperature_description 10 sample_readings)
  = Ok (TuyaBLESensor.with_entity
          (plain_sensor 1 temperature_description 10 sample_readings)
          (TuyaBLESensor.async_write_ha_state
             (TuyaBLESensor.set_native_value
                (TuyaBLESensor.self
                   (plain_sensor 1 temperature_description 10 sample_readings))
                (VFloat 25.5))))
  /\ TuyaBLESensor._handle_coordinator_update (H := sample_builtins)
       (plain_sensor 4 battery_description 1 sample_readings)
     = Ok (TuyaBLESensor.with_entity
             (plain_sensor 4 battery_description 1 sample_readings)
             (TuyaBLESensor.async_write_ha_state
                (TuyaBLESensor.set_native_value
                   (TuyaBLESensor.self
                      (plain_sensor 4 battery_description 1 sample_readings))
                   (VInt 87))))
  /\ exists s',
       TuyaBLESensor._handle_coordinator_update (H := sample_builtins)
         (plain_sensor 21 alarm_lock_description 1 sample_readings) = Ok s'
       /\ TuyaBLESensor._attr_native_value (TuyaBLESensor.self s')
          = VStr "wrong_password"
       /\ TuyaBLESensor.state_writes (TuyaBLESensor.self s') = 1%nat.
Proof.
  split; [|split].
  - destruct (handle_coordinator_update_number (H := sample_builtins)
                (plain_sensor 1 temperature_description 10 sample_readings)
                (datapoint 1 (Some 1%Q) DT_VALUE (VInt 255) true)
                eq_refl eq_refl eq_refl) as [Hvalue _].
    destruct (Hvalue eq_refl 25.5%float eq_refl) as [_ Hplain].
    apply Hplain. discriminate.
  - destruct (handle_coordinator_update_number (H := sample_builtins)
                (plain_sensor 4 battery_description 1 sample_readings)
                (datapoint 4 (Some 1%Q) DT_VALUE (VInt 87) true)
                eq_refl eq_refl eq_refl) as [Hvalue _].
    destruct (Hvalue eq_refl 87%float eq_refl) as [Hbattery _].
    apply (Hbattery eq_refl 87). reflexivity.
  - destruct (handle_coordinator_update_number (H := sample_builtins)
                (plain_sensor 21 alarm_lock_description 1 sample_readings)
                (datapoint 21 (Some 1%Q) DT_ENUM (VInt 1) true)
                eq_refl eq_refl eq_refl) as (_ & Henum & _).
    apply (Henum eq_refl ["wrong_finger"; "wrong_password"; "low_battery"]
             1 "wrong_password" eq_refl eq_refl); [lia | reflexivity].
Defined.

(** C2 fails as stated: on [lock_device_mixed] the only unlock datapoint
    with a timestamp is 19, whose label is "ble", yet the sensor reports
    "fingerprint", the label of datapoint 12, whose value changed. *)
Lemma last_unlock_reports_untimestamped :
  List.filter (has_timestamp lock_device_mixed) mqc2hevy_unlock_methods.*1 = [19]
  /\ dict_get mqc2hevy_unlock_methods 19 (pretty 19) = "ble"
  /\ on_ok (fun s => (TuyaBLELastUnlockSensor._attr_native_value s,
                      TuyaBLELastUnlockSensor._attr_extra_state_attributes s
                        !! "value"))
       (TuyaBLELastUnlockSensor._handle_coordinator_update
          (TuyaBLELastUnlockSensor.__init__ lock_device_mixed mqc2hevy_unlock_methods))
     = Ok (VStr "fingerprint", Some (VInt 5)).
Proof. vm_compute. repeat split. Qed.

(** On [lock_device] the latest timestamp is shared by 12 and 13, and 12
    comes first in the mapping. *)
Example last_unlock_first_of_ties :
  on_ok (fun s => (TuyaBLELastUnlockSensor._attr_native_value s,
                   TuyaBLELastUnlockSensor._attr_extra_state_attributes s
                     !! "value"))
    (TuyaBLELastUnlockSensor._handle_coordinator_update
       (TuyaBLELastUnlockSensor.__init__ lock_device mqc2hevy_unlock_methods))
  = Ok (VStr "fingerprint", Some (VInt 7)).
Proof. vm_compute. reflexivity. Qed.

Lemma last_unlock_reports_latest_witness :
  exists self' k dp t label,
    TuyaBLELastUnlockSensor._handle_coordinator_update
      (TuyaBLELastUnlockSensor.__init__ lock_device mqc2hevy_unlock_methods) = Ok self'
    /\ latest lock_device mqc2hevy_unlock_methods.*1 k dp t
    /\ (k, label) ∈ mqc2hevy_unlock_methods
    /\ TuyaBLELastUnlockSensor._attr_native_value self' = VStr label
    /\ TuyaBLELastUnlockSensor._attr_extra_state_attributes self'
       = dict_literal [("method", VStr label); ("value", DP.value dp)]
    /\ TuyaBLELastUnlockSensor.state_writes self' = 1%nat.
Proof.
  apply (last_unlock_reports_latest
           (TuyaBLELastUnlockSensor.__init__ lock_device mqc2hevy_unlock_methods));
    vm_compute; reflexivity.
Defined.

(** Two presses among four updates fire two button events. *)
Example fingerbot_plus_presses :
  bus (hass (TuyaBLEPassiveCoordinator._async_handle_update (H := sample_consts)
               (new_coordinator idle_hass fingerbot_plus_device)
               fingerbot_plus_updates))
  = [ fingerbot_button_event (H := sample_consts) fingerbot_plus_device;
      fingerbot_button_event (H := sample_consts) fingerbot_plus_device ].
Proof. vm_compute. reflexivity. Qed.

Lemma fingerbot_button_event_per_press_witness :
  exists others,
    bus (hass (TuyaBLECoordinator._async_handle_update (H := sample_consts)
                 (new_coordinator idle_hass fingerbot_plus_device)
                 fingerbot_plus_updates))
    = bus idle_hass
      ++ map (fun _ => fingerbot_button_event (H := sample_consts) fingerbot_plus_device)
           (List.filter (pressed fingerbot_plus) fingerbot_plus_updates)
      ++ others
    /\ Forall
         (fun e => e <> fingerbot_button_event (H := sample_consts) fingerbot_plus_device)
         others.
Proof.
  destruct (fingerbot_button_event_per_press (H := sample_consts)
              (new_coordinator idle_hass fingerbot_plus_device)
              fingerbot_plus_updates
              (product_with_fingerbot (H := sample_consts) "Fingerbot Plus" fingerbot_plus)
              fingerbot_plus)
    as (_ & _ & _ & Hfired & _).
  - vm_compute. reflexivity.
  - reflexivity.
  - discriminate.
  - exact Hfired.
Defined.

Lemma single_disconnect_timer_witness :
  timer_discipline
    (TuyaBLECoordinator._async_handle_connect)
    (TuyaBLECoordinator._async_handle_disconnect (H := sample_consts))
    (TuyaBLECoordinator.handle (H := sample_consts))
    (fold_left (TuyaBLECoordinator.handle (H := sample_consts)) sample_callbacks
       (new_coordinator idle_hass fingerbot_plus_device))
  /\ timer_discipline
       (TuyaBLEPassiveCoordinator._async_handle_connect)
       (TuyaBLEPassiveCoordinator._async_handle_disconnect (H := sample_consts))
       (TuyaBLEPassiveCoordinator.handle (H := sample_consts))
       (fold_left (TuyaBLEPassiveCoordinator.handle (H := sample_consts))
          sample_callbacks (new_coordinator idle_hass fingerbot_plus_device)).
Proof.
  apply (single_disconnect_timer (H := sample_consts) idle_hass
           fingerbot_plus_device sample_callbacks).
  reflexivity.
Defined.

(** A connect cancels the delayed call but keeps its handle, so a later
    disconnect arms no new one. *)
Example disconnect_after_reconnect :
  timers (hass (fold_left (TuyaBLECoordinator.handle (H := sample_consts))
                  [Disconnected]
                  (new_coordinator idle_hass fingerbot_plus_device)))
  = [(0%nat, 600%float)]
  /\ timers (hass (fold_left (TuyaBLECoordinator.handle (H := sample_consts))
                     [Disconnected; Connected; Disconnected]
                     (new_coordinator idle_hass fingerbot_plus_device)))
     = [].
Proof. vm_compute. split; reflexivity. Qed.

(* ===================================================================== *)
(** * Further properties of the coordinators                               *)
(* ===================================================================== *)

Lemma cancel_cancel hass0 h : cancel (cancel hass0 h) h = cancel hass0 h.
Proof.
  unfold cancel; simpl. f_equal. by apply list_filter_filter_l.
Qed.

Section CoordinatorBehaviour.
Context `{Consts}.

Lemma connect_effect c :
  let c' := TuyaBLECoordinator._async_handle_connect c in
  _disconnected c' = false
  /\ _unsub_disconnect c' = _unsub_disconnect c
  /\ _device c' = _device c
  /\ bus (hass c') = bus (hass c)
  /\ listener_updates c'
     = (listener_updates c + (if _disconnected c then 1 else 0))%nat.
Proof.
  unfold TuyaBLECoordinator._async_handle_connect.
  destruct (_unsub_disconnect c) eqn:Hu, (_disconnected c) eqn:Hd; simpl;
    rewrite ?Hu, ?Hd; repeat split; try done; simpl; lia.
Qed.

(** X1. Handling a connect marks the coordinator connected, keeps the bus,
    and notifies the listeners exactly when the coordinator was disconnected
    before; handling it again changes nothing more. The two classes agree. *)
Theorem connect_is_edge_triggered (c : Coordinator) :
  let c' := TuyaBLECoordinator._async_handle_connect c in
  TuyaBLEPassiveCoordinator._async_handle_connect c = c'
  /\ connected c' = true
  /\ bus (hass c') = bus (hass c)
  /\ listener_updates c'
     = (listener_updates c + (if connected c then 0 else 1))%nat
  /\ TuyaBLECoordinator._async_handle_connect c' = c'.
Proof.
  cbv zeta. destruct (connect_effect c) as (Hd & Hu & _ & Hb & Hl).
  split; [reflexivity|]. unfold connected. rewrite Hd.
  split; [reflexivity|]. split; [exact Hb|].
  split; [rewrite Hl; by destruct (_disconnected c)|].
  destruct c as [h0 dev dis [u|] n]; destruct dis;
    unfold TuyaBLECoordinator._async_handle_connect, set_hass,
      set_disconnected, async_update_listeners; simpl;
    rewrite ?cancel_cancel; reflexivity.
Qed.

(** X2. Handling an update marks the coordinator connected and notifies the
    listeners once, or twice when the update is also what reconnects the
    coordinator; it arms and cancels delayed calls just as a connect does.
    The two classes agree. *)
Theorem update_notifies_listeners (c : Coordinator) (updates : list TuyaBLEDataPoint) :
  let c' := TuyaBLECoordinator._async_handle_update c updates in
  TuyaBLEPassiveCoordinator._async_handle_update c updates = c'
  /\ connected c' = true
  /\ listener_updates c'
     = (listener_updates c + (if connected c then 1 else 2))%nat
  /\ timers (hass c') = timers (hass (TuyaBLECoordinator._async_handle_connect c))
  /\ _unsub_disconnect c' = _unsub_disconnect c.
Proof.
  cbv zeta. split; [apply handle_update_agree|].
  destruct (update_same_connection c updates) as (Ht & _ & _ & Hd & Hu).
  destruct (connect_effect c) as (Hd' & Hu' & _ & _ & Hl).
  unfold connected. rewrite Hd, Hd', Hu, Hu'.
  split; [reflexivity|]. split; [|done].
  assert (Hcount : forall {A} (step : Coordinator -> A -> Coordinator) xs,
            (forall c x, listener_updates (step c x) = listener_updates c) ->
            forall c, listener_updates (fold_left step xs c) = listener_updates c).
  { intros A step xs Hstep. induction xs as [|x xs IH]; intros c0; simpl; [done|].
    by rewrite IH, Hstep. }
  assert (Hfb : forall fb c0 u,
            listener_updates (TuyaBLECoordinator.fingerbot_step fb c0 u)
            = listener_updates c0).
  { intros fb c0 u. unfold TuyaBLECoordinator.fingerbot_step.
    by destruct (_ && _). }
  assert (Hlk : forall lk c0 u,
            listener_updates (TuyaBLECoordinator.lock_step lk c0 u)
            = listener_updates c0).
  { intros lk c0 u. unfold TuyaBLECoordinator.lock_step. by repeat case_match. }
  unfold TuyaBLECoordinator._async_handle_update. cbv zeta.
  transitivity (S (listener_updates (TuyaBLECoordinator._async_handle_connect c)));
    [|rewrite Hl; destruct (_disconnected c); simpl; lia].
  destruct (get_device_product_info _) as [i|]; [|reflexivity].
  destruct (fingerbot i) as [fb|]; [destruct (negb _)|];
    destruct (lock i) as [lk|]; rewrite ?Hcount; auto.
Qed.

Lemma lock_events_report dev lk u :
  lock_events dev lk u = option_list (lock_report dev lk u).
Proof.
  unfold lock_events, lock_report, lock_kind.
  destruct (DP.changed_by_device u); simpl; [|done].
  by repeat case_match.
Qed.

Lemma concat_lock_events dev lk updates :
  concat (map (lock_events dev lk) updates) = omap (lock_report dev lk) updates.
Proof.
  induction updates as [|u updates IH]; simpl; [done|].
  rewrite IH, lock_events_report. by destruct (lock_report dev lk u).
Qed.

(** The bus after an update, whatever the product. *)
Lemma handle_update_fires c updates :
  bus (hass (TuyaBLECoordinator._async_handle_update c updates))
  = bus (hass c) ++ update_events (_device c) updates.
Proof.
  unfold TuyaBLECoordinator._async_handle_update, update_events. cbv zeta.
  destruct (connect_bus c) as [Hbus Hdev].
  set (c0 := async_update_listeners (TuyaBLECoordinator._async_handle_connect c)).
  assert (Hdev0 : _device c0 = _device c) by exact Hdev.
  assert (Hbus0 : bus (hass c0) = bus (hass c)) by exact Hbus.
  rewrite Hdev0.
  destruct (get_device_product_info (_device c)) as [i|];
    [|by rewrite app_nil_r].
  set (c1 := match fingerbot i with
             | Some fb =>
                 if negb (manual_control fb =? 0)
                 then fold_left (TuyaBLECoordinator.fingerbot_step fb) updates c0
                 else c0
             | None => c0
             end).
  assert (H1 : bus (hass c1)
               = bus (hass c)
                 ++ match fingerbot i with
                    | Some fb =>
                        if manual_control fb =? 0 then []
                        else map (fun _ => fingerbot_button_event (_device c))
                               (List.filter (pressed fb) updates)
                    | None => []
                    end
               /\ _device c1 = _device c).
  { subst c1. destruct (fingerbot i) as [fb|]; [|by rewrite app_nil_r].
    destruct (manual_control fb =? 0); simpl; [by rewrite app_nil_r|].
    destruct (fold_left_bus (TuyaBLECoordinator.fingerbot_step fb)
                (fingerbot_events (_device c) fb) (_device c) updates
                (fun c' u => fingerbot_step_bus _ fb c' u) c0 Hdev0) as [Hb Hd].
    unfold fingerbot_events in Hb. by rewrite concat_map_if, Hbus0 in Hb. }
  destruct H1 as [Hb1 Hd1].
  destruct (lock i) as [lk|]; [|by rewrite app_nil_r].
  destruct (fold_left_bus (TuyaBLECoordinator.lock_step lk)
              (lock_events (_device c) lk) (_device c) updates
              (fun c' u => lock_step_bus _ lk c' u) c1 Hd1) as [Hb2 _].
  by rewrite Hb2, Hb1, concat_lock_events, <- app_assoc.
Qed.

Lemma omap_lock_report_quiet dev lk updates :
  Forall (fun u => DP.changed_by_device u = false) updates ->
  omap (lock_report dev lk) updates = [].
Proof.
  induction 1 as [|u updates Hu _ IH]; simpl; [done|].
  unfold lock_report at 1. by rewrite Hu.
Qed.

Lemma filter_pressed_quiet fb updates :
  Forall (fun u => DP.changed_by_device u = false) updates ->
  List.filter (pressed fb) updates = [].
Proof.
  induction 1 as [|u updates Hu _ IH]; simpl; [done|].
  unfold pressed at 1. by rewrite Hu, andb_false_r.
Qed.

(** X3. Only updates fire bus events, and only for a catalogued product and
    for changes that came from the device: a connect, a disconnect and the
    delayed call leave the bus as it is, and so does an update for a device
    the catalog does not know or a list of updates none of which is flagged
    [changed_by_device]. *)
Theorem bus_stays_quiet (c : Coordinator) :
  (forall cb, (forall updates, cb <> Updated updates) ->
     bus (hass (TuyaBLECoordinator.handle c cb)) = bus (hass c)
     /\ bus (hass (TuyaBLEPassiveCoordinator.handle c cb)) = bus (hass c))
  /\ (forall updates,
        get_device_product_info (_device c) = None
        \/ Forall (fun u => DP.changed_by_device u = false) updates ->
        bus (hass (TuyaBLECoordinator._async_handle_update c updates))
        = bus (hass c)
        /\ bus (hass (TuyaBLEPassiveCoordinator._async_handle_update c updates))
           = bus (hass c)).
Proof.
  split.
  - intros cb Hcb. rewrite handle_agree.
    assert (Hb : bus (hass (TuyaBLECoordinator.handle c cb)) = bus (hass c));
      [|by split].
    destruct cb as [|updates| |h]; simpl.
    + by destruct (connect_bus c).
    + by destruct (Hcb updates).
    + unfold TuyaBLECoordinator._async_handle_disconnect.
      by destruct (_unsub_disconnect c).
    + by destruct (armed (hass c) h).
  - intros updates Hquiet. rewrite handle_update_agree, handle_update_fires.
    assert (Hnone : update_events (_device c) updates = []).
    { unfold update_events. destruct Hquiet as [-> | Hquiet]; [done|].
      destruct (get_device_product_info _) as [i|]; [|done].
      destruct (lock i); rewrite ?omap_lock_report_quiet by done;
        destruct (fingerbot i) as [fb|]; try done;
        by (destruct (manual_control fb =? 0);
            rewrite ?filter_pressed_quiet by done). }
    by rewrite Hnone, app_nil_r.
Qed.

Lemma lock_event_data dev kind label v :
  event_type (lock_event dev kind label v) = (DOMAIN ++ "_lock_" ++ kind ++ "_event")%string
  /\ event_data (lock_event dev kind label v) !! CONF_ADDRESS = Some (VStr (address dev))
  /\ event_data (lock_event dev kind label v) !! CONF_DEVICE_ID
     = Some (VStr (device_id dev))
  /\ event_data (lock_event dev kind label v) !! "event" = Some (VStr label)
  /\ event_data (lock_event dev kind label v) !! "value" = Some v.
Proof. repeat split; by vm_compute. Qed.

(** X4. For a device whose product info carries a lock descriptor, an update
    handler of either class fires, after the fingerbot button events if any,
    one lock event for each update that came from the device and whose id is
    one of the descriptor's four datapoints, in the order of the list and for
    no other update; the event is typed and labelled after the first of
    alarm_lock, unlock_ble, unlock_fingerprint, unlock_password the id
    equals, and carries the device's address and id and the update's value. *)
Theorem lock_event_per_report self updates info lk :
  get_device_product_info (_device self) = Some info ->
  lock info = Some lk ->
  (exists buttons,
     bus (hass (TuyaBLECoordinator._async_handle_update self updates))
     = bus (hass self) ++ buttons ++ omap (lock_report (_device self) lk) updates
     /\ bus (hass (TuyaBLEPassiveCoordinator._async_handle_update self updates))
        = bus (hass self) ++ buttons ++ omap (lock_report (_device self) lk) updates
     /\ Forall (fun e => e = fingerbot_button_event (_device self)) buttons)
  /\ forall u e,
       lock_report (_device self) lk u = Some e ->
       DP.changed_by_device u = true
       /\ exists kind label,
            lock_kind lk (DP.id u) = Some (kind, label)
            /\ event_type e = (DOMAIN ++ "_lock_" ++ kind ++ "_event")%string
            /\ event_data e !! "event" = Some (VStr label)
            /\ event_data e !! "value" = Some (DP.value u)
            /\ event_data e !! CONF_ADDRESS = Some (VStr (address (_device self)))
            /\ event_data e !! CONF_DEVICE_ID
               = Some (VStr (device_id (_device self))).
Proof.
  intros Hinfo Hlock. split.
  - rewrite handle_update_agree, handle_update_fires.
    unfold update_events. rewrite Hinfo, Hlock.
    eexists. split; [reflexivity|]. split; [reflexivity|].
    destruct (fingerbot info) as [fb|]; [|constructor].
    destruct (manual_control fb =? 0); [constructor|].
    apply Forall_forall. intros e He%list_elem_of_In.
    apply in_map_iff in He as (u & <- & _). reflexivity.
  - intros u e. unfold lock_report.
    destruct (DP.changed_by_device u); [|discriminate].
    destruct (lock_kind lk (DP.id u)) as [[kind label]|]; [|discriminate].
    intros [= <-]. split; [reflexivity|]. exists kind, label.
    destruct (lock_event_data (_device self) kind label (DP.value u))
      as (? & ? & ? & ? & ?).
    repeat split; assumption.
Qed.

Lemma handle_connected_cases c cb :
  match cb with
  | Connected | Updated _ => _disconnected (TuyaBLECoordinator.handle c cb) = false
  | Disconnected =>
      _disconnected (TuyaBLECoordinator.handle c cb) = _disconnected c
      /\ listener_updates (TuyaBLECoordinator.handle c cb) = listener_updates c
  | TimerFired h =>
      if armed (hass c) h
      then _disconnected (TuyaBLECoordinator.handle c cb) = true
           /\ listener_updates (TuyaBLECoordinator.handle c cb)
              = S (listener_updates c)
      else TuyaBLECoordinator.handle c cb = c
  end.
Proof.
  destruct cb as [|updates| |h]; simpl.
  - by destruct (connect_effect c).
  - destruct (update_same_connection c updates) as (_ & _ & _ & -> & _).
    by destruct (connect_effect c).
  - unfold TuyaBLECoordinator._async_handle_disconnect.
    by destruct (_unsub_disconnect c).
  - by destruct (armed (hass c) h).
Qed.

(** X5. A connected coordinator of either class becomes disconnected only
    when the host runs the delayed call while it is armed, never by a connect,
    an update or a disconnect callback itself; and that run notifies the
    listeners once. *)
Theorem only_the_timer_disconnects (c : Coordinator) (cb : callback) :
  connected c = true ->
  (connected (TuyaBLECoordinator.handle c cb) = false
   \/ connected (TuyaBLEPassiveCoordinator.handle c cb) = false) ->
  exists h,
    cb = TimerFired h
    /\ armed (hass c) h = true
    /\ listener_updates (TuyaBLECoordinator.handle c cb) = S (listener_updates c)
    /\ listener_updates (TuyaBLEPassiveCoordinator.handle c cb)
       = S (listener_updates c).
Proof.
  unfold connected. rewrite handle_agree.
  intros Hc%negb_true_iff Hoff.
  assert (Hd : _disconnected (TuyaBLECoordinator.handle c cb) = true)
    by (destruct Hoff as [Hoff|Hoff]; by apply negb_false_iff in Hoff).
  clear Hoff. pose proof (handle_connected_cases c cb) as Hcases.
  destruct cb as [|updates| |h].
  - congruence.
  - congruence.
  - destruct Hcases as [Hsame _]. congruence.
  - destruct (armed (hass c) h) eqn:Ha.
    + destruct Hcases as [_ Hl]. exists h.
      split; [reflexivity|]. split; [exact Ha|]. split; exact Hl.
    + rewrite Hcases in Hd. congruence.
Qed.

Lemma spent_handle_handle c cb :
  spent_handle c -> spent_handle (TuyaBLECoordinator.handle c cb).
Proof.
  intros (Ht & Hu & Hd).
  assert (Hconnect : spent_handle (TuyaBLECoordinator._async_handle_connect c)).
  { destruct (connect_effect c) as (Hd' & Hu' & _).
    repeat split; [|by rewrite Hu' | done].
    apply connect_disarms. by left. }
  destruct cb as [|updates| |h]; simpl.
  - exact Hconnect.
  - destruct Hconnect as (Ht' & Hu' & Hd').
    destruct (update_same_connection c updates) as (Ht'' & _ & _ & Hd'' & Hu'').
    repeat split; congruence.
  - unfold TuyaBLECoordinator._async_handle_disconnect.
    destruct Hu as [u Hu]. rewrite Hu. repeat split; eauto.
  - destruct (armed (hass c) h) eqn:Ha; [|done].
    by destruct (armed_no_timer _ _ Ht Ha).
Qed.

Lemma spent_handle_run cbs c :
  spent_handle c -> spent_handle (fold_left TuyaBLECoordinator.handle cbs c).
Proof.
  revert c. induction cbs as [|cb cbs IH]; intros c Hc; simpl; [done|].
  by apply IH, spent_handle_handle.
Qed.

Lemma reconnect_spends_handle c cb :
  timer_inv c ->
  cb = Connected \/ (exists updates, cb = Updated updates) ->
  spent_handle
    (TuyaBLECoordinator.handle (TuyaBLECoordinator._async_handle_disconnect c) cb).
Proof.
  intros Hinv Hcb.
  set (c1 := TuyaBLECoordinator._async_handle_disconnect c).
  assert (Hinv1 : timer_inv c1) by (by apply disconnect_inv).
  assert (Hu1 : is_Some (_unsub_disconnect c1)).
  { subst c1. unfold TuyaBLECoordinator._async_handle_disconnect.
    destruct (_unsub_disconnect c) eqn:Hu; simpl; [rewrite Hu|]; eauto. }
  assert (Hconnect : spent_handle (TuyaBLECoordinator._async_handle_connect c1)).
  { destruct (connect_effect c1) as (Hd' & Hu' & _).
    repeat split; [by apply connect_disarms | by rewrite Hu' | done]. }
  destruct Hcb as [-> | [updates ->]]; simpl; [exact Hconnect|].
  destruct Hconnect as (Ht' & Hu' & Hd').
  destruct (update_same_connection c1 updates) as (Ht'' & _ & _ & Hd'' & Hu'').
  repeat split; congruence.
Qed.

(** X6. The debounce works once. When a coordinator of either class,
    created with no delayed call armed, has handled a disconnect followed by a
    connect or an update, the cancelled handle stays in [_unsub_disconnect];
    from then on a disconnect arms nothing, and the coordinator stays
    connected with no delayed call armed through every later sequence of
    callbacks. *)
Theorem reconnect_ends_debounce hass0 device (before after : list callback)
    (reconnect : callback) :
  timers hass0 = [] ->
  reconnect = Connected \/ (exists updates, reconnect = Updated updates) ->
  let run handle :=
    fold_left handle (before ++ Disconnected :: reconnect :: after)
      (new_coordinator hass0 device) in
  connected (run TuyaBLECoordinator.handle) = true
  /\ timers (hass (run TuyaBLECoordinator.handle)) = []
  /\ TuyaBLECoordinator._async_handle_disconnect (run TuyaBLECoordinator.handle)
     = run TuyaBLECoordinator.handle
  /\ run TuyaBLEPassiveCoordinator.handle = run TuyaBLECoordinator.handle.
Proof.
  intros Hidle Hcb run.
  assert (Hspent : spent_handle (run TuyaBLECoordinator.handle)).
  { subst run. cbv beta. rewrite fold_left_app. simpl.
    apply spent_handle_run, reconnect_spends_handle; [|done].
    by apply run_inv, new_coordinator_inv. }
  destruct Hspent as (Ht & [u Hu] & Hd).
  split; [unfold connected; by rewrite Hd|]. split; [done|].
  split; [|apply run_agree].
  unfold TuyaBLECoordinator._async_handle_disconnect. by rewrite Hu.
Qed.

End CoordinatorBehaviour.

(* ===================================================================== *)
(** * Further properties of the last-unlock sensor                         *)
(* ===================================================================== *)

Lemma for_each_inv {A S} (P : S -> Prop) (xs : list A) (body : S -> A -> result S) :
  (forall s x, x ∈ xs -> P s -> exists s', body s x = Ok s' /\ P s') ->
  forall s, P s -> exists s', for_each xs body s = Ok s' /\ P s'.
Proof.
  induction xs as [|x xs IH]; intros Hbody s Hs; simpl; [eauto|].
  destruct (Hbody s x) as (s1 & -> & Hs1); [by left | done |]. simpl.
  apply IH; [|done]. intros s0 y Hy. apply Hbody. by right.
Qed.

Lemma dict_literal_lookup_is_Some {K} `{Countable K} {V} (items : list (K * V)) k :
  k ∈ items.*1 -> is_Some (dict_literal items !! k).
Proof.
  unfold dict_literal.
  assert (Hgen : forall (m : gmap K V),
            k ∈ items.*1 \/ is_Some (m !! k) ->
            is_Some (fold_left (fun m kv => <[kv.1 := kv.2]> m) items m !! k)).
  { induction items as [|[k' v] items IH]; intros m Hk; simpl.
    - destruct Hk as [Hk|Hk]; [by apply elem_of_nil in Hk | done].
    - apply IH. simpl in Hk. destruct Hk as [Hk|Hk].
      + apply elem_of_cons in Hk as [->|Hk]; [right | by left].
        rewrite lookup_insert_eq. eauto.
      + right. destruct (decide (k' = k)) as [->|Hne].
        * rewrite lookup_insert_eq. eauto.
        * by rewrite lookup_insert_ne. }
  intros Hk. apply Hgen. by left.
Qed.

Lemma bool_decide_snoc_ne (k k' : Z) (pre : list Z) :
  k' <> k -> bool_decide (k' ∈ pre ++ [k]) = bool_decide (k' ∈ pre).
Proof.
  intros Hne. apply bool_decide_ext.
  rewrite elem_of_app, list_elem_of_singleton. tauto.
Qed.

Section LastUnlockBehaviour.
Import TuyaBLELastUnlockSensor.

Lemma loop_body_remembers device methods (keys : list Z) l k :
  k ∈ keys ->
  (forall k', k' ∈ keys -> is_Some (last_values l !! k')) ->
  exists l', loop_body device methods l k = Ok l'
             /\ forall k', k' ∈ keys -> is_Some (last_values l' !! k').
Proof.
  intros Hk Hl. unfold loop_body.
  destruct (has_id device k); [|eauto].
  destruct (datapoints device !! k) as [dp|]; [|eauto].
  destruct (DP.timestamp dp) as [t|].
  - destruct (match last_time l with Some t0 => Qgtb t t0 | None => true end);
      eauto.
  - destruct (negb (is_none (DP.value dp))); [|eauto].
    destruct (Hl k Hk) as [old Hold]. rewrite Hold.
    destruct (py_ne old (DP.value dp)); [|eauto].
    eexists; split; [reflexivity|]. simpl. intros k' Hk'.
    destruct (decide (k = k')) as [->|Hne].
    + rewrite lookup_insert_eq. eauto.
    + rewrite lookup_insert_ne by done. by apply Hl.
Qed.

Lemma handle_coordinator_update_remembers s :
  remembers s ->
  exists s',
    _handle_coordinator_update s = Ok s'
    /\ remembers s'
    /\ _device s' = _device s
    /\ _unlock_methods s' = _unlock_methods s
    /\ state_writes s' = S (state_writes s).
Proof.
  intros Hs. unfold _handle_coordinator_update.
  destruct (for_each_inv
              (fun l => forall k, k ∈ (_unlock_methods s).*1 ->
                                  is_Some (last_values l !! k))
              (_unlock_methods s).*1
              (loop_body (_device s) (_unlock_methods s)))
    with (s := {| last_method := None; last_value := VNone; last_time := None;
                  last_values := _last_values s |})
    as (l & -> & Hl).
  - intros l k Hk Hl. by apply loop_body_remembers.
  - exact Hs.
  - eexists; split; [reflexivity|]. by repeat split.
Qed.

(** X7. A last-unlock sensor never raises. [__init__] remembers a value for
    every unlock id, an update keeps it so, and therefore the lookup
    [self._last_values[dp_id]] never fails: through any number of coordinator
    updates, whatever datapoints the device holds at each of them, the handler
    returns, and it writes the state once per update. *)
Theorem last_unlock_never_raises device methods (devices : list TuyaBLEDevice) :
  exists s',
    coordinator_updates (__init__ device methods) devices = Ok s'
    /\ state_writes s' = length devices
    /\ _unlock_methods s' = methods
    /\ remembers s'.
Proof.
  assert (Hinit : remembers (__init__ device methods)).
  { intros k Hk. simpl in *. apply dict_literal_lookup_is_Some.
    rewrite <- list_fmap_compose.
    by rewrite (list_fmap_ext (fst ∘ (fun dp_id : Z => (dp_id, VNone))) id),
      list_fmap_id. }
  assert (Hgen : forall s, remembers s ->
            exists s', coordinator_updates s devices = Ok s'
                       /\ state_writes s' = (state_writes s + length devices)%nat
                       /\ _unlock_methods s' = _unlock_methods s
                       /\ remembers s').
  { induction devices as [|d devices IH]; intros s Hs; simpl.
    - exists s. repeat split; [lia | done].
    - destruct (handle_coordinator_update_remembers (with_device s d))
        as (s1 & -> & Hs1 & _ & Hm1 & Hw1); [exact Hs|]. simpl.
      destruct (IH s1 Hs1) as (s2 & -> & Hw2 & Hm2 & Hs2).
      simpl in Hm1, Hw1.
      exists s2. repeat split; [|congruence | done].
      rewrite Hw2, Hw1. lia. }
  destruct (Hgen _ Hinit) as (s' & Hrun & Hw & Hm & Hs').
  exists s'. repeat split; done.
Qed.

(** X8. When none of the unlock datapoints is present, an update of a
    last-unlock sensor keeps the reported value, the attributes and the
    remembered values, and still writes the state. *)
Theorem last_unlock_nothing_present s :
  existsb (has_id (_device s)) (_unlock_methods s).*1 = false ->
  exists s',
    _handle_coordinator_update s = Ok s'
    /\ _attr_native_value s' = _attr_native_value s
    /\ _attr_extra_state_attributes s' = _attr_extra_state_attributes s
    /\ _last_values s' = _last_values s
    /\ state_writes s' = S (state_writes s).
Proof.
  intros Habsent. unfold _handle_coordinator_update.
  set (l0 := {| last_method := None; last_value := VNone; last_time := None;
                last_values := _last_values s |}).
  destruct (for_each_inv (fun l => l = l0) (_unlock_methods s).*1
              (loop_body (_device s) (_unlock_methods s))) with (s := l0)
    as (l & -> & ->); [|done|].
  - intros l k Hk ->. exists l0. split; [|done].
    unfold loop_body.
    destruct (has_id (_device s) k) eqn:Hid; [|done].
    assert (existsb (has_id (_device s)) (_unlock_methods s).*1 = true);
      [|congruence].
    apply existsb_exists. exists k. split; [by apply list_elem_of_In | done].
  - eexists; split; [reflexivity|]. by repeat split.
Qed.

Lemma fallback_step device methods values pre k l :
  k ∉ pre ->
  is_Some (values !! k) ->
  has_timestamp device k = false ->
  fallback_inv device methods values pre l ->
  exists l', loop_body device methods l k = Ok l'
             /\ fallback_inv device methods values (pre ++ [k]) l'.
Proof.
  intros Hfresh [old Hold] Hts (Htime & Hvalues & Hlast).
  assert (Hk : last_values l !! k = Some old).
  { rewrite Hvalues. by rewrite bool_decide_eq_false_2. }
  assert (Hkeep : value_changed values device k = false ->
                  fallback_inv device methods values (pre ++ [k]) l).
  { intros Hsame. split; [done|]. split.
    - intros k'. rewrite Hvalues.
      destruct (decide (k' = k)) as [->|Hne].
      + by rewrite Hsame, !andb_false_r.
      + by rewrite bool_decide_snoc_ne.
    - rewrite List.filter_app. simpl. by rewrite Hsame, app_nil_r. }
  unfold loop_body, has_id, has_timestamp, value_changed in *.
  rewrite Hold in Hkeep.
  destruct (datapoints device !! k) as [dp|] eqn:Hdp.
  - rewrite bool_decide_eq_true_2 by eauto.
    destruct (DP.timestamp dp) as [t|]; [discriminate|].
    destruct (is_none (DP.value dp)) eqn:Hnone; simpl; [eauto|].
    rewrite Hk. simpl in Hkeep.
    destruct (py_ne old (DP.value dp)) eqn:Hne; [|eauto].
    eexists; split; [reflexivity|]. split; [done|]. split.
    + intros k'. simpl. unfold value_of, value_changed.
      destruct (decide (k = k')) as [<-|Hkk'].
      * rewrite lookup_insert_eq, Hdp, Hold, Hnone, Hne. simpl.
        rewrite bool_decide_eq_true_2; [done|].
        apply elem_of_app. right. by apply list_elem_of_singleton.
      * rewrite lookup_insert_ne by done. rewrite Hvalues.
        by rewrite bool_decide_snoc_ne.
    + rewrite List.filter_app. simpl. unfold value_changed at 2.
      rewrite Hdp, Hold, Hnone, Hne. simpl. rewrite last_snoc. simpl.
      unfold value_of. by rewrite Hdp.
  - rewrite bool_decide_eq_false_2 by (intros [? ?]; done). eauto.
Qed.

Lemma fallback_run device methods values keys :
  NoDup keys ->
  (forall k, k ∈ keys -> is_Some (values !! k)) ->
  forallb (fun k => negb (has_timestamp device k)) keys = true ->
  exists l,
    for_each keys (loop_body device methods)
      {| last_method := None; last_value := VNone; last_time := None;
         last_values := values |} = Ok l
    /\ fallback_inv device methods values keys l.
Proof.
  induction keys as [|k keys IH] using rev_ind; intros Hnodup Hvalues Hts.
  - eexists; split; [reflexivity|]. repeat split.
  - apply NoDup_app in Hnodup as (Hnodup & Hfresh & _).
    rewrite forallb_app in Hts. apply andb_true_iff in Hts as [Hts Hk].
    simpl in Hk. rewrite andb_true_r in Hk. apply negb_true_iff in Hk.
    destruct IH as (l & Hrun & Hinv); [done | | done |].
    { intros k' Hk'. apply Hvalues, elem_of_app. by left. }
    destruct (fallback_step device methods values keys k l) as (l' & Hbody & Hinv');
      try done.
    + intros Hin. apply (Hfresh k Hin). by apply list_elem_of_singleton.
    + apply Hvalues, elem_of_app. right. by apply list_elem_of_singleton.
    + exists l'. split; [|done]. by rewrite for_each_snoc, Hrun.
Qed.

(** X9. The fallback for datapoints without a timestamp. On a last-unlock
    sensor over distinct unlock ids that remembers a value for each, when no
    present unlock datapoint carries a timestamp: an unlock id counts as
    changed when its datapoint holds a value other than [None] that differs
    from the remembered one; the sensor then reports the label of the last
    changed id in the mapping's order, with that datapoint's value, and keeps
    what it reported before when no id changed; and it remembers the new value
    of every changed id and nothing else. *)
Theorem last_unlock_reports_last_change s :
  remembers s ->
  NoDup (_unlock_methods s).*1 ->
  forallb (fun k => negb (has_timestamp (_device s) k)) (_unlock_methods s).*1
  = true ->
  exists s',
    _handle_coordinator_update s = Ok s'
    /\ (forall k,
          _last_values s' !! k
          = if bool_decide (k ∈ (_unlock_methods s).*1)
               && value_changed (_last_values s) (_device s) k
            then Some (value_of (_device s) k)
            else _last_values s !! k)
    /\ match last (List.filter (value_changed (_last_values s) (_device s))
                     (_unlock_methods s).*1) with
       | None =>
           _attr_native_value s' = _attr_native_value s
           /\ _attr_extra_state_attributes s' = _attr_extra_state_attributes s
       | Some k =>
           exists label,
             (k, label) ∈ _unlock_methods s
             /\ _attr_native_value s' = VStr label
             /\ _attr_extra_state_attributes s'
                = dict_literal
                    [("method", VStr label); ("value", value_of (_device s) k)]
       end.
Proof.
  intros Hs Hnodup Hts. unfold _handle_coordinator_update.
  destruct (fallback_run (_device s) (_unlock_methods s) (_last_values s)
              _ Hnodup Hs Hts) as (l & -> & _ & Hvalues & Hlast).
  eexists; split; [reflexivity|]. simpl. split; [exact Hvalues|].
  destruct (last _) as [k|] eqn:Hk.
  - destruct Hlast as [-> ->].
    exists (dict_get (_unlock_methods s) k (pretty k)).
    split; [|done]. apply dict_get_elem.
    apply last_Some_elem_of, list_elem_of_In, filter_In in Hk as [Hk _].
    by apply list_elem_of_In.
  - by destruct Hlast as [-> _].
Qed.

End LastUnlockBehaviour.

(* ===================================================================== *)
(** * Further properties of the datapoint sensor                           *)
(* ===================================================================== *)

Lemma in_range_index {A} (l : list A) n :
  (0 <=? n) && (n <? Z.of_nat (length l)) = true ->
  exists a, l !! Z.to_nat n = Some a /\ entry (Some l) n = Some a.
Proof.
  intros [Hlo%Z.leb_le Hhi%Z.ltb_lt]%andb_true_iff.
  destruct (l !! Z.to_nat n) as [a|] eqn:Ha.
  - exists a. split; [done|]. unfold entry.
    rewrite (proj2 (Z.leb_le 0 n) Hlo). exact Ha.
  - apply lookup_ge_None in Ha. lia.
Qed.

Lemma out_of_range_entry {A} (l : list A) n :
  (0 <=? n) && (n <? Z.of_nat (length l)) = false ->
  entry (Some l) n = None.
Proof.
  intros Hout. unfold entry. destruct (0 <=? n) eqn:Hlo; [|done]. simpl in *.
  apply Z.ltb_ge in Hout. apply Z.leb_le in Hlo.
  apply lookup_ge_None. lia.
Qed.

Section SensorBehaviour.
Context `{PyBuiltins}.
Import TuyaBLESensor.

(** X10. An enum datapoint holding an int, complete: the native value is
    the option listed under that int, and the raw int when the description has
    no options or none under it (a negative or too large int); the icon is the
    mapping's icon under that int, and stays as it was when the mapping has no
    icons or none under it; the handler returns and writes the state once. *)
Theorem handle_enum_int s datapoint n :
  getter (_mapping s) = None ->
  datapoints (_device (self s)) !! dp_id (_mapping s) = Some datapoint ->
  DP.type datapoint = Some DT_ENUM ->
  DP.value datapoint = VInt n ->
  _handle_coordinator_update s
  = Ok (with_entity s
          (async_write_ha_state
             (set_icon
                (set_native_value (self s)
                   (default (VInt n)
                      (VStr <$> entry (options (entity_description (self s))) n)))
                (match entry (icons (_mapping s)) n with
                 | Some i => Some i
                 | None => _attr_icon (self s)
                 end)))).
Proof.
  intros Hgetter Hdp Htype Hvalue. unfold _handle_coordinator_update.
  rewrite Hgetter, Hdp, Hvalue, Htype. simpl.
  unfold _handle_enum_value, entry. simpl.
  destruct (options (entity_description (self s))) as [opts|];
    destruct (icons (_mapping s)) as [ics|]; simpl.
  all: repeat match goal with
       | |- context [(0 <=? ?m) && (?m <? Z.of_nat (length ?l))] =>
           let Hr := fresh "Hrange" in
           destruct ((0 <=? m) && (m <? Z.of_nat (length l))) eqn:Hr;
           [ destruct (in_range_index l m Hr) as (? & -> & _)
           | pose proof (out_of_range_entry l m Hr) ]
       end.
  all: simpl.
  all: unfold entry in *; destruct (0 <=? n); simpl in *.
  all: repeat match goal with Hl : _ !! _ = None |- _ => rewrite Hl end.
  all: try reflexivity; discriminate.
Qed.

Lemma py_index_in_range {A} (l : list A) v :
  py_in_range 0 v (Z.of_nat (length l)) = true ->
  (exists a, py_index l v = Ok a)
  \/ (exists x, v = VFloat x /\ py_index l v = Raise TypeError).
Proof.
  destruct v as [|b|n|x|t|t]; simpl; try discriminate.
  - intros Hr. destruct (in_range_index l _ Hr) as (a & -> & _). eauto.
  - intros Hr. destruct (in_range_index l _ Hr) as (a & -> & _). eauto.
  - eauto.
Qed.

Lemma handle_enum_value_result s v :
  match _handle_enum_value s v with
  | Ok e' =>
      _device e' = _device (self s)
      /\ entity_description e' = entity_description (self s)
      /\ state_writes e' = state_writes (self s)
  | Raise e => e = TypeError /\ exists x, v = VFloat x
  end.
Proof.
  unfold _handle_enum_value. cbv zeta.
  assert (Hfirst :
    match match options (entity_description (self s)) with
          | Some opts =>
              if py_in_range 0 v (Z.of_nat (length opts))
              then o <- py_index opts v ;; Ok (set_native_value (self s) (VStr o))
              else Ok (set_native_value (self s) v)
          | None => Ok (set_native_value (self s) v)
          end with
    | Ok e' => exists w, e' = set_native_value (self s) w
    | Raise e => e = TypeError /\ exists x, v = VFloat x
    end).
  { destruct (options (entity_description (self s))) as [opts|]; [|eauto].
    destruct (py_in_range 0 v (Z.of_nat (length opts))) eqn:Hr; [|eauto].
    destruct (py_index_in_range opts v Hr) as [[o ->] | (x & -> & ->)];
      simpl; eauto. }
  destruct (match options (entity_description (self s)) with
            | Some _ => _ | None => _ end) as [e1|e]; [|exact Hfirst].
  destruct Hfirst as [w ->]. simpl.
  destruct (icons (_mapping s)) as [ics|]; [|done].
  destruct (py_in_range 0 v (Z.of_nat (length ics))) eqn:Hr; [|done].
  destruct (py_index_in_range ics v Hr) as [[i ->] | (x & -> & ->)];
    simpl; eauto.
Qed.

(** X11. What makes the handler of a sensor without a custom getter raise.
    It raises only on a number of type [DT_VALUE] or [DT_ENUM]: for
    [DT_VALUE], [ZeroDivisionError] when the coefficient is zero,
    [OverflowError] when the value is an int beyond the range of a float, and,
    on a [BATTERY] sensor only, [ValueError] or [OverflowError] when the
    quotient is a NaN or an infinity; for [DT_ENUM], [TypeError] when the
    value is a float that lies within the options or the icons. Text, bytes
    and numbers of every other type never make it raise. *)
Theorem handle_coordinator_update_raises s e :
  getter (_mapping s) = None ->
  _handle_coordinator_update s = Raise e ->
  exists datapoint,
    datapoints (_device (self s)) !! dp_id (_mapping s) = Some datapoint
    /\ is_int_or_float (DP.value datapoint) = true
    /\ ((DP.type datapoint = Some DT_ENUM
         /\ e = TypeError /\ exists x, DP.value datapoint = VFloat x)
        \/ (DP.type datapoint = Some DT_VALUE
            /\ ((e = ZeroDivisionError
                 /\ PrimFloat.eqb (coefficient (_mapping s)) 0 = true)
                \/ (e = OverflowError
                    /\ exists n, DP.value datapoint = VInt n
                                 /\ float_of_int n = Raise OverflowError)
                \/ (device_class (entity_description (self s)) = Some BATTERY
                    /\ exists quotient,
                         py_truediv (DP.value datapoint) (coefficient (_mapping s))
                         = Ok quotient
                         /\ ((e = ValueError /\ Prim2SF quotient = S754_nan)
                             \/ (e = OverflowError
                                 /\ is_infinite quotient = true)))))).
Proof.
  intros Hgetter. unfold _handle_coordinator_update. rewrite Hgetter.
  destruct (datapoints (_device (self s)) !! dp_id (_mapping s))
    as [datapoint|]; [|discriminate].
  destruct (is_none (DP.value datapoint)); [discriminate|].
  destruct (is_int_or_float (DP.value datapoint)) eqn:Hnum; simpl.
  - destruct (DP.type datapoint) as [ty|] eqn:Hty; simpl.
    + destruct (decide (ty = DT_ENUM)) as [->|Henum].
      * rewrite bool_decide_eq_true_2 by done.
        pose proof (handle_enum_value_result s (DP.value datapoint)) as He.
        destruct (_handle_enum_value s (DP.value datapoint)); [discriminate|].
        simpl. intros [= <-]. destruct He as [-> Hx]. eauto 8.
      * rewrite bool_decide_eq_false_2 by congruence.
        destruct (decide (ty = DT_VALUE)) as [->|Hvalue].
        -- rewrite bool_decide_eq_true_2 by done.
           destruct (py_truediv _ _) as [q|e'] eqn:Hdiv; simpl.
           ++ destruct (bool_decide _) eqn:Hclass; [|discriminate].
              apply bool_decide_eq_true in Hclass.
              destruct (int_of_float q) as [m|e'] eqn:Hint; [discriminate|].
              simpl. intros [= <-].
              exists datapoint. split; [done|]. split; [done|]. right.
              split; [done|]. right. right. split; [done|]. exists q.
              split; [done|].
              destruct (int_of_float_raises _ _ Hint) as [[-> ?]|[-> ?]]; auto.
           ++ intros [= <-]. exists datapoint. split; [done|]. split; [done|].
              right. split; [done|].
              destruct (py_truediv_raises _ _ _ Hnum Hdiv) as [?|?]; auto.
        -- rewrite bool_decide_eq_false_2 by congruence. discriminate.
    + destruct (is_bool (DP.value datapoint)) eqn:Hbool; [|discriminate].
      destruct (DP.value datapoint); discriminate.
  - destruct (is_bool (DP.value datapoint)) eqn:Hbool; [|discriminate].
    destruct (DP.value datapoint); discriminate.
Qed.

Lemma getter_result e e' :
  battery_enum_getter e = Ok e' \/ rssi_getter e = Ok e' ->
  _device e' = _device e
  /\ entity_description e' = entity_description e
  /\ _attr_icon e' = _attr_icon e
  /\ state_writes e' = state_writes e.
Proof.
  unfold battery_enum_getter, rssi_getter. intros [Hb | [= <-]]; [|done].
  destruct (datapoints (_device e) !! 104) as [dp|];
    [|by injection Hb as <-].
  destruct (py_int (DP.value dp)) as [n|[]]; simpl in Hb;
    try discriminate; by injection Hb as <-.
Qed.

(** X12. What an update of a datapoint sensor can change. With no getter,
    the battery-enum getter or the signal-strength getter, a handler that
    returns keeps the mapping, the device and the entity description, and
    either leaves the whole sensor as it was, which happens only without a
    getter, or writes the state exactly once; and it changes the icon only for
    a datapoint of type [DT_ENUM]. *)
Theorem handle_coordinator_update_frame s s' :
  getter (_mapping s) = None
  \/ getter (_mapping s) = Some battery_enum_getter
  \/ getter (_mapping s) = Some rssi_getter ->
  _handle_coordinator_update s = Ok s' ->
  _mapping s' = _mapping s
  /\ _device (self s') = _device (self s)
  /\ entity_description (self s') = entity_description (self s)
  /\ ((s' = s /\ getter (_mapping s) = None)
      \/ state_writes (self s') = S (state_writes (self s)))
  /\ ((forall datapoint,
         datapoints (_device (self s)) !! dp_id (_mapping s) = Some datapoint ->
         DP.type datapoint <> Some DT_ENUM) ->
      _attr_icon (self s') = _attr_icon (self s)).
Proof.
  intros Hgetter. unfold _handle_coordinator_update.
  destruct Hgetter as [Hg | Hg].
  - rewrite Hg.
    destruct (datapoints (_device (self s)) !! dp_id (_mapping s))
      as [datapoint|]; [|intros [= <-]; repeat split; auto].
    destruct (is_none (DP.value datapoint));
      [intros [= <-]; repeat split; auto|].
    destruct (is_int_or_float (DP.value datapoint) && _) eqn:Hnum.
    + destruct (bool_decide (DP.type datapoint = Some DT_ENUM)) eqn:Henum.
      * apply bool_decide_eq_true in Henum.
        pose proof (handle_enum_value_result s (DP.value datapoint)) as He.
        destruct (_handle_enum_value s (DP.value datapoint)) as [e1|];
          simpl; [|discriminate].
        intros [= <-]. simpl. destruct He as (-> & -> & ->).
        repeat split; auto. intros Hno. by destruct (Hno datapoint).
      * destruct (bool_decide (DP.type datapoint = Some DT_VALUE)).
        -- destruct (py_truediv _ _) as [q|]; simpl; [|discriminate].
           destruct (bool_decide (device_class _ = _)).
           ++ destruct (int_of_float q); simpl; [|discriminate].
              intros [= <-]. repeat split; auto.
           ++ intros [= <-]. repeat split; auto.
        -- simpl. intros [= <-]. repeat split; auto.
    + destruct (is_bool (DP.value datapoint)).
      * destruct (py_int (DP.value datapoint)); simpl; [|discriminate].
        intros [= <-]. repeat split; auto.
      * simpl. intros [= <-]. repeat split; auto.
  - assert (Hg' : exists g, getter (_mapping s) = Some g
                            /\ (g = battery_enum_getter \/ g = rssi_getter))
      by (destruct Hg as [Hg|Hg]; eauto).
    destruct Hg' as (g & -> & Hg').
    destruct (g (self s)) as [e1|] eqn:Hrun; simpl; [|discriminate].
    intros [= <-]. simpl.
    destruct (getter_result (self s) e1) as (-> & -> & -> & ->);
      [destruct Hg' as [->| ->]; auto|].
    repeat split; auto.
Qed.

Lemma survives_division_percent n :
  0 <= n <= 100 -> survives_division n = true.
Proof.
  intros Hn.
  assert (Hall : forallb (fun k => survives_division (Z.of_nat k)) (seq 0 101)
                 = true) by (vm_compute; reflexivity).
  rewrite forallb_forall in Hall.
  rewrite <- (Z2Nat.id n) by lia. apply Hall, in_seq. lia.
Qed.

(** X13. A battery percentage comes through unchanged. On a [BATTERY]
    sensor without a getter and with the default coefficient 1.0, a
    [DT_VALUE] datapoint holding an int from 0 to 100 is reported as that very
    int: dividing by 1.0 and truncating loses nothing. *)
Theorem battery_percentage_unchanged s datapoint n :
  getter (_mapping s) = None ->
  coefficient (_mapping s) = 1%float ->
  device_class (entity_description (self s)) = Some BATTERY ->
  datapoints (_device (self s)) !! dp_id (_mapping s) = Some datapoint ->
  DP.type datapoint = Some DT_VALUE ->
  DP.value datapoint = VInt n ->
  0 <= n <= 100 ->
  _handle_coordinator_update s
  = Ok (with_entity s (async_write_ha_state (set_native_value (self s) (VInt n)))).
Proof.
  intros Hgetter Hcoef Hclass Hdp Htype Hvalue Hn.
  unfold _handle_coordinator_update.
  rewrite Hgetter, Hdp, Hvalue, Htype, Hcoef, Hclass. simpl.
  pose proof (survives_division_percent n Hn) as Hsurvives.
  unfold survives_division in Hsurvives.
  destruct (py_truediv (VInt n) 1) as [q|]; [|discriminate]. simpl in *.
  destruct (int_of_float q) as [m|]; [|discriminate]. simpl.
  apply Z.eqb_eq in Hsurvives. by subst m.
Qed.

End SensorBehaviour.

(* ===================================================================== *)
(** * Addresses and names                                                  *)
(* ===================================================================== *)

Example get_short_address_examples :
  get_short_address "dc:23:4d:aa:bb:cc" = Ok "AABBCC"
  /\ get_short_address "DC-23-4D-1a-2B-3c" = Ok "1A2B3C"
  /\ get_short_address "a:b:c" = Ok "ABC"
  /\ get_short_address "12:345:6789:ab" = Ok "6789AB"
  /\ get_short_address "::" = Ok ""
  /\ get_short_address "dc234daabbcc" = Raise IndexError
  /\ get_short_address "aabb:cc" = Raise IndexError
  /\ get_short_address "" = Raise IndexError.
Proof. vm_compute. repeat split. Qed.

Ltac ascii_cases c :=
  destruct c as [[] [] [] [] [] [] [] []]; vm_compute; reflexivity.

Lemma normal_char_colon c : Ascii.eqb (normal_char c) ":" = is_separator c.
Proof. ascii_cases c. Qed.

Lemma normal_char_short c :
  is_separator c
  || negb (is_separator (normal_char c)) && negb (is_lower (normal_char c)) = true.
Proof. ascii_cases c. Qed.

Lemma normal_char_upper c : normal_char (upper_char c) = normal_char c.
Proof. ascii_cases c. Qed.

Lemma normal_char_dash c :
  normal_char (if Ascii.eqb c "-" then ":" else c) = normal_char c.
Proof. ascii_cases c. Qed.

Lemma normal_char_colon_to_dash c :
  normal_char (if Ascii.eqb c ":" then "-" else c) = normal_char c.
Proof. ascii_cases c. Qed.

Lemma string_map_map f g s :
  string_map g (string_map f s) = string_map (fun c => g (f c)) s.
Proof. induction s as [|c s IH]; simpl; [done | by rewrite IH]. Qed.

Lemma string_map_ext f g s :
  (forall c, f c = g c) -> string_map f s = string_map g s.
Proof. intros Hfg. induction s as [|c s IH]; simpl; [done | by rewrite Hfg, IH]. Qed.

Lemma append_cons c (s t : string) :
  (String c s ++ t)%string = String c (s ++ t)%string.
Proof. reflexivity. Qed.

Lemma append_empty (t : string) : (EmptyString ++ t)%string = t.
Proof. reflexivity. Qed.

Lemma string_map_app f s t :
  string_map f (s ++ t)%string = (string_map f s ++ string_map f t)%string.
Proof.
  induction s as [|c s IH]; [done|].
  rewrite append_cons. simpl. by rewrite IH.
Qed.

Lemma string_app_assoc (s t u : string) :
  ((s ++ t) ++ u)%string = (s ++ t ++ u)%string.
Proof.
  induction s as [|c s IH]; [done|]. by rewrite !append_cons, IH.
Qed.

Lemma normalise address :
  py_upper (replace_char "-" ":" address) = string_map normal_char address.
Proof. unfold py_upper, replace_char. by rewrite string_map_map. Qed.

Lemma count_char_normal s :
  count_char ":" (string_map normal_char s)
  = (count_char ":" s + count_char "-" s)%nat.
Proof.
  induction s as [|c s IH]; simpl; [done|]. rewrite IH, normal_char_colon.
  unfold is_separator.
  destruct (Ascii.eqb_spec c ":") as [->|Hc]; [simpl; lia|].
  destruct (Ascii.eqb c "-"); simpl; lia.
Qed.

Lemma split_on_length sep s : length (split_on sep s) = S (count_char sep s).
Proof.
  induction s as [|c s IH]; simpl; [done|].
  destruct (Ascii.eqb c sep); simpl; [by rewrite IH|].
  destruct (split_on sep s); simpl in *; lia.
Qed.

Lemma split_on_app sep p r :
  split_on sep (p ++ String sep r)%string = split_on sep p ++ split_on sep r.
Proof.
  induction p as [|c p IH]; [rewrite append_empty | rewrite append_cons]; simpl.
  - by rewrite Ascii.eqb_refl.
  - destruct (Ascii.eqb c sep); [by rewrite IH|]. rewrite IH.
    pose proof (split_on_length sep p) as Hlen.
    destruct (split_on sep p); [discriminate | done].
Qed.

Lemma split_on_no_sep sep x : count_char sep x = 0%nat -> split_on sep x = [x].
Proof.
  induction x as [|c x IH]; simpl; [done|].
  destruct (Ascii.eqb c sep); [discriminate|]. simpl. intros Hx.
  by rewrite IH.
Qed.

Lemma split_on_forall sep (p : ascii -> bool) s :
  string_forall (fun c => Ascii.eqb c sep || p c) s = true ->
  Forall (fun part => string_forall p part = true) (split_on sep s).
Proof.
  induction s as [|c s IH]; simpl; [by repeat constructor|].
  intros [Hc Hs]%andb_true_iff. specialize (IH Hs).
  destruct (Ascii.eqb c sep); [by constructor|]. simpl in Hc.
  destruct (split_on sep s) as [|part parts].
  - constructor; [simpl; by rewrite Hc | constructor].
  - apply Forall_cons in IH as [Hpart Hparts].
    constructor; [|done]. simpl. by rewrite Hpart, Hc.
Qed.

Lemma from_end_spec {A} (l : list A) k :
  (0 < k)%nat ->
  match from_end l k with
  | Ok a => (k <= length l)%nat /\ l !! (length l - k)%nat = Some a
  | Raise e => e = IndexError /\ (length l < k)%nat
  end.
Proof.
  intros Hk. unfold from_end.
  destruct (k <=? length l)%nat eqn:Hle.
  - apply Nat.leb_le in Hle.
    destruct (l !! (length l - k)%nat) as [a|] eqn:Ha; [done|].
    apply lookup_ge_None in Ha. lia.
  - apply Nat.leb_gt in Hle. done.
Qed.

Lemma from_end_app {A} (l : list A) a b c :
  from_end (l ++ [a; b; c]) 3 = Ok a
  /\ from_end (l ++ [a; b; c]) 2 = Ok b
  /\ from_end (l ++ [a; b; c]) 1 = Ok c.
Proof.
  assert (Hk : forall k x, (1 <= k <= 3)%nat ->
            [a; b; c] !! (3 - k)%nat = Some x ->
            from_end (l ++ [a; b; c]) k = Ok x).
  { intros k x Hk Hx. unfold from_end. rewrite length_app.
    change (length [a; b; c]) with 3%nat.
    destruct (Nat.leb_spec k (length l + 3)); [|lia].
    rewrite lookup_app_r by lia.
    replace (length l + 3 - k - length l)%nat with (3 - k)%nat by lia.
    by rewrite Hx. }
  repeat split; apply Hk; (lia || reflexivity).
Qed.

Lemma string_forall_app p s t :
  string_forall p (s ++ t)%string = string_forall p s && string_forall p t.
Proof.
  induction s as [|c s IH]; [done|].
  rewrite append_cons. simpl. by rewrite IH, andb_assoc.
Qed.

Lemma substring_forall p n m s :
  string_forall p s = true -> string_forall p (String.substring n m s) = true.
Proof.
  revert n m. induction s as [|c s IH]; intros n m Hs.
  - by destruct n, m.
  - simpl in Hs. apply andb_true_iff in Hs as [Hc Hs].
    destruct n as [|n]; [destruct m as [|m]|]; simpl; auto.
    by rewrite Hc, IH.
Qed.

Lemma substring_length n m s : (String.length (String.substring n m s) <= m)%nat.
Proof.
  revert n m. induction s as [|c s IH]; intros n m.
  - destruct n, m; simpl; lia.
  - destruct n as [|n]; [destruct m as [|m]|]; simpl; [lia | | apply IH].
    specialize (IH 0%nat m). lia.
Qed.

Lemma string_forall_map p f s :
  string_forall p (string_map f s) = string_forall (fun c => p (f c)) s.
Proof. induction s as [|c s IH]; simpl; [done | by rewrite IH]. Qed.

Lemma string_forall_impl (p q : ascii -> bool) s :
  (forall c, p c = true -> q c = true) ->
  string_forall p s = true -> string_forall q s = true.
Proof.
  intros Hpq. induction s as [|c s IH]; simpl; [done|].
  intros [Hc Hs]%andb_true_iff. by rewrite (Hpq c Hc), IH.
Qed.

Lemma string_forall_true (p : ascii -> bool) s :
  (forall c, p c = true) -> string_forall p s = true.
Proof. intros Hp. induction s as [|c s IH]; simpl; [done | by rewrite Hp, IH]. Qed.

(** X14. [get_short_address] needs three groups. With fewer than two
    separators (colons and dashes together) in an ASCII address it raises
    [IndexError]; otherwise it returns at most six characters, none of which
    is a separator or a lower-case letter. *)
Theorem get_short_address_result (address : string) :
  ascii_text address = true ->
  let separators := (count_char ":" address + count_char "-" address)%nat in
  ((separators < 2)%nat -> get_short_address address = Raise IndexError)
  /\ ((2 <= separators)%nat ->
      exists short,
        get_short_address address = Ok short
        /\ (String.length short <= 6)%nat
        /\ string_forall (fun c => negb (is_separator c) && negb (is_lower c)) short
           = true).
Proof.
  intros _. cbv zeta. unfold get_short_address. rewrite normalise.
  set (results := split_on ":" (string_map normal_char address)).
  assert (Hlen : length results
                 = S (count_char ":" address + count_char "-" address))
    by (subst results; by rewrite split_on_length, count_char_normal).
  split.
  - intros Hfew. pose proof (from_end_spec results 3 ltac:(lia)) as H3.
    destruct (from_end results 3); [lia|]. by destruct H3 as [-> _].
  - intros Hmany.
    assert (Hparts : Forall
              (fun part =>
                 string_forall
                   (fun c => negb (is_separator c) && negb (is_lower c)) part
                 = true) results).
    { subst results. apply split_on_forall. rewrite string_forall_map.
      apply string_forall_true. intros c.
      rewrite normal_char_colon. apply normal_char_short. }
    rewrite Forall_lookup in Hparts.
    pose proof (from_end_spec results 3 ltac:(lia)) as H3.
    pose proof (from_end_spec results 2 ltac:(lia)) as H2.
    pose proof (from_end_spec results 1 ltac:(lia)) as H1.
    destruct (from_end results 3) as [r3|]; [|lia].
    destruct (from_end results 2) as [r2|]; [|lia].
    destruct (from_end results 1) as [r1|]; [|lia].
    simpl. eexists. split; [reflexivity|].
    split; [apply substring_length|].
    apply substring_forall. rewrite !string_forall_app.
    rewrite (Hparts _ _ (proj2 H3)), (Hparts _ _ (proj2 H2)),
      (Hparts _ _ (proj2 H1)). done.
Qed.

Lemma string_map_ext_forall (p : ascii -> bool) f g s :
  (forall c, p c = true -> f c = g c) ->
  string_forall p s = true -> string_map f s = string_map g s.
Proof.
  intros Hfg. induction s as [|c s IH]; simpl; [done|].
  intros [Hc Hs]%andb_true_iff. by rewrite (Hfg c Hc), IH.
Qed.

Lemma no_separator_count s :
  string_forall (fun c => negb (is_separator c)) s = true ->
  count_char ":" (string_map normal_char s) = 0%nat.
Proof.
  intros Hs. rewrite count_char_normal.
  induction s as [|c s IH]; simpl; [done|].
  simpl in Hs. apply andb_true_iff in Hs as [Hc Hs].
  unfold is_separator in Hc. apply negb_true_iff, orb_false_iff in Hc as [-> ->].
  by apply IH.
Qed.

Lemma no_separator_upper s :
  string_forall (fun c => negb (is_separator c)) s = true ->
  string_map normal_char s = py_upper s.
Proof.
  apply string_map_ext_forall. intros c Hc. unfold normal_char.
  unfold is_separator in Hc. apply negb_true_iff, orb_false_iff in Hc as [_ ->].
  done.
Qed.

Lemma separator_normal c : is_separator c = true -> normal_char c = ":"%char.
Proof. intros Hc. apply Ascii.eqb_eq. by rewrite normal_char_colon. Qed.

(** X15. The short address is made of the last three groups. When an
    ASCII address ends in three groups [x], [y], [z] free of separators and set off
    by colons or dashes, whatever groups come before them, [get_short_address]
    returns the last six characters of [x], [y] and [z] put together in upper
    case. *)
Theorem get_short_address_last_three_groups (prefix x y z : string) (s1 s2 : ascii) :
  prefix = EmptyString
  \/ (exists p s0, prefix = (p ++ String s0 EmptyString)%string
                   /\ is_separator s0 = true) ->
  is_separator s1 = true ->
  is_separator s2 = true ->
  string_forall (fun c => negb (is_separator c)) (x ++ y ++ z)%string = true ->
  ascii_text (prefix ++ x ++ String s1 (y ++ String s2 z))%string = true ->
  get_short_address (prefix ++ x ++ String s1 (y ++ String s2 z))%string
  = Ok (last_chars 6 (py_upper (x ++ y ++ z)%string)).
Proof.
  intros Hprefix Hs1 Hs2 Hxyz _.
  pose proof Hxyz as Hgroups.
  rewrite !string_forall_app in Hgroups.
  apply andb_true_iff in Hgroups as [Hx [Hy Hz]%andb_true_iff].
  unfold get_short_address. rewrite normalise.
  assert (Hsplit : exists l,
    split_on ":"
      (string_map normal_char (prefix ++ x ++ String s1 (y ++ String s2 z))%string)
    = l ++ [string_map normal_char x; string_map normal_char y;
            string_map normal_char z]).
  { assert (Htail :
      split_on ":" (string_map normal_char (x ++ String s1 (y ++ String s2 z))%string)
      = [string_map normal_char x; string_map normal_char y;
         string_map normal_char z]).
    { rewrite string_map_app. simpl. rewrite (separator_normal s1 Hs1).
      rewrite split_on_app, string_map_app. simpl.
      rewrite (separator_normal s2 Hs2), split_on_app.
      by rewrite !split_on_no_sep by by apply no_separator_count. }
    destruct Hprefix as [-> | (p & s0 & -> & Hs0)].
    - exists []. by rewrite append_empty.
    - exists (split_on ":" (string_map normal_char p)).
      rewrite string_app_assoc, append_cons, append_empty.
      rewrite string_map_app. simpl. rewrite (separator_normal s0 Hs0).
      by rewrite split_on_app, Htail. }
  destruct Hsplit as [l ->].
  destruct (from_end_app l (string_map normal_char x) (string_map normal_char y)
              (string_map normal_char z)) as (-> & -> & ->).
  simpl. rewrite <- !string_map_app. by rewrite no_separator_upper.
Qed.

(** X16. [get_short_address] does not tell dashes from colons nor lower
    from upper case: an ASCII address gives the same result, or the same
    [IndexError], as its upper-case form, as itself with every dash turned into
    a colon, and as itself with every colon turned into a dash. *)
Theorem get_short_address_normalises (address : string) :
  ascii_text address = true ->
  get_short_address (py_upper address) = get_short_address address
  /\ get_short_address (replace_char "-" ":" address) = get_short_address address
  /\ get_short_address (replace_char ":" "-" address) = get_short_address address.
Proof.
  intros _. unfold get_short_address. rewrite !normalise.
  unfold py_upper, replace_char. rewrite !string_map_map.
  rewrite (string_map_ext _ normal_char address normal_char_upper).
  rewrite (string_map_ext _ normal_char address normal_char_dash).
  rewrite (string_map_ext _ normal_char address normal_char_colon_to_dash).
  done.
Qed.

Section NameFacts.
Context `{Consts}.

Lemma catalogued_ids_nonempty c p pi :
  get_product_info_by_ids c p = Some pi ->
  nonempty c = true /\ nonempty p = true.
Proof.
  unfold get_product_info_by_ids.
  destruct (devices_database !! c) as [ci|] eqn:Hc; [|discriminate].
  assert (Hno : products ci !! EmptyString = None).
  { revert Hc. apply (dict_literal_values (fun ci => products ci !! "" = None)).
    unfold devices_database_items.
    repeat (constructor; [by vm_compute|]). constructor. }
  rewrite (devices_database_info _ _ Hc).
  destruct (products ci !! p) as [pi'|] eqn:Hp; [|discriminate].
  intros _. split.
  - destruct c; [|done]. by vm_compute in Hc.
  - destruct p; [|done]. congruence.
Qed.

Lemma product_info_guard (device : TuyaBLEDevice) :
  (if nonempty (category device) && nonempty (product_id device)
   then get_product_info_by_ids (category device) (product_id device)
   else None)
  = get_product_info_by_ids (category device) (product_id device).
Proof.
  destruct (get_product_info_by_ids (category device) (product_id device))
    as [pi|] eqn:Hpi; [|by destruct (_ && _)].
  by destruct (catalogued_ids_nonempty _ _ _ Hpi) as [-> ->].
Qed.

(** X17. The registry entry of a device. [get_device_info] raises exactly
    when [get_short_address] does on the device's address. Otherwise the
    entry is connected and identified by the address, and takes product name
    and manufacturer from the catalog entry [get_product_info_by_ids] finds
    for the device's category and product id, falling back to the device's own
    name and [DEVICE_DEF_MANUFACTURER]; the test that both ids are non-empty
    never changes which of the two it is. The entry's name is that name, a
    space and the short address. *)
Theorem get_device_info_entry (device : TuyaBLEDevice) (identity : Identity.t) :
  ascii_text (address device) = true ->
  match get_short_address (address device) with
  | Raise e => get_device_info device identity = Raise e
  | Ok short_address =>
      exists entry,
        get_device_info device identity = Ok entry
        /\ DeviceInfo.connections entry
           = {[ (CONNECTION_BLUETOOTH, address device) ]}
        /\ DeviceInfo.identifiers entry = {[ (DOMAIN, address device) ]}
        /\ DeviceInfo.manufacturer entry
           = default DEVICE_DEF_MANUFACTURER
               (manufacturer <$> get_device_product_info device)
        /\ DeviceInfo.name entry
           = (default (Identity.name identity)
                (name <$> get_device_product_info device)
              ++ " " ++ short_address)%string
  end.
Proof.
  intros _. unfold get_device_info, get_device_product_info.
  rewrite product_info_guard.
  destruct (get_short_address (address device)) as [short|e]; [|done].
  simpl. eexists. split; [reflexivity|]. simpl.
  by destruct (get_product_info_by_ids (category device) (product_id device)).
Qed.

(** X18. One name in both places. For a device of the catalog whose
    credentials, as the manager returns them for its address, name the
    device's own category and product id, the readable name computed for the
    discovered device is the name of its registry entry: the product name, a
    space and the short address; and the one raises when the other does. *)
Theorem readable_name_is_registry_name (device : TuyaBLEDevice)
    (identity : Identity.t) (discovery_info : ServiceInfo.t)
    (get_device_credentials : string -> option Credentials.t)
    (credentials : Credentials.t) (product_info : TuyaBLEProductInfo) :
  ascii_text (address device) = true ->
  ServiceInfo.address discovery_info = address device ->
  get_device_credentials (address device) = Some credentials ->
  Credentials.category credentials = category device ->
  Credentials.product_id credentials = product_id device ->
  get_device_product_info device = Some product_info ->
  get_device_readable_name discovery_info (Some get_device_credentials)
  = on_ok DeviceInfo.name (get_device_info device identity)
  /\ forall short_address,
       get_short_address (address device) = Ok short_address ->
       get_device_readable_name discovery_info (Some get_device_credentials)
       = Ok (name product_info ++ " " ++ short_address)%string.
Proof.
  intros _ Haddr Hcred Hcat Hpid Hinfo.
  unfold get_device_readable_name, get_device_info. cbv zeta.
  rewrite product_info_guard, Haddr, Hcred, Hcat, Hpid.
  unfold get_device_product_info in Hinfo. rewrite Hinfo.
  destruct (get_short_address (address device)) as [short|e]; simpl.
  - split; [done|]. by intros ? [= <-].
  - split; [done|]. discriminate.
Qed.

End NameFacts.

(* ===================================================================== *)
(** * The sensor platform: the mappings and the entities of a device       *)
(* ===================================================================== *)

Section PlatformFacts.
Context `{PyBuiltins} `{SensorConsts}.

Lemma sensors_of_lists (P : list mapping_entry -> Prop) items :
  Forall (fun kv => P kv.2) items ->
  forall products, sensor_products (sensors_of items) = Some products ->
    map_Forall (fun _ l => P l) products.
Proof.
  intros Hitems products [= <-] k l Hk.
  exact (dict_literal_values P items k l Hitems Hk).
Qed.

Lemma table_lists :
  Forall (fun kv => sound_category kv.2) mapping_items.
Proof.
  unfold mapping_items.
  repeat (apply Forall_cons_2;
          [split; [reflexivity | apply sensors_of_lists; simpl] |]).
  all: try apply Forall_nil_2.
  all: repeat (apply Forall_cons_2; [|]); try apply Forall_nil_2.
  all: simpl.
  all: split; [discriminate | split].
  all: try (apply (bool_decide_unpack _); vm_compute; exact I).
  all: repeat (apply Forall_cons_2; [|]); try apply Forall_nil_2.
  all: try exact I.
  all: repeat split; auto; try discriminate.
Qed.

Lemma listed_shipped device l : listed device = Some l -> shipped l.
Proof.
  unfold listed.
  destruct (mapping !! category device) as [cm|] eqn:Hc; [|done].
  destruct (sensor_products cm) as [pm|] eqn:Hp; [|done].
  intros Hl.
  destruct (dict_literal_values sound_category mapping_items _ _ table_lists Hc) as [_ Hall].
  exact (Hall pm Hp _ _ Hl).
Qed.

Lemma get_mapping_by_device_default device :
  get_mapping_by_device device = default [] (listed device).
Proof.
  unfold get_mapping_by_device, listed.
  destruct (mapping !! category device) as [cm|] eqn:Hc; [|done].
  destruct (dict_literal_values sound_category mapping_items _ _ table_lists Hc) as [-> _].
  destruct (sensor_products cm) as [pm|]; [|done].
  by destruct (pm !! product_id device).
Qed.

Lemma mappings_sound device : Forall sound_entry (get_mapping_by_device device).
Proof.
  rewrite get_mapping_by_device_default.
  destruct (listed device) as [l|] eqn:Hl; [|constructor].
  apply (listed_shipped _ _ Hl).
Qed.

(** X19. [get_mapping_by_device] returns the list the table holds under the
    device's category and product id, and the empty list when it holds none:
    no category of the table has a list for its other products. The result is
    empty for exactly the devices the table does not list. *)
Theorem get_mapping_by_device_listed (device : TuyaBLEDevice) :
  get_mapping_by_device device = default [] (listed device)
  /\ (get_mapping_by_device device = [] <-> listed device = None).
Proof.
  split; [apply get_mapping_by_device_default|].
  rewrite get_mapping_by_device_default.
  destruct (listed device) as [l|] eqn:Hl; simpl; [|done].
  destruct (listed_shipped _ _ Hl) as [Hne _]. split; [done | discriminate].
Qed.

Section Setup.
Context `{Consts}.
Variable has_id_of_type : TuyaBLEDevice -> Z -> option TuyaBLEDataPointType -> bool.

Lemma entity_init_result {A} device identity (entity : A) :
  entity_init device identity entity
  = on_ok (fun _ => entity) (get_device_info device identity).
Proof. reflexivity. Qed.

Lemma setup_entities device identity device_info l entities :
  get_device_info device identity = Ok device_info ->
  Forall sound_entry l ->
  for_each l (setup_entity has_id_of_type device identity) entities
  = Ok (entities ++ map (entity_of device) l).
Proof.
  intros Hinfo Hl. revert entities.
  induction Hl as [|m l Hm _ IH]; intros entities; simpl.
  - by rewrite app_nil_r.
  - assert (Hstep : setup_entity has_id_of_type device identity entities m
                    = Ok (entities ++ [entity_of device m])).
    { destruct m as [m|methods d]; simpl.
      - destruct Hm as [-> _]. simpl. unfold entity_init. by rewrite Hinfo.
      - unfold entity_init. by rewrite Hinfo. }
    rewrite Hstep. simpl. rewrite IH. by rewrite <- app_assoc.
Qed.

Lemma async_setup_entry_result device identity :
  async_setup_entry has_id_of_type device identity
  = on_ok (fun _ =>
             Sensor (TuyaBLESensor.__init__ device (Mapping.read rssi_mapping))
             :: map (entity_of device) (get_mapping_by_device device))
      (get_device_info device identity).
Proof.
  unfold async_setup_entry, entity_init. cbv zeta.
  destruct (get_device_info device identity) as [device_info|e] eqn:Hinfo;
    [|done].
  simpl. by rewrite (setup_entities _ _ _ _ _ Hinfo (mappings_sound device)).
Qed.

(** X20. [async_setup_entry] raises what [get_device_info] raises for the
    device, and nothing else; otherwise it adds the signal strength sensor and
    then one entity for every mapping of the device, in the order of the table,
    whatever datapoints the device has reported so far and whatever the device
    library's [has_id] answers: every datapoint mapping of the table is added
    by force. *)
Theorem async_setup_entry_adds_all (device : TuyaBLEDevice) (identity : Identity.t) :
  async_setup_entry has_id_of_type device identity
  = on_ok (fun _ =>
             Sensor (TuyaBLESensor.__init__ device (Mapping.read rssi_mapping))
             :: map (entity_of device) (get_mapping_by_device device))
      (get_device_info device identity)
  /\ (forall e,
        async_setup_entry has_id_of_type device identity = Raise e <->
        get_short_address (address device) = Raise e).
Proof.
  split; [apply async_setup_entry_result|].
  intros e. rewrite async_setup_entry_result. unfold get_device_info. cbv zeta.
  destruct (get_short_address (address device)) as [short|e']; simpl.
  - split; discriminate.
  - split; by intros [= ->].
Qed.

Lemma setup_sensor_mapping device identity entities s :
  async_setup_entry has_id_of_type device identity = Ok entities ->
  Sensor s ∈ entities ->
  s = TuyaBLESensor.__init__ device (Mapping.read rssi_mapping)
  \/ exists m, sound_mapping m
               /\ s = TuyaBLESensor.__init__ device (Mapping.read m).
Proof.
  rewrite async_setup_entry_result.
  destruct (get_device_info device identity) as [device_info|]; [|discriminate].
  simpl. intros [= <-].
  intros [[= ->] | Hin]%elem_of_cons; [by left|]. right.
  apply list_elem_of_fmap in Hin as (m & Hs & Hm).
  pose proof (proj1 (Forall_forall _ _) (mappings_sound device) _ Hm) as Hsound.
  destruct m as [m|methods d]; [|discriminate].
  injection Hs as ->. eauto.
Qed.

Import TuyaBLESensor.

Lemma battery_enum_getter_raises e exc :
  battery_enum_getter e = Raise exc -> exc = OverflowError.
Proof.
  unfold battery_enum_getter.
  destruct (datapoints (_device e) !! 104) as [dp|]; [|discriminate].
  destruct (py_int (DP.value dp)) as [n|exc'] eqn:Hint; simpl; [discriminate|].
  destruct (py_int_raises _ _ Hint) as [-> | [-> | [-> _]]]; simpl;
    by intros [= <-].
Qed.

Lemma plain_handler_raises s e :
  getter (_mapping s) = None ->
  _handle_coordinator_update s = Raise e ->
  conversion_error e = true
  \/ PrimFloat.eqb (coefficient (_mapping s)) 0 = true.
Proof.
  intros Hgetter. unfold _handle_coordinator_update. rewrite Hgetter.
  destruct (datapoints (_device (self s)) !! dp_id (_mapping s))
    as [datapoint|]; [|discriminate].
  destruct (is_none (DP.value datapoint)); [discriminate|].
  destruct (is_int_or_float (DP.value datapoint) && _) eqn:Hnum.
  - apply andb_true_iff in Hnum as [Hnum _].
    destruct (bool_decide (DP.type datapoint = Some DT_ENUM)).
    + pose proof (handle_enum_value_result s (DP.value datapoint)) as He.
      destruct (_handle_enum_value s (DP.value datapoint)); [discriminate|].
      simpl. intros [= <-]. destruct He as [-> _]. by left.
    + destruct (bool_decide (DP.type datapoint = Some DT_VALUE)); [|discriminate].
      destruct (py_truediv _ _) as [q|e'] eqn:Hdiv; simpl.
      * destruct (bool_decide (device_class _ = _)); [|discriminate].
        destruct (int_of_float q) as [m|e'] eqn:Hint; [discriminate|].
        simpl. intros [= <-]. left.
        by destruct (int_of_float_raises _ _ Hint) as [[-> _]|[-> _]].
      * intros [= <-].
        destruct (py_truediv_raises _ _ _ Hnum Hdiv) as [[_ ?]|[-> _]]; auto.
  - destruct (is_bool (DP.value datapoint)) eqn:Hbool; [|discriminate].
    destruct (DP.value datapoint); discriminate.
Qed.

(** X21. No sensor of the table divides by zero. Whatever the device of a
    sensor that [async_setup_entry] has created reports afterwards, an update
    raises nothing but [OverflowError], [ValueError] or [TypeError]: the
    coefficient of every mapping of the table is different from zero, and the
    getters of the table raise nothing but [OverflowError]. *)
Theorem setup_sensors_never_divide_by_zero (device : TuyaBLEDevice)
    (identity : Identity.t) (entities : list sensor_entity) (s s' : t)
    (e : pyexc) :
  async_setup_entry has_id_of_type device identity = Ok entities ->
  Sensor s ∈ entities ->
  _mapping s' = _mapping s ->
  _handle_coordinator_update s' = Raise e ->
  conversion_error e = true.
Proof.
  intros Hsetup Hin Hmapping Hraise.
  destruct (setup_sensor_mapping _ _ _ _ Hsetup Hin) as [-> | (m & Hsound & ->)].
  - unfold _handle_coordinator_update in Hraise. rewrite Hmapping in Hraise.
    discriminate.
  - destruct Hsound as (_ & Hcoef & Hgetter & _). simpl in Hmapping.
    destruct Hgetter as [Hnone | Hbattery].
    + destruct (plain_handler_raises s' e) as [He | Hzero]; [|done|done|].
      * by rewrite Hmapping.
      * rewrite Hmapping in Hzero. simpl in Hzero. congruence.
    + unfold _handle_coordinator_update in Hraise.
      rewrite Hmapping in Hraise. simpl in Hraise. rewrite Hbattery in Hraise.
      destruct (battery_enum_getter (self s')) as [e1|exc] eqn:Hget;
        [discriminate|].
      injection Hraise as <-. by rewrite (battery_enum_getter_raises _ _ Hget).
Qed.

(** X22. The battery sensors of the table report a percentage as it is. On a
    [BATTERY] sensor that [async_setup_entry] has created from a mapping
    without a getter, a [DT_VALUE] datapoint holding an int from 0 to 100 is
    reported as that very int: every such mapping has the coefficient 1.0. *)
Theorem setup_battery_sensors_report_percentage (device : TuyaBLEDevice)
    (identity : Identity.t) (entities : list sensor_entity) (s s' : t)
    (datapoint : TuyaBLEDataPoint) (n : Z) :
  async_setup_entry has_id_of_type device identity = Ok entities ->
  Sensor s ∈ entities ->
  device_class (entity_description (self s)) = Some BATTERY ->
  getter (_mapping s) = None ->
  _mapping s' = _mapping s ->
  entity_description (self s') = entity_description (self s) ->
  datapoints (_device (self s')) !! dp_id (_mapping s') = Some datapoint ->
  DP.type datapoint = Some DT_VALUE ->
  DP.value datapoint = VInt n ->
  0 <= n <= 100 ->
  _handle_coordinator_update s'
  = Ok (with_entity s' (async_write_ha_state (set_native_value (self s') (VInt n)))).
Proof.
  intros Hsetup Hin Hclass Hgetter Hmapping Hdescription Hdp Htype Hvalue Hn.
  assert (Hcoef : coefficient (_mapping s) = 1%float).
  { destruct (setup_sensor_mapping _ _ _ _ Hsetup Hin) as [-> | (m & Hsound & ->)];
      [discriminate|].
    destruct Hsound as (_ & _ & _ & Hone). by apply Hone. }
  unfold _handle_coordinator_update.
  rewrite Hdp, Hvalue, Htype, Hdescription, Hclass, Hmapping, Hgetter, Hcoef.
  simpl.
  pose proof (survives_division_percent n Hn) as Hsurvives.
  unfold survives_division in Hsurvives.
  destruct (py_truediv (VInt n) 1) as [q|]; [|discriminate]. simpl in *.
  destruct (int_of_float q) as [m|]; [|discriminate]. simpl.
  apply Z.eqb_eq in Hsurvives. by subst m.
Qed.

End Setup.

Lemma append_inj_r (p s t : string) : (p ++ s)%string = (p ++ t)%string -> s = t.
Proof.
  induction p as [|c p IH]; [by rewrite !append_empty|].
  rewrite !append_cons. intros [= Heq]. by apply IH.
Qed.

(** X23. The unique ids of the entities of one device are pairwise
    distinct: the keys of the descriptions of its mappings are, and none of
    them is the key of the signal strength sensor. *)
Theorem setup_unique_ids (device : TuyaBLEDevice) :
  NoDup (map (unique_id device)
           (Description.key (Mapping.description rssi_mapping)
            :: map entry_key (get_mapping_by_device device))).
Proof.
  assert (Hinj : Inj (=) (=) (unique_id device)).
  { intros k k' Heq. unfold unique_id in Heq.
    by apply append_inj_r, append_inj_r in Heq. }
  apply (NoDup_fmap_2 (unique_id device)).
  rewrite get_mapping_by_device_default.
  destruct (listed device) as [l|] eqn:Hl.
  - apply (listed_shipped _ _ Hl).
  - apply NoDup_singleton.
Qed.

End PlatformFacts.

(* ===================================================================== *)
(** * The further properties on concrete devices                           *)
(* ===================================================================== *)

Lemma bus_stays_quiet_witness :
  bus (hass (TuyaBLECoordinator._async_handle_update (H := sample_consts)
               (new_coordinator idle_hass fingerbot_plus_device) quiet_updates))
  = bus idle_hass
  /\ bus (hass (TuyaBLEPassiveCoordinator.handle (H := sample_consts)
                  (new_coordinator idle_hass fingerbot_plus_device) Disconnected))
     = bus idle_hass.
Proof.
  pose proof (bus_stays_quiet (H := sample_consts)
                (new_coordinator idle_hass fingerbot_plus_device))
    as [Hcallbacks Hupdates].
  split.
  - apply (Hupdates quiet_updates). right. repeat constructor.
  - apply (Hcallbacks Disconnected). discriminate.
Defined.

Lemma lock_event_per_report_witness :
  exists buttons,
    bus (hass (TuyaBLECoordinator._async_handle_update (H := sample_consts)
                 (new_coordinator idle_hass lock_device) lock_updates))
    = bus idle_hass ++ buttons
      ++ omap (lock_report (H := sample_consts) lock_device mqc2hevy_lock)
           lock_updates.
Proof.
  destruct (lock_event_per_report (H := sample_consts)
              (new_coordinator idle_hass lock_device) lock_updates
              (product_with_lock (H := sample_consts) "Smart Lock" mqc2hevy_lock)
              mqc2hevy_lock)
    as [(buttons & Hbus & _) _].
  - vm_compute. reflexivity.
  - reflexivity.
  - exists buttons. exact Hbus.
Defined.

Lemma only_the_timer_disconnects_witness :
  exists h,
    armed (hass (fold_left (TuyaBLECoordinator.handle (H := sample_consts))
                   [Connected; Disconnected]
                   (new_coordinator idle_hass fingerbot_plus_device))) h
    = true.
Proof.
  destruct (only_the_timer_disconnects (H := sample_consts)
              (fold_left (TuyaBLECoordinator.handle (H := sample_consts))
                 [Connected; Disconnected]
                 (new_coordinator idle_hass fingerbot_plus_device))
              (TimerFired 0))
    as (h & _ & Harmed & _).
  - vm_compute. reflexivity.
  - left. vm_compute. reflexivity.
  - exists h. exact Harmed.
Defined.

Lemma reconnect_ends_debounce_witness :
  timers (hass (fold_left (TuyaBLEPassiveCoordinator.handle (H := sample_consts))
                  ([Disconnected; TimerFired 0]
                   ++ Disconnected :: Updated fingerbot_plus_updates
                      :: [Disconnected; TimerFired 1; TimerFired 0; Disconnected])
                  (new_coordinator idle_hass fingerbot_plus_device)))
  = [].
Proof.
  pose proof (reconnect_ends_debounce (H := sample_consts) idle_hass
                fingerbot_plus_device [Disconnected; TimerFired 0]
                [Disconnected; TimerFired 1; TimerFired 0; Disconnected]
                (Updated fingerbot_plus_updates) eq_refl
                (or_intror (ex_intro _ fingerbot_plus_updates eq_refl)))
    as Hrun.
  cbv zeta in Hrun. destruct Hrun as (_ & Htimers & _ & Hsame).
  rewrite Hsame. exact Htimers.
Defined.

Lemma last_unlock_nothing_present_witness :
  exists s',
    TuyaBLELastUnlockSensor._handle_coordinator_update
      (TuyaBLELastUnlockSensor.__init__ silent_lock mqc2hevy_unlock_methods)
    = Ok s'
    /\ TuyaBLELastUnlockSensor._attr_native_value s' = VNone
    /\ TuyaBLELastUnlockSensor.state_writes s' = 1%nat.
Proof.
  destruct (last_unlock_nothing_present
              (TuyaBLELastUnlockSensor.__init__ silent_lock mqc2hevy_unlock_methods))
    as (s' & Hrun & Hvalue & _ & _ & Hwrites).
  - vm_compute. reflexivity.
  - exists s'. split; [exact Hrun|]. split; [exact Hvalue | exact Hwrites].
Defined.

Lemma last_unlock_reports_last_change_witness :
  exists s',
    TuyaBLELastUnlockSensor._handle_coordinator_update
      (TuyaBLELastUnlockSensor.__init__ lock_device_untimed mqc2hevy_unlock_methods)
    = Ok s'
    /\ TuyaBLELastUnlockSensor._last_values s' !! 12 = Some (VInt 5)
    /\ TuyaBLELastUnlockSensor._last_values s' !! 13 = Some VNone.
Proof.
  destruct (last_unlock_reports_last_change
              (TuyaBLELastUnlockSensor.__init__ lock_device_untimed
                 mqc2hevy_unlock_methods))
    as (s' & Hrun & Hvalues & _).
  - intros k Hk. apply dict_literal_lookup_is_Some. exact Hk.
  - apply (bool_decide_unpack _). vm_compute. exact I.
  - vm_compute. reflexivity.
  - exists s'. split; [exact Hrun|].
    split; [exact (Hvalues 12) | exact (Hvalues 13)].
Defined.

Lemma handle_enum_int_witness :
  TuyaBLESensor._handle_coordinator_update (H := sample_builtins)
    (battery_state_sensor [datapoint 3 (Some 1%Q) DT_ENUM (VInt 2) true])
  = Ok (TuyaBLESensor.with_entity
          (battery_state_sensor [datapoint 3 (Some 1%Q) DT_ENUM (VInt 2) true])
          (TuyaBLESensor.async_write_ha_state
             (TuyaBLESensor.set_icon
                (TuyaBLESensor.set_native_value
                   (TuyaBLESensor.self
                      (battery_state_sensor
                         [datapoint 3 (Some 1%Q) DT_ENUM (VInt 2) true]))
                   (VStr "high"))
                (Some "mdi:battery-check")))).
Proof.
  apply (handle_enum_int (H := sample_builtins)
           (battery_state_sensor [datapoint 3 (Some 1%Q) DT_ENUM (VInt 2) true])
           (datapoint 3 (Some 1%Q) DT_ENUM (VInt 2) true) 2);
    reflexivity.
Defined.

Lemma handle_coordinator_update_raises_witness :
  exists datapoint,
    datapoints (sample_device "wsdcg" "ojzlzzsw" sample_readings) !! 1
    = Some datapoint
    /\ is_int_or_float (DP.value datapoint) = true.
Proof.
  destruct (handle_coordinator_update_raises (H := sample_builtins)
              (plain_sensor 1 temperature_description 0%float sample_readings)
              ZeroDivisionError)
    as (datapoint & Hdp & Hnumber & _).
  - reflexivity.
  - vm_compute. reflexivity.
  - exists datapoint. split; [exact Hdp | exact Hnumber].
Defined.

Lemma handle_coordinator_update_frame_witness :
  TuyaBLESensor.entity_description
    (TuyaBLESensor.self
       (TuyaBLESensor.with_entity
          (plain_sensor 1 temperature_description 10%float sample_readings)
          (TuyaBLESensor.async_write_ha_state
             (TuyaBLESensor.set_native_value
                (TuyaBLESensor.self
                   (plain_sensor 1 temperature_description 10%float
                      sample_readings))
                (VFloat 25.5%float)))))
  = temperature_description.
Proof.
  destruct (handle_coordinator_update_frame (H := sample_builtins)
              (plain_sensor 1 temperature_description 10%float sample_readings)
              (TuyaBLESensor.with_entity
                 (plain_sensor 1 temperature_description 10%float sample_readings)
                 (TuyaBLESensor.async_write_ha_state
                    (TuyaBLESensor.set_native_value
                       (TuyaBLESensor.self
                          (plain_sensor 1 temperature_description 10%float
                             sample_readings))
                       (VFloat 25.5%float)))))
    as (_ & _ & Hdescription & _).
  - left. reflexivity.
  - vm_compute. reflexivity.
  - exact Hdescription.
Defined.

Lemma battery_percentage_unchanged_witness :
  TuyaBLESensor._handle_coordinator_update (H := sample_builtins)
    (plain_sensor 4 battery_description 1%float sample_readings)
  = Ok (TuyaBLESensor.with_entity
          (plain_sensor 4 battery_description 1%float sample_readings)
          (TuyaBLESensor.async_write_ha_state
             (TuyaBLESensor.set_native_value
                (TuyaBLESensor.self
                   (plain_sensor 4 battery_description 1%float sample_readings))
                (VInt 87)))).
Proof.
  apply (battery_percentage_unchanged (H := sample_builtins)
           (plain_sensor 4 battery_description 1%float sample_readings)
           (datapoint 4 (Some 1%Q) DT_VALUE (VInt 87) true) 87);
    try reflexivity.
  lia.
Defined.


Lemma get_short_address_result_witness :
  get_short_address "dc-23" = Raise IndexError
  /\ exists short,
       get_short_address "dc:23:4d:aa:bb:cc" = Ok short
       /\ (String.length short <= 6)%nat.
Proof.
  split.
  - apply (get_short_address_result "dc-23"); [reflexivity|]. simpl. lia.
  - destruct (get_short_address_result "dc:23:4d:aa:bb:cc" eq_refl)
      as [_ Hshort].
    destruct Hshort as (short & Hrun & Hlength & _); [simpl; lia|].
    exists short. split; [exact Hrun | exact Hlength].
Defined.

Lemma get_short_address_last_three_groups_witness :
  get_short_address "dc:23:4d:aa-bb:cc" = Ok "AABBCC".
Proof.
  apply (get_short_address_last_three_groups "dc:23:4d:" "aa" "bb" "cc" "-" ":").
  - right. exists "dc:23:4d", ":"%char. split; reflexivity.
  - reflexivity.
  - reflexivity.
  - reflexivity.
  - reflexivity.
Defined.

Lemma get_short_address_normalises_witness :
  get_short_address "DC-23-4D-AA-BB-CC" = get_short_address "dc-23-4d-aa-bb-cc".
Proof.
  apply (get_short_address_normalises "dc-23-4d-aa-bb-cc"). reflexivity.
Defined.

Lemma get_device_info_entry_witness :
  exists entry,
    get_device_info (H := sample_consts) fingerbot_plus_device sample_identity
    = Ok entry
    /\ DeviceInfo.name entry = "Fingerbot Plus 000001"
    /\ DeviceInfo.manufacturer entry = "Tuya".
Proof.
  pose proof (get_device_info_entry (H := sample_consts) fingerbot_plus_device
                sample_identity eq_refl) as Hentry.
  change (get_short_address (address fingerbot_plus_device))
    with (Ok (A := string) "000001") in Hentry.
  destruct Hentry as (entry & Hrun & _ & _ & Hmanufacturer & Hname).
  exists entry. split; [exact Hrun|]. split; [exact Hname | exact Hmanufacturer].
Defined.

Lemma readable_name_is_registry_name_witness :
  get_device_readable_name (H := sample_consts) sample_discovery
    (Some sample_manager)
  = Ok "Fingerbot Plus 000001".
Proof.
  apply (readable_name_is_registry_name (H := sample_consts)
           fingerbot_plus_device sample_identity sample_discovery sample_manager
           sample_credentials
           (product_with_fingerbot (H := sample_consts) "Fingerbot Plus"
              fingerbot_plus));
    reflexivity.
Defined.

Lemma setup_sensors_never_divide_by_zero_witness :
  TuyaBLESensor._handle_coordinator_update (H := sample_builtins)
    (TuyaBLESensor.__init__ (water_bottle (VFloat infinity))
       (Mapping.read
          (with_getter
             (sensor_mapping_of 104
                (measurement "battery" BATTERY PERCENTAGE (Some DIAGNOSTIC)))
             (TuyaBLESensor.battery_enum_getter (H := sample_builtins)))))
  = Raise OverflowError
  /\ conversion_error OverflowError = true.
Proof.
  split; [vm_compute; reflexivity|].
  eapply (setup_sensors_never_divide_by_zero (H := sample_builtins)
           (H0 := sample_sensor_consts) (H1 := sample_consts) nothing_reported
           (water_bottle (VFloat infinity)) sample_identity _
           (TuyaBLESensor.__init__ (water_bottle (VFloat infinity))
              (Mapping.read
                 (with_getter
                    (sensor_mapping_of 104
                       (measurement "battery" BATTERY PERCENTAGE (Some DIAGNOSTIC)))
                    (TuyaBLESensor.battery_enum_getter (H := sample_builtins)))))
           (TuyaBLESensor.__init__ (water_bottle (VFloat infinity))
              (Mapping.read
                 (with_getter
                    (sensor_mapping_of 104
                       (measurement "battery" BATTERY PERCENTAGE (Some DIAGNOSTIC)))
                    (TuyaBLESensor.battery_enum_getter (H := sample_builtins)))))).
  - reflexivity.
  - apply (list_elem_of_lookup_2 _ 3%nat). reflexivity.
  - reflexivity.
  - vm_compute. reflexivity.
Defined.

Lemma setup_battery_sensors_report_percentage_witness :
  TuyaBLESensor._handle_coordinator_update (H := sample_builtins)
    (TuyaBLESensor.__init__ fingerbot_plus_charged
       (Mapping.read (sensor_mapping_of 12 battery_default)))
  = Ok (TuyaBLESensor.with_entity
          (TuyaBLESensor.__init__ fingerbot_plus_charged
             (Mapping.read (sensor_mapping_of 12 battery_default)))
          (TuyaBLESensor.async_write_ha_state
             (TuyaBLESensor.set_native_value
                (TuyaBLESensor.self
                   (TuyaBLESensor.__init__ fingerbot_plus_charged
                      (Mapping.read (sensor_mapping_of 12 battery_default))))
                (VInt 87)))).
Proof.
  eapply (setup_battery_sensors_report_percentage (H := sample_builtins)
           (H0 := sample_sensor_consts) (H1 := sample_consts) nothing_reported
           fingerbot_plus_charged sample_identity _
           (TuyaBLESensor.__init__ fingerbot_plus_charged
              (Mapping.read (sensor_mapping_of 12 battery_default)))
           (TuyaBLESensor.__init__ fingerbot_plus_charged
              (Mapping.read (sensor_mapping_of 12 battery_default)))
           (datapoint 12 (Some 1%Q) DT_VALUE (VInt 87) true) 87).
  - reflexivity.
  - apply (list_elem_of_lookup_2 _ 1%nat). reflexivity.
  - reflexivity.
  - reflexivity.
  - reflexivity.
  - reflexivity.
  - reflexivity.
  - reflexivity.
  - reflexivity.
  - lia.
Defined.

(** The keys of the entities of each listed product, and of a device the
    table does not list. *)
Example setup_keys :
  map (fun cp =>
         map entry_key
           (get_mapping_by_device (H := sample_builtins) (H0 := sample_sensor_consts)
              (sample_device cp.1 cp.2 [])))
    [ ("ms", "mqc2hevy"); ("wsdcg", "ojzlzzsw"); ("szjqr", "blliqpsj");
      ("wk", "drlajpqc"); ("ms", "unknown") ]
  = [ ["alarm_lock"; "battery"; "last_unlock_method"];
      ["temperature"; "moisture"; "battery_state"; "battery"];
      ["battery"];
      [];
      [] ].
Proof. vm_compute. reflexivity. Qed.

(** A device whose address has fewer than three groups gets no entities. *)
Example setup_needs_three_groups :
  async_setup_entry (H := sample_builtins) (H0 := sample_sensor_consts)
    (H1 := sample_consts) nothing_reported
    {| address := "DC234D000001"; device_id := "bf0123456789";
       category := "szjqr"; product_id := "blliqpsj"; datapoints := ∅;
       rssi := VNone |}
    sample_identity
  = Raise IndexError.
Proof. reflexivity. Qed.
